(** * katatachi: the Twitter media scraper worker

    A shallow embedding of
    [src/katatachi/contrib/worker/twitter_media_scraper.py]
    (class [TwitterMediaScraper]) and of the part of
    [src/katatachi/interface/worker/work_context.py] it uses, followed by
    the properties of the cursor protocol ([since_id]) that the worker
    implements in [process] and [post_process]. *)

From Stdlib Require Import ZArith Ascii String DecimalString DecimalZ DecimalPos DecimalFacts.
From stdpp Require Import gmap strings list.

Local Open Scope string_scope.
Local Open Scope list_scope.
Local Open Scope Z_scope.

(** ** Python builtins used by the worker *)

Module Py.

(** [str.lower()] on an ASCII string: 'A'..'Z' are mapped to 'a'..'z',
    every other byte is kept. *)
Definition lower_ascii (c : ascii) : ascii :=
  let n := nat_of_ascii c in
  if ((65 <=? n)%nat && (n <=? 90)%nat)%bool then ascii_of_nat (n + 32) else c.

Fixpoint lower (s : string) : string :=
  match s with
  | EmptyString => EmptyString
  | String c r => String (lower_ascii c) (lower r)
  end.

(** [sub in s] for strings: [sub] occurs in [s] as a contiguous substring. *)
Fixpoint contains (sub s : string) : bool :=
  if String.prefix sub s then true
  else match s with
       | EmptyString => false
       | String _ r => contains sub r
       end.

(** [str(n)] for an [int]: the decimal numeral, with a leading '-' for a
    negative number and no leading zeros. *)
Definition str_of_int (z : Z) : string :=
  NilZero.string_of_int (Z.to_int z).

(** Whitespace that [int(s)] strips on both sides once the string is in
    its ASCII form: \t \n \v \f \r and the space. *)
Definition is_space (c : ascii) : bool :=
  let n := nat_of_ascii c in
  (((9 <=? n)%nat && (n <=? 13)%nat) || (n =? 32)%nat)%bool.

Definition is_digit (c : ascii) : bool :=
  let n := nat_of_ascii c in ((48 <=? n)%nat && (n <=? 57)%nat)%bool.

Fixpoint lstrip (s : string) : string :=
  match s with
  | String c r => if is_space c then lstrip r else s
  | EmptyString => EmptyString
  end.

Fixpoint rstrip (s : string) : string :=
  match s with
  | EmptyString => EmptyString
  | String c r =>
      match rstrip r with
      | EmptyString => if is_space c then EmptyString else String c EmptyString
      | r' => String c r'
      end
  end.

Definition strip (s : string) : string := rstrip (lstrip s).

(** The digit part of a base-10 literal: decimal digits in which single
    underscores may separate two digits.  [prev] tells whether the
    previous character was a digit.  The result is the digits without
    the underscores; [None] when the literal is malformed. *)
Fixpoint digits_of (prev : bool) (s : string) : option string :=
  match s with
  | EmptyString => if prev then Some EmptyString else None
  | String c r =>
      if is_digit c then String c <$> digits_of true r
      else if (Ascii.eqb c "_" && prev)%bool then
             match r with
             | EmptyString => None
             | String c' _ => if is_digit c' then digits_of false r else None
             end
           else None
  end.

Definition nat_of_digits (s : string) : option Z :=
  Z.of_uint <$> NilZero.uint_of_string s.

Definition unsigned_of_str (s : string) : option Z :=
  digits_of false s ≫= nat_of_digits.

(** [int(s)] for a [str] argument, base 10, on the ASCII form of [s]:
    surrounding whitespace is dropped, one sign is allowed, then come the
    digits.  [None] stands for the [ValueError] Python raises on any other
    string. *)
Definition signed_of_str (s : string) : option Z :=
  match s with
  | String "+" r => unsigned_of_str r
  | String "-" r => Z.opp <$> unsigned_of_str r
  | r => unsigned_of_str r
  end.

(** A [str] is held as its UTF-8 bytes.  [code_points] gives its
    characters; it is [None] on bytes that are not the UTF-8 of a [str]:
    a wrong continuation, a sequence longer than its character needs, a
    surrogate, a value above 0x10FFFF. *)
Definition continuation (c : ascii) : option N :=
  let n := N_of_ascii c in
  if ((128 <=? n) && (n <? 192))%N then Some (n - 128)%N else None.

(** The character of a sequence of two, three or four bytes, of which
    [lo] is the least code point. *)
Definition of_sequence (lo cp : N) : option N :=
  if ((lo <=? cp) && (cp <=? 1114111) && negb ((55296 <=? cp) && (cp <=? 57343)))%N
  then Some cp else None.

Fixpoint code_points (s : string) : option (list N) :=
  match s with
  | EmptyString => Some []
  | String b r =>
      let n := N_of_ascii b in
      if (n <? 128)%N then cons n <$> code_points r
      else if (n <? 192)%N then None
      else if (n <? 224)%N then
        match r with
        | String b1 r1 =>
            match continuation b1 with
            | Some c1 =>
                match of_sequence 128 ((n - 192) * 64 + c1) with
                | Some cp => cons cp <$> code_points r1
                | None => None
                end
            | None => None
            end
        | _ => None
        end
      else if (n <? 240)%N then
        match r with
        | String b1 (String b2 r2) =>
            match continuation b1, continuation b2 with
            | Some c1, Some c2 =>
                match of_sequence 2048 (((n - 224) * 64 + c1) * 64 + c2) with
                | Some cp => cons cp <$> code_points r2
                | None => None
                end
            | _, _ => None
            end
        | _ => None
        end
      else if (n <? 248)%N then
        match r with
        | String b1 (String b2 (String b3 r3)) =>
            match continuation b1, continuation b2, continuation b3 with
            | Some c1, Some c2, Some c3 =>
                match of_sequence 65536 ((((n - 240) * 64 + c1) * 64 + c2) * 64 + c3) with
                | Some cp => cons cp <$> code_points r3
                | None => None
                end
            | _, _, _ => None
            end
        | _ => None
        end
      else None
  end.

Definition utf8 (cp : N) : list ascii :=
  if (cp <? 128)%N then [ascii_of_N cp]
  else if (cp <? 2048)%N then
    [ascii_of_N (192 + cp / 64); ascii_of_N (128 + cp mod 64)]%N
  else if (cp <? 65536)%N then
    [ascii_of_N (224 + cp / 4096); ascii_of_N (128 + (cp / 64) mod 64);
     ascii_of_N (128 + cp mod 64)]%N
  else
    [ascii_of_N (240 + cp / 262144); ascii_of_N (128 + (cp / 4096) mod 64);
     ascii_of_N (128 + (cp / 64) mod 64); ascii_of_N (128 + cp mod 64)]%N.

Definition str_of_code_points (cps : list N) : string :=
  string_of_list_ascii (flat_map utf8 cps).

(** Before it reads a literal, [int] puts the string in ASCII form: a
    character below 127 stays; any other becomes a space if it is Unicode
    whitespace, the ASCII digit of its value if it is a Unicode decimal
    digit, and makes the literal invalid otherwise.  The two tables are
    those of Unicode 14.0.0. *)
Definition unicode_spaces : list N :=
  [133; 160; 5760; 8192; 8193; 8194; 8195; 8196; 8197; 8198; 8199; 8200;
   8201; 8202; 8232; 8233; 8239; 8287; 12288]%N.

(** The digit zero of every run of ten decimal digits above 127. *)
Definition unicode_zeros : list N :=
  [1632; 1776; 1984; 2406; 2534; 2662; 2790; 2918; 3046; 3174; 3302; 3430;
   3558; 3664; 3792; 3872; 4160; 4240; 6112; 6160; 6470; 6608; 6784; 6800;
   6992; 7088; 7232; 7248; 42528; 43216; 43264; 43472; 43504; 43600; 44016;
   65296; 66720; 68912; 69734; 69872; 69942; 70096; 70384; 70736; 70864;
   71248; 71360; 71472; 71904; 72016; 72784; 73040; 73120; 92768; 92864;
   93008; 120782; 120792; 120802; 120812; 120822; 123200; 123632; 125264;
   130032]%N.

Definition unicode_space (cp : N) : bool := existsb (N.eqb cp) unicode_spaces.

Definition unicode_decimal (cp : N) : option N :=
  (λ z, cp - z)%N <$> List.find (λ z, (z <=? cp) && (cp <=? z + 9))%N unicode_zeros.

Definition of_code_point (cp : N) : option ascii :=
  if (cp <? 127)%N then Some (ascii_of_N cp)
  else if unicode_space cp then Some " "%char
  else (λ d, ascii_of_N (48 + d)) <$> unicode_decimal cp.

Definition ascii_form (s : string) : option string :=
  cps ← code_points s; string_of_list_ascii <$> mapM of_code_point cps.

Definition int_of_str (s : string) : option Z :=
  match ascii_form s with
  | Some a => signed_of_str (strip a)
  | None => None
  end.

(** [repr(s)] for a [str].  The characters above 127 that [repr] escapes
    are those [str.isprintable] refuses; [unprintable] lists them, as
    ranges with both ends in, for Unicode 14.0.0. *)
Definition unprintable : list (N * N) :=
  [(128, 160); (173, 173); (888, 889); (896, 899); (907, 907); (909, 909);
   (930, 930); (1328, 1328); (1367, 1368); (1419, 1420); (1424, 1424);
   (1480, 1487); (1515, 1518); (1525, 1541); (1564, 1564); (1757, 1757);
   (1806, 1807); (1867, 1868); (1970, 1983); (2043, 2044); (2094, 2095);
   (2111, 2111); (2140, 2141); (2143, 2143); (2155, 2159); (2191, 2199);
   (2274, 2274); (2436, 2436); (2445, 2446); (2449, 2450); (2473, 2473);
   (2481, 2481); (2483, 2485); (2490, 2491); (2501, 2502); (2505, 2506);
   (2511, 2518); (2520, 2523); (2526, 2526); (2532, 2533); (2559, 2560);
   (2564, 2564); (2571, 2574); (2577, 2578); (2601, 2601); (2609, 2609);
   (2612, 2612); (2615, 2615); (2618, 2619); (2621, 2621); (2627, 2630);
   (2633, 2634); (2638, 2640); (2642, 2648); (2653, 2653); (2655, 2661);
   (2679, 2688); (2692, 2692); (2702, 2702); (2706, 2706); (2729, 2729);
   (2737, 2737); (2740, 2740); (2746, 2747); (2758, 2758); (2762, 2762);
   (2766, 2767); (2769, 2783); (2788, 2789); (2802, 2808); (2816, 2816);
   (2820, 2820); (2829, 2830); (2833, 2834); (2857, 2857); (2865, 2865);
   (2868, 2868); (2874, 2875); (2885, 2886); (2889, 2890); (2894, 2900);
   (2904, 2907); (2910, 2910); (2916, 2917); (2936, 2945); (2948, 2948);
   (2955, 2957); (2961, 2961); (2966, 2968); (2971, 2971); (2973, 2973);
   (2976, 2978); (2981, 2983); (2987, 2989); (3002, 3005); (3011, 3013);
   (3017, 3017); (3022, 3023); (3025, 3030); (3032, 3045); (3067, 3071);
   (3085, 3085); (3089, 3089); (3113, 3113); (3130, 3131); (3141, 3141);
   (3145, 3145); (3150, 3156); (3159, 3159); (3163, 3164); (3166, 3167);
   (3172, 3173); (3184, 3190); (3213, 3213); (3217, 3217); (3241, 3241);
   (3252, 3252); (3258, 3259); (3269, 3269); (3273, 3273); (3278, 3284);
   (3287, 3292); (3295, 3295); (3300, 3301); (3312, 3312); (3315, 3327);
   (3341, 3341); (3345, 3345); (3397, 3397); (3401, 3401); (3408, 3411);
   (3428, 3429); (3456, 3456); (3460, 3460); (3479, 3481); (3506, 3506);
   (3516, 3516); (3518, 3519); (3527, 3529); (3531, 3534); (3541, 3541);
   (3543, 3543); (3552, 3557); (3568, 3569); (3573, 3584); (3643, 3646);
   (3676, 3712); (3715, 3715); (3717, 3717); (3723, 3723); (3748, 3748);
   (3750, 3750); (3774, 3775); (3781, 3781); (3783, 3783); (3790, 3791);
   (3802, 3803); (3808, 3839); (3912, 3912); (3949, 3952); (3992, 3992);
   (4029, 4029); (4045, 4045); (4059, 4095); (4294, 4294); (4296, 4300);
   (4302, 4303); (4681, 4681); (4686, 4687); (4695, 4695); (4697, 4697);
   (4702, 4703); (4745, 4745); (4750, 4751); (4785, 4785); (4790, 4791);
   (4799, 4799); (4801, 4801); (4806, 4807); (4823, 4823); (4881, 4881);
   (4886, 4887); (4955, 4956); (4989, 4991); (5018, 5023); (5110, 5111);
   (5118, 5119); (5760, 5760); (5789, 5791); (5881, 5887); (5910, 5918);
   (5943, 5951); (5972, 5983); (5997, 5997); (6001, 6001); (6004, 6015);
   (6110, 6111); (6122, 6127); (6138, 6143); (6158, 6158); (6170, 6175);
   (6265, 6271); (6315, 6319); (6390, 6399); (6431, 6431); (6444, 6447);
   (6460, 6463); (6465, 6467); (6510, 6511); (6517, 6527); (6572, 6575);
   (6602, 6607); (6619, 6621); (6684, 6685); (6751, 6751); (6781, 6782);
   (6794, 6799); (6810, 6815); (6830, 6831); (6863, 6911); (6989, 6991);
   (7039, 7039); (7156, 7163); (7224, 7226); (7242, 7244); (7305, 7311);
   (7355, 7356); (7368, 7375); (7419, 7423); (7958, 7959); (7966, 7967);
   (8006, 8007); (8014, 8015); (8024, 8024); (8026, 8026); (8028, 8028);
   (8030, 8030); (8062, 8063); (8117, 8117); (8133, 8133); (8148, 8149);
   (8156, 8156); (8176, 8177); (8181, 8181); (8191, 8207); (8232, 8239);
   (8287, 8303); (8306, 8307); (8335, 8335); (8349, 8351); (8385, 8399);
   (8433, 8447); (8588, 8591); (9255, 9279); (9291, 9311); (11124, 11125);
   (11158, 11158); (11508, 11512); (11558, 11558); (11560, 11564);
   (11566, 11567); (11624, 11630); (11633, 11646); (11671, 11679);
   (11687, 11687); (11695, 11695); (11703, 11703); (11711, 11711);
   (11719, 11719); (11727, 11727); (11735, 11735); (11743, 11743);
   (11870, 11903); (11930, 11930); (12020, 12031); (12246, 12271);
   (12284, 12288); (12352, 12352); (12439, 12440); (12544, 12548);
   (12592, 12592); (12687, 12687); (12772, 12783); (12831, 12831);
   (42125, 42127); (42183, 42191); (42540, 42559); (42744, 42751);
   (42955, 42959); (42962, 42962); (42964, 42964); (42970, 42993);
   (43053, 43055); (43066, 43071); (43128, 43135); (43206, 43213);
   (43226, 43231); (43348, 43358); (43389, 43391); (43470, 43470);
   (43482, 43485); (43519, 43519); (43575, 43583); (43598, 43599);
   (43610, 43611); (43715, 43738); (43767, 43776); (43783, 43784);
   (43791, 43792); (43799, 43807); (43815, 43815); (43823, 43823);
   (43884, 43887); (44014, 44015); (44026, 44031); (55204, 55215);
   (55239, 55242); (55292, 63743); (64110, 64111); (64218, 64255);
   (64263, 64274); (64280, 64284); (64311, 64311); (64317, 64317);
   (64319, 64319); (64322, 64322); (64325, 64325); (64451, 64466);
   (64912, 64913); (64968, 64974); (64976, 65007); (65050, 65055);
   (65107, 65107); (65127, 65127); (65132, 65135); (65141, 65141);
   (65277, 65280); (65471, 65473); (65480, 65481); (65488, 65489);
   (65496, 65497); (65501, 65503); (65511, 65511); (65519, 65531);
   (65534, 65535); (65548, 65548); (65575, 65575); (65595, 65595);
   (65598, 65598); (65614, 65615); (65630, 65663); (65787, 65791);
   (65795, 65798); (65844, 65846); (65935, 65935); (65949, 65951);
   (65953, 65999); (66046, 66175); (66205, 66207); (66257, 66271);
   (66300, 66303); (66340, 66348); (66379, 66383); (66427, 66431);
   (66462, 66462); (66500, 66503); (66518, 66559); (66718, 66719);
   (66730, 66735); (66772, 66775); (66812, 66815); (66856, 66863);
   (66916, 66926); (66939, 66939); (66955, 66955); (66963, 66963);
   (66966, 66966); (66978, 66978); (66994, 66994); (67002, 67002);
   (67005, 67071); (67383, 67391); (67414, 67423); (67432, 67455);
   (67462, 67462); (67505, 67505); (67515, 67583); (67590, 67591);
   (67593, 67593); (67638, 67638); (67641, 67643); (67645, 67646);
   (67670, 67670); (67743, 67750); (67760, 67807); (67827, 67827);
   (67830, 67834); (67868, 67870); (67898, 67902); (67904, 67967);
   (68024, 68027); (68048, 68049); (68100, 68100); (68103, 68107);
   (68116, 68116); (68120, 68120); (68150, 68151); (68155, 68158);
   (68169, 68175); (68185, 68191); (68256, 68287); (68327, 68330);
   (68343, 68351); (68406, 68408); (68438, 68439); (68467, 68471);
   (68498, 68504); (68509, 68520); (68528, 68607); (68681, 68735);
   (68787, 68799); (68851, 68857); (68904, 68911); (68922, 69215);
   (69247, 69247); (69290, 69290); (69294, 69295); (69298, 69375);
   (69416, 69423); (69466, 69487); (69514, 69551); (69580, 69599);
   (69623, 69631); (69710, 69713); (69750, 69758); (69821, 69821);
   (69827, 69839); (69865, 69871); (69882, 69887); (69941, 69941);
   (69960, 69967); (70007, 70015); (70112, 70112); (70133, 70143);
   (70162, 70162); (70207, 70271); (70279, 70279); (70281, 70281);
   (70286, 70286); (70302, 70302); (70314, 70319); (70379, 70383);
   (70394, 70399); (70404, 70404); (70413, 70414); (70417, 70418);
   (70441, 70441); (70449, 70449); (70452, 70452); (70458, 70458);
   (70469, 70470); (70473, 70474); (70478, 70479); (70481, 70486);
   (70488, 70492); (70500, 70501); (70509, 70511); (70517, 70655);
   (70748, 70748); (70754, 70783); (70856, 70863); (70874, 71039);
   (71094, 71095); (71134, 71167); (71237, 71247); (71258, 71263);
   (71277, 71295); (71354, 71359); (71370, 71423); (71451, 71452);
   (71468, 71471); (71495, 71679); (71740, 71839); (71923, 71934);
   (71943, 71944); (71946, 71947); (71956, 71956); (71959, 71959);
   (71990, 71990); (71993, 71994); (72007, 72015); (72026, 72095);
   (72104, 72105); (72152, 72153); (72165, 72191); (72264, 72271);
   (72355, 72367); (72441, 72703); (72713, 72713); (72759, 72759);
   (72774, 72783); (72813, 72815); (72848, 72849); (72872, 72872);
   (72887, 72959); (72967, 72967); (72970, 72970); (73015, 73017);
   (73019, 73019); (73022, 73022); (73032, 73039); (73050, 73055);
   (73062, 73062); (73065, 73065); (73103, 73103); (73106, 73106);
   (73113, 73119); (73130, 73439); (73465, 73647); (73649, 73663);
   (73714, 73726); (74650, 74751); (74863, 74863); (74869, 74879);
   (75076, 77711); (77811, 77823); (78895, 82943); (83527, 92159);
   (92729, 92735); (92767, 92767); (92778, 92781); (92863, 92863);
   (92874, 92879); (92910, 92911); (92918, 92927); (92998, 93007);
   (93018, 93018); (93026, 93026); (93048, 93052); (93072, 93759);
   (93851, 93951); (94027, 94030); (94088, 94094); (94112, 94175);
   (94181, 94191); (94194, 94207); (100344, 100351); (101590, 101631);
   (101641, 110575); (110580, 110580); (110588, 110588); (110591, 110591);
   (110883, 110927); (110931, 110947); (110952, 110959); (111356, 113663);
   (113771, 113775); (113789, 113791); (113801, 113807); (113818, 113819);
   (113824, 118527); (118574, 118575); (118599, 118607); (118724, 118783);
   (119030, 119039); (119079, 119080); (119155, 119162); (119275, 119295);
   (119366, 119519); (119540, 119551); (119639, 119647); (119673, 119807);
   (119893, 119893); (119965, 119965); (119968, 119969); (119971, 119972);
   (119975, 119976); (119981, 119981); (119994, 119994); (119996, 119996);
   (120004, 120004); (120070, 120070); (120075, 120076); (120085, 120085);
   (120093, 120093); (120122, 120122); (120127, 120127); (120133, 120133);
   (120135, 120137); (120145, 120145); (120486, 120487); (120780, 120781);
   (121484, 121498); (121504, 121504); (121520, 122623); (122655, 122879);
   (122887, 122887); (122905, 122906); (122914, 122914); (122917, 122917);
   (122923, 123135); (123181, 123183); (123198, 123199); (123210, 123213);
   (123216, 123535); (123567, 123583); (123642, 123646); (123648, 124895);
   (124903, 124903); (124908, 124908); (124911, 124911); (124927, 124927);
   (125125, 125126); (125143, 125183); (125260, 125263); (125274, 125277);
   (125280, 126064); (126133, 126208); (126270, 126463); (126468, 126468);
   (126496, 126496); (126499, 126499); (126501, 126502); (126504, 126504);
   (126515, 126515); (126520, 126520); (126522, 126522); (126524, 126529);
   (126531, 126534); (126536, 126536); (126538, 126538); (126540, 126540);
   (126544, 126544); (126547, 126547); (126549, 126550); (126552, 126552);
   (126554, 126554); (126556, 126556); (126558, 126558); (126560, 126560);
   (126563, 126563); (126565, 126566); (126571, 126571); (126579, 126579);
   (126584, 126584); (126589, 126589); (126591, 126591); (126602, 126602);
   (126620, 126624); (126628, 126628); (126634, 126634); (126652, 126703);
   (126706, 126975); (127020, 127023); (127124, 127135); (127151, 127152);
   (127168, 127168); (127184, 127184); (127222, 127231); (127406, 127461);
   (127491, 127503); (127548, 127551); (127561, 127567); (127570, 127583);
   (127590, 127743); (128728, 128732); (128749, 128751); (128765, 128767);
   (128884, 128895); (128985, 128991); (129004, 129007); (129009, 129023);
   (129036, 129039); (129096, 129103); (129114, 129119); (129160, 129167);
   (129198, 129199); (129202, 129279); (129620, 129631); (129646, 129647);
   (129653, 129655); (129661, 129663); (129671, 129679); (129709, 129711);
   (129723, 129727); (129734, 129743); (129754, 129759); (129768, 129775);
   (129783, 129791); (129939, 129939); (129995, 130031); (130042, 131071);
   (173792, 173823); (177977, 177983); (178206, 178207); (183970, 183983);
   (191457, 194559); (195102, 196607); (201547, 917759); (918000, 1114111)]%N.

Definition unicode_printable (cp : N) : bool :=
  negb (existsb (λ r, (r.1 <=? cp) && (cp <=? r.2))%N unprintable).

Definition hex_digit (n : N) : N := (if n <? 10 then 48 + n else 87 + n)%N.

(** [n] in [width] hexadecimal digits, lower case. *)
Fixpoint hex (width : nat) (n : N) : list N :=
  match width with
  | O => []
  | S w => hex w (n / 16)%N ++ [hex_digit (n mod 16)%N]
  end.

(** What [repr] writes for one character of a string put between the
    quotes [quote]; 92 is the backslash. *)
Definition escaped (quote cp : N) : list N :=
  if ((cp =? quote) || (cp =? 92))%N then [92; cp]%N
  else if (cp =? 9)%N then [92; 116]%N
  else if (cp =? 10)%N then [92; 110]%N
  else if (cp =? 13)%N then [92; 114]%N
  else if ((cp <? 32) || (cp =? 127))%N then (92 :: 120 :: hex 2 cp)%N
  else if (cp <? 127)%N then [cp]
  else if unicode_printable cp then [cp]
  else if (cp <=? 255)%N then (92 :: 120 :: hex 2 cp)%N
  else if (cp <=? 65535)%N then (92 :: 117 :: hex 4 cp)%N
  else (92 :: 85 :: hex 8 cp)%N.

(** The quotes are single (39), unless the string has a single quote and
    no double quote (34). *)
Definition repr_code_points (cps : list N) : list N :=
  let quote := (if existsb (N.eqb 39) cps && negb (existsb (N.eqb 34) cps)
                then 34 else 39)%N in
  quote :: flat_map (escaped quote) cps ++ [quote].

(** [repr] cut at 200 characters, as the format "%.200R" of the error
    text of [int] has it.  On bytes that are no [str] it is the bytes. *)
Definition repr_200 (s : string) : string :=
  match code_points s with
  | Some cps => str_of_code_points (take 200 (repr_code_points cps))
  | None => s
  end.

Fixpoint all_chars (p : ascii → bool) (s : string) : bool :=
  match s with
  | EmptyString => true
  | String c r => (p c && all_chars p r)%bool
  end.

(** [max(l, key=f)] on a non-empty list: the first element whose key is
    not exceeded by any other; a later element replaces the current best
    only when its key is strictly larger. *)
Definition max_step {A} (key : A → Z) (best x : A) : A :=
  if key best <? key x then x else best.

Definition max_by {A} (key : A → Z) (l : list A) : option A :=
  match l with
  | [] => None
  | x :: r => Some (fold_left (max_step key) r x)
  end.

End Py.

(** ** Exceptions and results *)

(** The exceptions that can leave the worker.  [TwitterError te] is
    [twitter.error.TwitterError], [te] being [str(te)]; [Exception] is any
    other exception class, raised by an extractor hook. *)
Inductive exn : Type :=
| TwitterError (te : string)
| RuntimeError (msg : string)
| ValueError (msg : string)
| TypeError (msg : string)
| AttributeError (msg : string)
| Exception (cls msg : string).

Definition result (A : Type) : Type := (exn + A)%type.

(** What a call of the upstream gateway does: it returns a value or raises
    the gateway's error class, [twitter.error.TwitterError]. *)
Inductive upstream_result (A : Type) : Type :=
| Returned (a : A)
| Raised (te : string).
Arguments Returned {A} a.
Arguments Raised {A} te.

(** ** Collaborators *)

(** [twitter.api.Api]: the two methods the worker calls.  [W] is the state
    of the remote service, which a call may read and change. *)
Record Api (W Status : Type) : Type := {
  GetUserTimeline : string → option Z → Z → W → upstream_result (list Status) * W;
  GetStatus : Z → W → upstream_result Status * W
}.
Arguments GetUserTimeline {W Status} _ _ _ _ _.
Arguments GetStatus {W Status} _ _ _.

(** The abstract methods of [TwitterMediaScraper], lines 42-58, with [id]
    the attribute [twitter.models.Status.id].  The two extraction hooks may
    raise; the two document accessors are total. *)
Class Extractor (Status TwitterMedia Document : Type) : Type := {
  id : Status → Z;
  extract_media : Status → result (list TwitterMedia);
  media_list_to_documents : list TwitterMedia → result (list Document);
  document_to_id : Document → string;
  document_to_created_at_in_seconds : Document → Z
}.

(** What the worker does to its collaborators, in the order it does it. *)
Inductive Event (Status : Type) : Type :=
| CallGetUserTimeline (screen_name : string) (since_id : option Z) (count : Z)
| CallGetStatus (status_id : Z)
| CallExtractMedia (tweet : Status)
| MetadataSet (key value : string).
Arguments CallGetUserTimeline {Status} _ _ _.
Arguments CallGetStatus {Status} _.
Arguments CallExtractMedia {Status} _.
Arguments MetadataSet {Status} _ _.

(** The worker instance and its [WorkContext].  Calls of
    [context.logger()] only append to a sink nothing reads back: they are
    left out. *)
Record State (W Status ContentStore : Type) : Type := {
  twitter_api : option (Api W Status);      (* self.twitter_api *)
  upstream : W;                             (* the remote service *)
  metadata : gmap string string;            (* context.metadata_store() *)
  content : ContentStore;                   (* context.content_store() *)
  trace : list (Event Status)               (* calls made so far *)
}.
Arguments twitter_api {W Status ContentStore} _.
Arguments upstream {W Status ContentStore} _.
Arguments metadata {W Status ContentStore} _.
Arguments content {W Status ContentStore} _.
Arguments trace {W Status ContentStore} _.
Arguments Build_State {W Status ContentStore} _ _ _ _ _.

(** ** The monad of the worker: state and exceptions *)

Section Monad.
Context {St : Type}.

Definition M (A : Type) : Type := St → result A * St.

Definition ret {A} (a : A) : M A := λ st, (inr a, st).

Definition raise {A} (e : exn) : M A := λ st, (inl e, st).

Definition bind {A B} (m : M A) (k : A → M B) : M B :=
  λ st, match m st with
        | (inr a, st') => k a st'
        | (inl e, st') => (inl e, st')
        end.

(** [try: m  except: h] where [h] re-raises what it does not handle. *)
Definition try_except {A} (m : M A) (h : exn → M A) : M A :=
  λ st, match m st with
        | (inr a, st') => (inr a, st')
        | (inl e, st') => h e st'
        end.

Definition lift {A} (r : result A) : M A := λ st, (r, st).

(** A relation between the state before and the state after that every
    outcome of [m] satisfies. *)
Definition preserves (R : St → St → Prop) {A} (m : M A) : Prop :=
  ∀ st r st1, m st = (r, st1) → R st st1.

End Monad.

Notation "x ← m ; k" := (bind m (λ x, k))
  (at level 20, m at level 100, k at level 200, only parsing).
Notation "m ;; k" := (bind m (λ _, k))
  (at level 100, k at level 200, only parsing, right associativity).

(** ** The worker *)

Section TwitterMediaScraper.
Context {W Status TwitterMedia Document ContentStore : Type}.
Context `{Extractor Status TwitterMedia Document}.

(** [os.getenv] and the constructor [twitter.api.Api(consumer_key=...,
    consumer_secret=..., access_token_key=..., access_token_secret=...)],
    which gives a handle or raises [TwitterError], as it does on
    credentials it finds incomplete. *)
Variable getenv : string → option string.
Variable twitter_api_Api :
  option string → option string → option string → option string →
  upstream_result (Api W Status).

(** [self.screen_name], fixed by [__init__]. *)
Variable screen_name : string.

Abbreviation state := (State W Status ContentStore).
Abbreviation event := (Event Status).
Abbreviation worker := (@M (State W Status ContentStore)).

Definition SINCE_ID_KEY : string := "since_id".

(** [self.count], line 28. *)
Definition count : Z := 200.

Definition get_id : string := "twitter_image_scraper." +:+ screen_name.

(** *** State updates *)

Definition set_twitter_api (a : Api W Status) (st : state) : state :=
  Build_State (Some a) (upstream st) (metadata st) (content st) (trace st).

Definition set_upstream (w : W) (st : state) : state :=
  Build_State (twitter_api st) w (metadata st) (content st) (trace st).

Definition set_metadata (m : gmap string string) (st : state) : state :=
  Build_State (twitter_api st) (upstream st) m (content st) (trace st).

Definition record (ev : event) (st : state) : state :=
  Build_State (twitter_api st) (upstream st) (metadata st) (content st)
    (trace st ++ [ev]).

(** *** Calls of the collaborators *)

Definition of_upstream {A} (r : upstream_result A) : result A :=
  match r with
  | Returned a => inr a
  | Raised te => inl (TwitterError te)
  end.

(** [self.twitter_api.GetUserTimeline(screen_name=.., since_id=.., count=..)];
    [self.twitter_api] is [None] until [pre_work] has run. *)
Definition call_GetUserTimeline (name : string) (since_id : option Z) (n : Z)
  : worker (list Status) :=
  λ st, match twitter_api st with
        | None =>
            (inl (AttributeError "'NoneType' object has no attribute 'GetUserTimeline'"), st)
        | Some api =>
            let (r, w) := GetUserTimeline api name since_id n (upstream st) in
            (of_upstream r, set_upstream w (record (CallGetUserTimeline name since_id n) st))
        end.

(** [self.twitter_api.GetStatus(since_id)] *)
Definition call_GetStatus (status_id : Z) : worker Status :=
  λ st, match twitter_api st with
        | None =>
            (inl (AttributeError "'NoneType' object has no attribute 'GetStatus'"), st)
        | Some api =>
            let (r, w) := GetStatus api status_id (upstream st) in
            (of_upstream r, set_upstream w (record (CallGetStatus status_id) st))
        end.

(** [self.extract_media(tweet, context.logger())] *)
Definition call_extract_media (tweet : Status) : worker (list TwitterMedia) :=
  λ st, (extract_media tweet, record (CallExtractMedia tweet) st).

(** Modelled from the spec: the metadata store ([metadata_store.py] is not
    among the sources), section 6: a key-value store of strings with
    [exists(key)], [get(key)] and [set(key, value)].  This is
    [exists(key)]. *)
Definition metadata_exists (key : string) : worker bool :=
  λ st, (inr (bool_decide (is_Some (metadata st !! key))), st).

(** Modelled from the spec: [get(key)] of the metadata store, section 6;
    [None] when the key is not there. *)
Definition metadata_get (key : string) : worker (option string) :=
  λ st, (inr (metadata st !! key), st).

(** Modelled from the spec: [set(key, value)] of the metadata store,
    section 6; the write is also put on the trace. *)
Definition metadata_set (key value : string) : worker unit :=
  λ st, (inr tt, set_metadata (<[key := value]> (metadata st)) (record (MetadataSet key value) st)).

(** [int(x)] where [x] is what [get] gave. *)
Definition int (x : option string) : worker Z :=
  match x with
  | None => raise (TypeError "int() argument must be a string, a bytes-like object or a real number, not 'NoneType'")
  | Some s =>
      match Py.int_of_str s with
      | Some z => ret z
      | None => raise (ValueError ("invalid literal for int() with base 10: " +:+ Py.repr_200 s))
      end
  end.

(** *** [pre_work], lines 34-40 *)

(** The call of lines 35-40. *)
Definition make_api : upstream_result (Api W Status) :=
  twitter_api_Api (getenv "TWITTER_CONSUMER_KEY")
    (getenv "TWITTER_CONSUMER_SECRET")
    (getenv "TWITTER_ACCESS_TOKEN_KEY")
    (getenv "TWITTER_ACCESS_TOKEN_SECRET").

(** When the constructor raises, the assignment of line 35 does not
    happen: [self.twitter_api] stays what it was. *)
Definition pre_work : worker unit :=
  λ st, match make_api with
        | Returned a => (inr tt, set_twitter_api a st)
        | Raised te => (inl (TwitterError te), st)
        end.

(** *** [process], lines 60-127 *)

(** The test of line 67 on a caught [TwitterError]. *)
Definition not_authorized (te : string) : bool :=
  Py.contains "not authorized" (Py.lower te).

(** Lines 61-71.  [true]: go on; [false]: the [return []] of line 69. *)
Definition availability_probe : worker bool :=
  try_except
    (call_GetUserTimeline screen_name None 1 ;; ret true)
    (λ e, match e with
          | TwitterError te => if not_authorized te then ret false else raise e
          | _ => raise e
          end).

(** [max(l, key=..)], which raises on an empty list. *)
Definition max_of {A} (key : A → Z) (l : list A) : worker A :=
  match Py.max_by key l with
  | Some x => ret x
  | None => raise (ValueError "max() arg is an empty sequence")
  end.

(** Lines 74-86. *)
Definition initialize_since_id : worker unit :=
  stored ← metadata_exists SINCE_ID_KEY;
  if negb stored then
    init_tweets ← call_GetUserTimeline screen_name None 1;
    match init_tweets with
    | [] =>
        raise (RuntimeError "Cannot obtain the initial tweets in order to get the initial since_id")
    | _ =>
        t ← max_of id init_tweets;
        metadata_set SINCE_ID_KEY (Py.str_of_int (id t))
    end
  else ret tt.

(** Lines 91-99.  The result is [ignore_since_id]. *)
Definition check_since_id (since_id : Z) : worker bool :=
  try_except
    (call_GetStatus since_id ;; ret false)
    (λ e, match e with
          | TwitterError _ => ret true
          | _ => raise e
          end).

(** Lines 101-114. *)
Definition fetch_tweets (since_id : Z) (ignore_since_id : bool) : worker (list Status) :=
  if negb ignore_since_id then call_GetUserTimeline screen_name (Some since_id) count
  else call_GetUserTimeline screen_name None count.

(** Lines 89-114. *)
Definition fetch_window : worker (list Status) :=
  x ← metadata_get SINCE_ID_KEY;
  since_id ← int x;
  ignore_since_id ← check_since_id since_id;
  fetch_tweets since_id ignore_since_id.

(** The loop of lines 123-125. *)
Fixpoint extract_documents (tweets : list Status) (new_documents : list Document)
  : worker (list Document) :=
  match tweets with
  | [] => ret new_documents
  | tweet :: rest =>
      media_list ← call_extract_media tweet;
      documents ← lift (media_list_to_documents media_list);
      extract_documents rest (new_documents ++ documents)
  end.

(** Lines 116-127. *)
Definition process_tweets (tweets : list Status) : worker (list Document) :=
  match tweets with
  | [] => ret []
  | _ => extract_documents tweets []
  end.

(** Lines 60-127: the blocks above, in the order of the source. *)
Definition process : worker (list Document) :=
  go_on ← availability_probe;
  if negb go_on then ret []
  else
    initialize_since_id;;
    tweets ← fetch_window;
    process_tweets tweets.

(** *** [post_process], lines 129-140 *)

(** [document_to_id] gives a [str], so the [str(new_since_id)] of line 138
    is [new_since_id] itself. *)
Definition post_process (processed_documents : list Document) : worker unit :=
  match processed_documents with
  | [] => ret tt
  | _ =>
      d ← max_of document_to_created_at_in_seconds processed_documents;
      metadata_set SINCE_ID_KEY (document_to_id d)
  end.

(** Modelled from the spec: the host that drives a worker (the pipeline
    code is not among the sources), section 4.2: [pre_work], then
    [process], then, when [process] returned, [post_process] on the
    documents it returned. *)
Definition run : worker (list Document) :=
  pre_work;;
  documents ← process;
  post_process documents;;
  ret documents.

End TwitterMediaScraper.

Arguments run {W Status TwitterMedia Document ContentStore _} getenv twitter_api_Api screen_name.
Arguments pre_work {W Status ContentStore} getenv twitter_api_Api.
Arguments make_api {W Status} getenv twitter_api_Api.
Arguments process {W Status TwitterMedia Document ContentStore _} screen_name.
Arguments post_process {W Status TwitterMedia Document ContentStore _} processed_documents.
Arguments availability_probe {W Status ContentStore} screen_name.
Arguments initialize_since_id {W Status TwitterMedia Document ContentStore _} screen_name.
Arguments fetch_window {W Status ContentStore} screen_name.
Arguments fetch_tweets {W Status ContentStore} screen_name since_id ignore_since_id.
Arguments check_since_id {W Status ContentStore} since_id.
Arguments process_tweets {W Status TwitterMedia Document ContentStore _} tweets.
Arguments extract_documents {W Status TwitterMedia Document ContentStore _} tweets new_documents.
Arguments call_GetUserTimeline {W Status ContentStore} name since_id n.
Arguments call_GetStatus {W Status ContentStore} status_id.
Arguments call_extract_media {W Status TwitterMedia Document ContentStore _} tweet.
Arguments metadata_set {W Status ContentStore} key value.
Arguments metadata_get {W Status ContentStore} key.
Arguments metadata_exists {W Status ContentStore} key.
Arguments int {W Status ContentStore} x.

(** ** What the properties are stated with *)

(** The stored cursor, read the way line 89 reads it. *)
Definition cursor {W Status ContentStore} (st : State W Status ContentStore) : option Z :=
  metadata st !! SINCE_ID_KEY ≫= Py.int_of_str.

(** [cursor_le a b]: going from [a] to [b] does not decrease the cursor.
    No cursor is below every cursor. *)
Definition cursor_le (a b : option Z) : Prop :=
  match a, b with
  | None, _ => True
  | Some x, Some y => x ≤ y
  | Some _, None => False
  end.

(** Modelled from the spec: the classes of the errors of the gateway,
    section 6, [AuthorizationError] and [TransientError].  The library
    the worker calls has the one class [twitter.error.TwitterError]: what
    reaches the worker of an error of either class is its text. *)
Inductive gateway_error : Type :=
| AuthorizationError (te : string)
| TransientError (te : string).

Definition error_text (g : gateway_error) : string :=
  match g with
  | AuthorizationError te | TransientError te => te
  end.

Definition is_authorization_error (g : gateway_error) : bool :=
  match g with
  | AuthorizationError _ => true
  | TransientError _ => false
  end.

(** The gateway raising [g]. *)
Definition raising {A} (g : gateway_error) : upstream_result A :=
  Raised (error_text g).

(** The test that makes the probe's error an authorization error. *)
Definition is_not_authorized (e : exn) : bool :=
  match e with
  | TwitterError te => not_authorized te
  | _ => false
  end.

(** What lines 124-125 make of one tweet. *)
Definition tweet_documents `{Extractor Status TwitterMedia Document}
  (tweet : Status) : result (list Document) :=
  match extract_media tweet with
  | inr media_list => media_list_to_documents media_list
  | inl e => inl e
  end.

(** A document of [tweet]: one of the documents lines 124-125 make of it. *)
Definition document_of `{Extractor Status TwitterMedia Document}
  (tweet : Status) (d : Document) : Prop :=
  ∃ documents, tweet_documents tweet = inr documents ∧ d ∈ documents.

Definition is_extraction {Status} (ev : Event Status) : bool :=
  match ev with
  | CallExtractMedia _ => true
  | _ => false
  end.

Definition is_window_fetch {Status} (ev : Event Status) : bool :=
  match ev with
  | CallGetUserTimeline _ _ n => n =? count
  | _ => false
  end.

(** Successful runs, one after the other. *)
Inductive successful_runs {W Status TwitterMedia Document ContentStore}
  `{Extractor Status TwitterMedia Document}
  (getenv : string → option string)
  (twitter_api_Api : option string → option string → option string → option string →
                     upstream_result (Api W Status))
  (screen_name : string)
  : State W Status ContentStore → State W Status ContentStore → Prop :=
| runs_nil st : successful_runs getenv twitter_api_Api screen_name st st
| runs_cons st documents st1 st2 :
    run getenv twitter_api_Api screen_name st = (inr documents, st1) →
    successful_runs getenv twitter_api_Api screen_name st1 st2 →
    successful_runs getenv twitter_api_Api screen_name st st2.

(** Two relations between a state and a later one: the metadata store is
    the same; the handle and the document sink are the same and the trace
    has only grown. *)
Definition same_metadata {W Status ContentStore}
  (st st1 : State W Status ContentStore) : Prop :=
  metadata st1 = metadata st.

Definition extends {W Status ContentStore}
  (st st1 : State W Status ContentStore) : Prop :=
  twitter_api st1 = twitter_api st ∧ content st1 = content st ∧
  trace st `prefix_of` trace st1.

(** The later state's trace is the earlier one followed by events that
    all satisfy [P]. *)
Definition emits {W Status ContentStore} (P : Event Status → bool)
  (st st1 : State W Status ContentStore) : Prop :=
  ∃ evs, trace st1 = trace st ++ evs ∧ Forall (λ ev, P ev = true) evs.

(** The events a step added to the trace. *)
Definition new_events {W Status ContentStore}
  (st st1 : State W Status ContentStore) : list (Event Status) :=
  drop (length (trace st)) (trace st1).

(** Two assumptions on the collaborators.  The gateway answers a call
    with [since_id=c] with tweets newer than [c] only; the identifier of a
    document is the decimal numeral of the id of the tweet it comes from. *)
Definition since_window_newer `{Extractor Status TwitterMedia Document} {W}
  (api : Api W Status) : Prop :=
  ∀ name c n w l w1,
    GetUserTimeline api name (Some c) n w = (Returned l, w1) →
    Forall (λ t, c < id t) l.

Definition identifier_is_tweet_id `{Extractor Status TwitterMedia Document} : Prop :=
  ∀ t d, document_of t d → Py.int_of_str (document_to_id d) = Some (id t).

(** Calls of the gateway, and how many of them a list of events holds. *)
Definition is_gateway_call {Status} (ev : Event Status) : bool :=
  match ev with
  | CallGetUserTimeline _ _ _ | CallGetStatus _ => true
  | _ => false
  end.

Definition gateway_calls {Status} (evs : list (Event Status)) : nat :=
  length (List.filter is_gateway_call evs).

(** The later state's trace is the earlier one followed by events of
    which at most [n] are calls of the gateway. *)
Definition at_most_calls {W Status ContentStore} (n : nat)
  (st st1 : State W Status ContentStore) : Prop :=
  ∃ evs, trace st1 = trace st ++ evs ∧ (gateway_calls evs ≤ n)%nat.

(** The events the worker of [screen_name] is meant to produce: a timeline
    call is for [screen_name], with [count=1] and no [since_id] or with
    [count=200]; a write to the metadata store is to the cursor key. *)
Definition in_protocol {Status} (screen_name : string) (ev : Event Status) : bool :=
  match ev with
  | CallGetUserTimeline name since_id n =>
      String.eqb name screen_name &&
      match since_id with
      | None => (n =? 1) || (n =? count)
      | Some _ => n =? count
      end
  | MetadataSet key _ => String.eqb key SINCE_ID_KEY
  | _ => true
  end.

(** ** A concrete extractor and two concrete gateways *)

Module Demo.

(** A tweet: its id, its creation time, the media attached to it, and
    whether its payload is broken. *)
Record Tweet : Type := {
  tweet_id : Z;
  created_at : Z;
  media_urls : list string;
  malformed : bool
}.

Record Media : Type := { media_tweet : Z; media_created : Z; media_url : string }.

Record Doc : Type := { doc_id : string; doc_created : Z; doc_url : string }.

Definition media_of (t : Tweet) : result (list Media) :=
  if malformed t then inl (Exception "KeyError" "media")
  else inr (map (λ u, Build_Media (tweet_id t) (created_at t) u) (media_urls t)).

Definition doc_of (m : Media) : Doc :=
  Build_Doc (Py.str_of_int (media_tweet m)) (media_created m) (media_url m).

(** The identifier of a document is the id of its tweet. *)
#[local] Instance by_tweet_id : Extractor Tweet Media Doc := {
  id := tweet_id;
  extract_media := media_of;
  media_list_to_documents := λ l, inr (map doc_of l);
  document_to_id := doc_id;
  document_to_created_at_in_seconds := doc_created
}.

(** The identifier of a document is the address of its media. *)
#[local] Instance by_url : Extractor Tweet Media Doc := {
  id := tweet_id;
  extract_media := media_of;
  media_list_to_documents := λ l, inr (map doc_of l);
  document_to_id := doc_url;
  document_to_created_at_in_seconds := doc_created
}.

(** A gateway that plays a script: every call consumes the next answer. *)
Inductive Answer : Type :=
| Timeline (r : upstream_result (list Tweet))
| Lookup (r : upstream_result Tweet).

Definition scripted : Api (list Answer) Tweet := {|
  GetUserTimeline := λ _ _ _ w,
    match w with
    | Timeline r :: w' => (r, w')
    | _ => (Raised "Over capacity", w)
    end;
  GetStatus := λ _ w,
    match w with
    | Lookup r :: w' => (r, w')
    | _ => (Raised "Over capacity", w)
    end
|}.

(** A gateway over a fixed timeline, newest tweet first. *)
Definition newer_than (since_id : option Z) (t : Tweet) : bool :=
  match since_id with
  | Some c => c <? tweet_id t
  | None => true
  end.

Definition timeline : Api (list Tweet) Tweet := {|
  GetUserTimeline := λ _ since_id n w,
    (Returned (take (Z.to_nat n) (filter (λ t, newer_than since_id t = true) w)), w);
  GetStatus := λ i w,
    match List.find (λ t, tweet_id t =? i) w with
    | Some t => (Returned t, w)
    | None => (Raised "No status found with that ID.", w)
    end
|}.

Definition no_env : string → option string := λ _, None.

Definition start {W} (a : option (Api W Tweet)) (w : W) (m : gmap string string)
  : State W Tweet unit :=
  Build_State a w m tt [].

Definition rate_limit : string := "Rate limit exceeded".
Definition unauthorized : string := "Not authorized.".

Definition t100 : Tweet := Build_Tweet 100 10 ["a.jpg"] false.
Definition t90 : Tweet := Build_Tweet 90 10 ["b.jpg"] false.
Definition t101 : Tweet := Build_Tweet 101 20 [] false.
Definition t103 : Tweet := Build_Tweet 103 40 ["d.jpg"] false.
Definition t501 : Tweet := Build_Tweet 501 10 ["e.jpg"] false.
Definition t502 : Tweet := Build_Tweet 502 30 ["f.jpg"; "g.jpg"] false.
Definition t500 : Tweet := Build_Tweet 500 5 [] false.

(** States of a worker whose [pre_work] has run, on a scripted gateway. *)

(** A stored cursor and an account that may not be read. *)
Definition locked : State (list Answer) Tweet unit :=
  start (Some scripted) [Timeline (Raised unauthorized)] {[ "since_id" := "500" ]}.

(** A stored cursor, and credentials the API refuses with its error 220,
    an authorization error whose text does not hold "not authorized". *)
Definition credentials_refused : gateway_error :=
  AuthorizationError
    "[{'message': 'Your credentials do not allow access to this resource.', 'code': 220}]".

Definition refused : State (list Answer) Tweet unit :=
  start (Some scripted) [Timeline (raising credentials_refused)] {[ "since_id" := "500" ]}.

(** The cursor is the address of a media, and the account can be read. *)
Definition after_url_cursor : State (list Answer) Tweet unit :=
  start (Some scripted) [Timeline (Returned [t103])] {[ "since_id" := "d.jpg" ]}.

(** No cursor and an account that may not be read. *)
Definition locked_fresh : State (list Answer) Tweet unit :=
  start (Some scripted) [Timeline (Raised unauthorized)] ∅.

(** A stored cursor that is still there upstream, and two newer tweets. *)
Definition live : State (list Answer) Tweet unit :=
  start (Some scripted)
    [Timeline (Returned [t502]); Lookup (Returned t500); Timeline (Returned [t502; t501])]
    {[ "since_id" := "500" ]}.

(** A stored cursor that is gone upstream. *)
Definition stale : State (list Answer) Tweet unit :=
  start (Some scripted)
    [Timeline (Returned [t100]); Lookup (Raised "No status found with that ID.");
     Timeline (Returned [t100; t90])]
    {[ "since_id" := "500" ]}.

(** No cursor, one tweet upstream, nothing newer. *)
Definition fresh : State (list Answer) Tweet unit :=
  start (Some scripted)
    [Timeline (Returned [t100]); Timeline (Returned [t100]); Lookup (Returned t100);
     Timeline (Returned [])]
    ∅.

(** No cursor, and no tweet upstream when the bootstrap asks. *)
Definition fresh_empty : State (list Answer) Tweet unit :=
  start (Some scripted) [Timeline (Returned [t100]); Timeline (Returned [])] ∅.

(** No cursor, and the gateway gives up on the windowed fetch. *)
Definition fresh_then_limited : State (list Answer) Tweet unit :=
  start (Some scripted)
    [Timeline (Returned [t100]); Timeline (Returned [t100]); Lookup (Returned t100);
     Timeline (Raised rate_limit)]
    ∅.

(** A stored cursor, and the gateway gives up on the windowed fetch. *)
Definition live_then_limited : State (list Answer) Tweet unit :=
  start (Some scripted)
    [Timeline (Returned [t502]); Lookup (Returned t500); Timeline (Raised rate_limit)]
    {[ "since_id" := "500" ]}.

(** A stored cursor and nothing newer. *)
Definition live_nothing_new : State (list Answer) Tweet unit :=
  start (Some scripted)
    [Timeline (Returned [t500]); Lookup (Returned t500); Timeline (Returned [])]
    {[ "since_id" := "500" ]}.


(** Two runs: one new tweet, then an account that may not be read. *)
Definition live_then_locked : State (list Answer) Tweet unit :=
  start None
    [Timeline (Returned [t103]); Lookup (Returned t100); Timeline (Returned [t103]);
     Timeline (Raised unauthorized)]
    {[ "since_id" := "100" ]}.

(** Two tweets of the same second, the older one listed first. *)
Definition t601 : Tweet := Build_Tweet 601 50 ["h.jpg"] false.
Definition t602 : Tweet := Build_Tweet 602 50 ["i.jpg"] false.

Definition same_second : State (list Answer) Tweet unit :=
  start None
    [Timeline (Returned [t602]); Lookup (Returned t500); Timeline (Returned [t601; t602])]
    {[ "since_id" := "500" ]}.

(** States on the fixed timeline. *)

(** The stored cursor was deleted upstream; what is left is older. *)
Definition deleted : State (list Tweet) Tweet unit :=
  start None [t100] {[ "since_id" := "500" ]}.

(** The stored cursor is there and two tweets are newer. *)
Definition caught_up : State (list Tweet) Tweet unit :=
  start None [t502; t501; t500] {[ "since_id" := "500" ]}.

End Demo.

(** ** The builtins on examples *)

Example int_of_str_500 : Py.int_of_str "500" = Some 500.
Proof. reflexivity. Qed.
Example int_of_str_spaces : Py.int_of_str " -1_000
" = Some (-1000).
Proof. reflexivity. Qed.
Example int_of_str_bad1 : Py.int_of_str "1__0" = None.
Proof. reflexivity. Qed.
Example int_of_str_bad2 : Py.int_of_str "_10" = None.
Proof. reflexivity. Qed.
Example int_of_str_bad3 : Py.int_of_str "10_" = None.
Proof. reflexivity. Qed.
Example int_of_str_bad4 : Py.int_of_str "abc" = None.
Proof. reflexivity. Qed.
Example int_of_str_bad5 : Py.int_of_str "" = None.
Proof. reflexivity. Qed.
Example int_of_str_lead0 : Py.int_of_str "007" = Some 7.
Proof. reflexivity. Qed.
(** The separators 0x1c..0x1f are no whitespace for [int]. *)
Example int_of_str_separator : Py.int_of_str (String (ascii_of_nat 28) "500") = None.
Proof. reflexivity. Qed.
(** The no-break space U+00A0 is, and so is the ideographic space. *)
Example int_of_str_nbsp : Py.int_of_str (Py.str_of_code_points [160; 53; 48; 48; 12288]%N) = Some 500.
Proof. reflexivity. Qed.
(** Arabic-Indic digits. *)
Example int_of_str_arabic_indic : Py.int_of_str "٥٠٠" = Some 500.
Proof. reflexivity. Qed.
Example int_of_str_superscript : Py.int_of_str "²" = None.
Proof. reflexivity. Qed.
Example repr_plain : Py.repr_200 "d.jpg" = "'d.jpg'".
Proof. reflexivity. Qed.
(** A single quote and no double quote: the quotes are double. *)
Example repr_single_quote :
  Py.repr_200 "a'b" = Py.str_of_code_points [34; 97; 39; 98; 34]%N.
Proof. reflexivity. Qed.
Example repr_control : Py.repr_200 (String (ascii_of_nat 28) "500") = "'\x1c500'".
Proof. reflexivity. Qed.
Example repr_nbsp : Py.repr_200 (Py.str_of_code_points [160; 53]%N) = "'\xa05'".
Proof. reflexivity. Qed.
Example repr_printable : Py.repr_200 "é٥" = "'é٥'".
Proof. reflexivity. Qed.
Example str_of_int_neg : Py.str_of_int (-42) = "-42".
Proof. reflexivity. Qed.
Example str_of_int_0 : Py.str_of_int 0 = "0".
Proof. reflexivity. Qed.
Example contains_na :
  Py.contains "not authorized" (Py.lower "Not authorized.") = true.
Proof. reflexivity. Qed.
Example max_by_first : Py.max_by snd [(1, 5); (2, 7); (3, 7); (4, 1)] = Some (2, 7).
Proof. reflexivity. Qed.

(** ** [int(str(n))] *)

Section IntOfStr.

Lemma digit_not_space c : Py.is_digit c = true → Py.is_space c = false.
Proof. destruct c as [[|] [|] [|] [|] [|] [|] [|] [|]]; vm_compute; congruence. Qed.

Lemma digit_not_sign c r :
  Py.is_digit c = true →
  Py.signed_of_str (String c r) = Py.unsigned_of_str (String c r).
Proof.
  destruct c as [[|] [|] [|] [|] [|] [|] [|] [|]]; intros Hc;
    try reflexivity; vm_compute in Hc; discriminate.
Qed.

Lemma string_of_uint_digits u :
  Py.all_chars Py.is_digit (NilEmpty.string_of_uint u) = true.
Proof. induction u; simpl; try rewrite IHu; reflexivity. Qed.

Lemma rstrip_no_space s :
  Py.all_chars (λ c, negb (Py.is_space c)) s = true → Py.rstrip s = s.
Proof.
  induction s as [|c r IH]; simpl; [reflexivity|].
  intros Hall. apply andb_prop in Hall as [Hc Hr]. rewrite (IH Hr).
  destruct r; [|reflexivity]. apply negb_true_iff in Hc. rewrite Hc. reflexivity.
Qed.

Lemma all_digits_no_space s :
  Py.all_chars Py.is_digit s = true →
  Py.all_chars (λ c, negb (Py.is_space c)) s = true.
Proof.
  induction s as [|c r IH]; simpl; [reflexivity|].
  intros Hall. apply andb_prop in Hall as [Hc Hr].
  rewrite (digit_not_space _ Hc), (IH Hr). reflexivity.
Qed.

Lemma strip_digits c r :
  Py.is_digit c = true → Py.all_chars Py.is_digit r = true →
  Py.strip (String c r) = String c r.
Proof.
  intros Hc Hr. unfold Py.strip. simpl Py.lstrip. rewrite (digit_not_space _ Hc).
  apply rstrip_no_space. simpl. rewrite (digit_not_space _ Hc). simpl.
  apply all_digits_no_space, Hr.
Qed.

Lemma digits_of_digits s :
  Py.all_chars Py.is_digit s = true → Py.digits_of true s = Some s.
Proof.
  induction s as [|c r IH]; simpl; [reflexivity|].
  intros Hall. apply andb_prop in Hall as [Hc Hr]. rewrite Hc, (IH Hr). reflexivity.
Qed.

Lemma unsigned_of_str_uint u :
  u ≠ Decimal.Nil →
  Py.unsigned_of_str (NilEmpty.string_of_uint u) = Some (Z.of_uint u).
Proof.
  intros Hu. pose proof (string_of_uint_digits u) as Hall.
  pose proof (NilEmpty.usu u) as Husu.
  unfold Py.unsigned_of_str.
  destruct (NilEmpty.string_of_uint u) as [|c r] eqn:Hs.
  { destruct u; simpl in Hs; congruence. }
  simpl in Hall. apply andb_prop in Hall as [Hc Hr].
  simpl Py.digits_of. rewrite Hc, (digits_of_digits _ Hr). simpl.
  unfold Py.nat_of_digits, NilZero.uint_of_string. rewrite Husu. reflexivity.
Qed.

Lemma ascii_form_cons c r :
  (N_of_ascii c <? 127)%N = true →
  Py.ascii_form (String c r) = String c <$> Py.ascii_form r.
Proof.
  intros Hc. unfold Py.ascii_form. simpl Py.code_points.
  assert (Hlt : (N_of_ascii c <? 128)%N = true) by (apply N.ltb_lt; apply N.ltb_lt in Hc; lia).
  rewrite Hlt. destruct (Py.code_points r) as [cps|]; [|reflexivity].
  assert (Hoc : Py.of_code_point (N_of_ascii c) = Some c).
  { unfold Py.of_code_point. rewrite Hc, ascii_N_embedding. reflexivity. }
  cbn. rewrite Hoc. cbn. destruct (mapM Py.of_code_point cps); reflexivity.
Qed.

Lemma digit_below_127 c : Py.is_digit c = true → (N_of_ascii c <? 127)%N = true.
Proof. destruct c as [[|] [|] [|] [|] [|] [|] [|] [|]]; vm_compute; congruence. Qed.

Lemma ascii_form_digits s :
  Py.all_chars Py.is_digit s = true → Py.ascii_form s = Some s.
Proof.
  induction s as [|c r IH]; [reflexivity|].
  simpl. intros Hall. apply andb_prop in Hall as [Hc Hr].
  rewrite (ascii_form_cons _ _ (digit_below_127 _ Hc)), (IH Hr). reflexivity.
Qed.

Lemma int_of_str_uint u :
  u ≠ Decimal.Nil →
  Py.int_of_str (NilEmpty.string_of_uint u) = Some (Z.of_uint u) ∧
  Py.int_of_str (String "-" (NilEmpty.string_of_uint u)) = Some (- Z.of_uint u).
Proof.
  intros Hu. pose proof (string_of_uint_digits u) as Hall.
  pose proof (unsigned_of_str_uint u Hu) as Huns.
  pose proof (ascii_form_digits _ Hall) as Hform.
  destruct (NilEmpty.string_of_uint u) as [|c r] eqn:Hs.
  { destruct u; simpl in Hs; congruence. }
  simpl in Hall. apply andb_prop in Hall as [Hc Hr]. split.
  - unfold Py.int_of_str. rewrite Hform, (strip_digits _ _ Hc Hr).
    rewrite (digit_not_sign c r Hc). exact Huns.
  - unfold Py.int_of_str.
    rewrite (ascii_form_cons "-" (String c r) eq_refl), Hform. simpl fmap. unfold Py.strip.
    change (Py.lstrip (String "-" (String c r))) with (String "-" (String c r)).
    rewrite rstrip_no_space.
    + unfold Py.signed_of_str. rewrite Huns. reflexivity.
    + change (Py.all_chars (λ c0, negb (Py.is_space c0)) (String c r) = true).
      apply all_digits_no_space. simpl. rewrite Hc, Hr. reflexivity.
Qed.

(** [int(str(n)) == n] for every integer [n]. *)
Lemma int_of_str_of_int z : Py.int_of_str (Py.str_of_int z) = Some z.
Proof.
  destruct z as [|p|p]; [reflexivity| |].
  - pose proof (DecimalPos.Unsigned.to_uint_nonnil p) as Hn.
    pose proof (DecimalZ.of_to (Z.pos p)) as Hz. simpl in Hz.
    unfold Py.str_of_int. simpl. unfold NilZero.string_of_uint.
    destruct (int_of_str_uint _ Hn) as [Hpos _].
    destruct (Pos.to_uint p); [congruence|rewrite Hpos, Hz; reflexivity..].
  - pose proof (DecimalPos.Unsigned.to_uint_nonnil p) as Hn.
    pose proof (DecimalZ.of_to (Z.neg p)) as Hz. simpl in Hz.
    unfold Py.str_of_int. simpl. unfold NilZero.string_of_uint.
    destruct (int_of_str_uint _ Hn) as [_ Hneg].
    destruct (Pos.to_uint p); [congruence|rewrite Hneg, Hz; reflexivity..].
Qed.

End IntOfStr.

(** ** Reasoning about the monad *)

Section MonadFacts.
Context {St : Type}.
Implicit Types (st : St).

Lemma bind_inr {A B} (m : M A) (k : A → M B) st a st1 :
  m st = (inr a, st1) → bind m k st = k a st1.
Proof. unfold bind. intros ->. reflexivity. Qed.

Lemma bind_inl {A B} (m : M A) (k : A → M B) st e st1 :
  m st = (inl e, st1) → bind m k st = (inl e, st1).
Proof. unfold bind. intros ->. reflexivity. Qed.

Lemma bind_inv {A B} (m : M A) (k : A → M B) st r st2 :
  bind m k st = (r, st2) →
  (∃ e, m st = (inl e, st2) ∧ r = inl e) ∨
  (∃ a st1, m st = (inr a, st1) ∧ k a st1 = (r, st2)).
Proof.
  unfold bind. destruct (m st) as [[e|a] st1]; intros Heq.
  - left. exists e. inversion Heq; subst. split; reflexivity.
  - right. exists a, st1. split; [reflexivity|exact Heq].
Qed.

Lemma bind_inv_inr {A B} (m : M A) (k : A → M B) st b st2 :
  bind m k st = (inr b, st2) →
  ∃ a st1, m st = (inr a, st1) ∧ k a st1 = (inr b, st2).
Proof.
  intros Heq. apply bind_inv in Heq as [(e & _ & Hr)|Hok]; [discriminate|exact Hok].
Qed.

Lemma try_except_inr {A} (m : M A) h st a st1 :
  m st = (inr a, st1) → try_except m h st = (inr a, st1).
Proof. unfold try_except. intros ->. reflexivity. Qed.

Lemma try_except_inl {A} (m : M A) h st e st1 :
  m st = (inl e, st1) → try_except m h st = h e st1.
Proof. unfold try_except. intros ->. reflexivity. Qed.

Lemma preserves_ret (R : St → St → Prop) `{!Reflexive R} {A} (a : A) : preserves R (ret a).
Proof. intros st r st1 Heq. inversion Heq; subst. reflexivity. Qed.

Lemma preserves_raise (R : St → St → Prop) `{!Reflexive R} {A} e : preserves R (raise (A:=A) e).
Proof. intros st r st1 Heq. inversion Heq; subst. reflexivity. Qed.

Lemma preserves_lift (R : St → St → Prop) `{!Reflexive R} {A} (x : result A) : preserves R (lift x).
Proof. intros st r st1 Heq. inversion Heq; subst. reflexivity. Qed.

Lemma preserves_bind (R : St → St → Prop) `{!Transitive R} {A B} (m : M A) (k : A → M B) :
  preserves R m → (∀ a, preserves R (k a)) → preserves R (bind m k).
Proof.
  intros Hm Hk st r st2 Heq.
  apply bind_inv in Heq as [(e & Hs & _)|(a & st1 & Hs & Hks)].
  - eapply Hm, Hs.
  - etransitivity; [eapply Hm, Hs|eapply Hk, Hks].
Qed.

Lemma preserves_try_except (R : St → St → Prop) `{!Transitive R} {A} (m : M A) h :
  preserves R m → (∀ e, preserves R (h e)) → preserves R (try_except m h).
Proof.
  intros Hm Hh st r st2. unfold try_except.
  destruct (m st) as [[e|a] st1] eqn:Hs; intros Heq.
  - etransitivity; [eapply Hm, Hs|eapply Hh, Heq].
  - inversion Heq; subst. eapply Hm, Hs.
Qed.

End MonadFacts.


(** ** The collaborators' calls *)

Section Calls.
Context {W Status TwitterMedia Document ContentStore : Type}.
Context `{Extractor Status TwitterMedia Document}.
Implicit Types (st : State W Status ContentStore).

#[export] Instance same_metadata_refl :
  Reflexive (same_metadata (W:=W) (Status:=Status) (ContentStore:=ContentStore)).
Proof. intros st. reflexivity. Qed.

#[export] Instance same_metadata_trans :
  Transitive (same_metadata (W:=W) (Status:=Status) (ContentStore:=ContentStore)).
Proof. intros a b c Hab Hbc. unfold same_metadata in *. congruence. Qed.

#[export] Instance extends_refl :
  Reflexive (extends (W:=W) (Status:=Status) (ContentStore:=ContentStore)).
Proof. intros st. split; [|split]; reflexivity. Qed.

#[export] Instance extends_trans :
  Transitive (extends (W:=W) (Status:=Status) (ContentStore:=ContentStore)).
Proof.
  intros a b c (Ha1 & Ha2 & Ha3) (Hb1 & Hb2 & Hb3). repeat split; try congruence.
  etransitivity; eassumption.
Qed.

Lemma new_events_app st st1 evs :
  trace st1 = trace st ++ evs → new_events st st1 = evs.
Proof. unfold new_events. intros ->. apply drop_app_length. Qed.

Lemma extends_trace st st1 :
  extends st st1 → trace st1 = trace st ++ new_events st st1.
Proof.
  intros (_ & _ & evs & Hevs). rewrite (new_events_app _ _ evs Hevs). exact Hevs.
Qed.

(** A call of [GetUserTimeline] that came back, with a list or with a
    [TwitterError], was made on a handle, is in the trace, and touched
    nothing but the remote service. *)
Lemma call_GetUserTimeline_inv name since_id n st r st1 :
  call_GetUserTimeline name since_id n st = (r, st1) →
  (twitter_api st = None ∧ st1 = st ∧ ∃ msg, r = inl (AttributeError msg)) ∨
  (∃ api ur w, twitter_api st = Some api ∧
     GetUserTimeline api name since_id n (upstream st) = (ur, w) ∧
     r = of_upstream ur ∧
     st1 = set_upstream w (record (CallGetUserTimeline name since_id n) st)).
Proof.
  unfold call_GetUserTimeline. destruct (twitter_api st) as [api|] eqn:Hapi.
  - destruct (GetUserTimeline api name since_id n (upstream st)) as [ur w] eqn:Hcall.
    intros Heq. inversion Heq; subst. right. exists api, ur, w. auto.
  - intros Heq. inversion Heq; subst. left. eauto.
Qed.

Lemma call_GetStatus_inv i st r st1 :
  call_GetStatus i st = (r, st1) →
  (twitter_api st = None ∧ st1 = st ∧ ∃ msg, r = inl (AttributeError msg)) ∨
  (∃ api ur w, twitter_api st = Some api ∧
     GetStatus api i (upstream st) = (ur, w) ∧
     r = of_upstream ur ∧
     st1 = set_upstream w (record (CallGetStatus i) st)).
Proof.
  unfold call_GetStatus. destruct (twitter_api st) as [api|] eqn:Hapi.
  - destruct (GetStatus api i (upstream st)) as [ur w] eqn:Hcall.
    intros Heq. inversion Heq; subst. right. exists api, ur, w. auto.
  - intros Heq. inversion Heq; subst. left. eauto.
Qed.

Lemma of_upstream_inr {A} (ur : upstream_result A) a :
  of_upstream ur = inr a → ur = Returned a.
Proof. destruct ur; simpl; congruence. Qed.

Lemma of_upstream_TwitterError {A} (ur : upstream_result A) te :
  of_upstream ur = inl (TwitterError te) → ur = Raised te.
Proof. destruct ur; simpl; congruence. Qed.

Lemma call_GetUserTimeline_inr name since_id n st l st1 :
  call_GetUserTimeline name since_id n st = (inr l, st1) →
  ∃ api w, twitter_api st = Some api ∧
    GetUserTimeline api name since_id n (upstream st) = (Returned l, w) ∧
    st1 = set_upstream w (record (CallGetUserTimeline name since_id n) st).
Proof.
  intros Hc. apply call_GetUserTimeline_inv in Hc
    as [(_ & _ & msg & Hr)|(api & ur & w & Hapi & Hg & Hr & Hst)]; [discriminate|].
  symmetry in Hr. apply of_upstream_inr in Hr as ->. eauto.
Qed.

Lemma call_GetUserTimeline_trace name since_id n st l st1 :
  call_GetUserTimeline name since_id n st = (inr l, st1) →
  trace st1 = trace st ++ [CallGetUserTimeline name since_id n].
Proof.
  intros Hc. apply call_GetUserTimeline_inr in Hc as (api & w & _ & _ & ->).
  reflexivity.
Qed.

Lemma call_GetStatus_inr i st s st1 :
  call_GetStatus i st = (inr s, st1) →
  trace st1 = trace st ++ [CallGetStatus i].
Proof.
  intros Hc. apply call_GetStatus_inv in Hc
    as [(_ & _ & msg & Hr)|(api & ur & w & Hapi & Hg & Hr & ->)]; [discriminate|].
  reflexivity.
Qed.

Lemma call_GetStatus_TwitterError i st te st1 :
  call_GetStatus i st = (inl (TwitterError te), st1) →
  trace st1 = trace st ++ [CallGetStatus i].
Proof.
  intros Hc. apply call_GetStatus_inv in Hc
    as [(_ & _ & msg & Hr)|(api & ur & w & Hapi & Hg & Hr & ->)]; [discriminate|].
  reflexivity.
Qed.

Lemma call_GetUserTimeline_same_metadata name since_id n :
  preserves same_metadata (call_GetUserTimeline (W:=W) (Status:=Status)
    (ContentStore:=ContentStore) name since_id n).
Proof.
  intros st r st1 Hc. apply call_GetUserTimeline_inv in Hc
    as [(_ & -> & _)|(api & ur & w & _ & _ & _ & ->)]; reflexivity.
Qed.

Lemma call_GetStatus_same_metadata i :
  preserves same_metadata (call_GetStatus (W:=W) (Status:=Status)
    (ContentStore:=ContentStore) i).
Proof.
  intros st r st1 Hc. apply call_GetStatus_inv in Hc
    as [(_ & -> & _)|(api & ur & w & _ & _ & _ & ->)]; reflexivity.
Qed.

Lemma call_GetUserTimeline_extends name since_id n :
  preserves extends (call_GetUserTimeline (W:=W) (Status:=Status)
    (ContentStore:=ContentStore) name since_id n).
Proof.
  intros st r st1 Hc. apply call_GetUserTimeline_inv in Hc
    as [(_ & -> & _)|(api & ur & w & _ & _ & _ & ->)]; [reflexivity|].
  repeat split. simpl. apply prefix_app_r. reflexivity.
Qed.

Lemma call_GetStatus_extends i :
  preserves extends (call_GetStatus (W:=W) (Status:=Status)
    (ContentStore:=ContentStore) i).
Proof.
  intros st r st1 Hc. apply call_GetStatus_inv in Hc
    as [(_ & -> & _)|(api & ur & w & _ & _ & _ & ->)]; [reflexivity|].
  repeat split. simpl. apply prefix_app_r. reflexivity.
Qed.

Lemma call_extract_media_same_metadata tweet :
  preserves same_metadata (call_extract_media (W:=W) (ContentStore:=ContentStore) tweet).
Proof. intros st r st1 Hc. inversion Hc; subst. reflexivity. Qed.

Lemma call_extract_media_extends tweet :
  preserves extends (call_extract_media (W:=W) (ContentStore:=ContentStore) tweet).
Proof.
  intros st r st1 Hc. inversion Hc; subst. repeat split. simpl.
  apply prefix_app_r. reflexivity.
Qed.

Lemma metadata_exists_eq key st :
  metadata_exists key st = (inr (bool_decide (is_Some (metadata st !! key))), st).
Proof. reflexivity. Qed.

Lemma metadata_set_extends key value :
  preserves extends (metadata_set (W:=W) (Status:=Status)
    (ContentStore:=ContentStore) key value).
Proof.
  intros st r st1 Hc. inversion Hc; subst. repeat split. simpl.
  apply prefix_app_r. reflexivity.
Qed.

Lemma int_pure x st r st1 :
  int (W:=W) (Status:=Status) (ContentStore:=ContentStore) x st = (r, st1) → st1 = st.
Proof.
  unfold int. destruct x as [s|]; [destruct (Py.int_of_str s)|];
    intros Heq; inversion Heq; reflexivity.
Qed.

End Calls.

(** ** The blocks of [process] *)

Section Blocks.
Context {W Status TwitterMedia Document ContentStore : Type}.
Context `{Extractor Status TwitterMedia Document}.
Variable screen_name : string.
Implicit Types (st : State W Status ContentStore).

(** *** The availability probe *)

Lemma availability_probe_returned st l st1 :
  call_GetUserTimeline screen_name None 1 st = (inr l, st1) →
  availability_probe screen_name st = (inr true, st1).
Proof.
  intros Hc. unfold availability_probe.
  erewrite try_except_inr; [reflexivity|]. erewrite bind_inr by exact Hc. reflexivity.
Qed.

Lemma availability_probe_raised st e st1 :
  call_GetUserTimeline screen_name None 1 st = (inl e, st1) →
  availability_probe screen_name st =
    (if is_not_authorized e then inr false else inl e, st1).
Proof.
  intros Hc. unfold availability_probe.
  erewrite try_except_inl by (erewrite bind_inl by exact Hc; reflexivity).
  destruct e as [te| | | | |]; simpl; try reflexivity.
  destruct (not_authorized te); reflexivity.
Qed.

Lemma availability_probe_inv st r st1 :
  availability_probe screen_name st = (r, st1) →
  (∃ l, call_GetUserTimeline screen_name None 1 st = (inr l, st1) ∧ r = inr true) ∨
  (∃ e, call_GetUserTimeline screen_name None 1 st = (inl e, st1) ∧
        r = if is_not_authorized e then inr false else inl e).
Proof.
  destruct (call_GetUserTimeline screen_name None 1 st) as [[e|l] st0] eqn:Hc; intros Hp.
  - rewrite (availability_probe_raised _ _ _ Hc) in Hp. inversion Hp; subst. right. eauto.
  - rewrite (availability_probe_returned _ _ _ Hc) in Hp. inversion Hp; subst. left. eauto.
Qed.

Lemma availability_probe_same_metadata :
  preserves same_metadata
    (availability_probe (W:=W) (Status:=Status) (ContentStore:=ContentStore) screen_name).
Proof.
  intros st r st1 Hp.
  apply availability_probe_inv in Hp as [(l & Hc & _)|(e & Hc & _)];
    eapply call_GetUserTimeline_same_metadata, Hc.
Qed.

Lemma availability_probe_extends :
  preserves extends
    (availability_probe (W:=W) (Status:=Status) (ContentStore:=ContentStore) screen_name).
Proof.
  intros st r st1 Hp.
  apply availability_probe_inv in Hp as [(l & Hc & _)|(e & Hc & _)];
    eapply call_GetUserTimeline_extends, Hc.
Qed.

(** *** Validation and the choice of the window *)

Lemma check_since_id_inv c st r st1 :
  check_since_id c st = (r, st1) →
  (∃ s, call_GetStatus c st = (inr s, st1) ∧ r = inr false) ∨
  (∃ te, call_GetStatus c st = (inl (TwitterError te), st1) ∧ r = inr true) ∨
  (∃ e, call_GetStatus c st = (inl e, st1) ∧ r = inl e ∧ ∀ te, e ≠ TwitterError te).
Proof.
  unfold check_since_id, try_except, bind.
  destruct (call_GetStatus c st) as [[e|s] st0] eqn:Hc; intros Heq.
  - destruct e as [te| | | | |]; inversion Heq; subst;
      [right; left; eauto|right; right; eexists; repeat split; congruence..].
  - inversion Heq; subst. left. eauto.
Qed.

Lemma check_since_id_same_metadata c :
  preserves same_metadata
    (check_since_id (W:=W) (Status:=Status) (ContentStore:=ContentStore) c).
Proof.
  intros st r st1 Hp.
  apply check_since_id_inv in Hp as [(l & Hc & _)|[(e & Hc & _)|(e & Hc & _)]];
    eapply call_GetStatus_same_metadata, Hc.
Qed.

Lemma check_since_id_extends c :
  preserves extends
    (check_since_id (W:=W) (Status:=Status) (ContentStore:=ContentStore) c).
Proof.
  intros st r st1 Hp.
  apply check_since_id_inv in Hp as [(l & Hc & _)|[(e & Hc & _)|(e & Hc & _)]];
    eapply call_GetStatus_extends, Hc.
Qed.

Lemma fetch_tweets_same_metadata c b :
  preserves same_metadata
    (fetch_tweets (W:=W) (Status:=Status) (ContentStore:=ContentStore) screen_name c b).
Proof. destruct b; apply call_GetUserTimeline_same_metadata. Qed.

Lemma fetch_tweets_extends c b :
  preserves extends
    (fetch_tweets (W:=W) (Status:=Status) (ContentStore:=ContentStore) screen_name c b).
Proof. destruct b; apply call_GetUserTimeline_extends. Qed.

Lemma metadata_get_pure key st r st1 :
  metadata_get key st = (r, st1) → st1 = st ∧ r = inr (metadata st !! key).
Proof. intros Heq. inversion Heq; auto. Qed.

Lemma int_same_metadata x :
  preserves same_metadata (int (W:=W) (Status:=Status) (ContentStore:=ContentStore) x).
Proof. intros st r st1 Hi. apply int_pure in Hi as ->. reflexivity. Qed.

Lemma int_extends x :
  preserves extends (int (W:=W) (Status:=Status) (ContentStore:=ContentStore) x).
Proof. intros st r st1 Hi. apply int_pure in Hi as ->. reflexivity. Qed.

Lemma metadata_get_same_metadata key :
  preserves same_metadata
    (metadata_get (W:=W) (Status:=Status) (ContentStore:=ContentStore) key).
Proof. intros st r st1 Hg. apply metadata_get_pure in Hg as [-> _]. reflexivity. Qed.

Lemma metadata_get_extends key :
  preserves extends
    (metadata_get (W:=W) (Status:=Status) (ContentStore:=ContentStore) key).
Proof. intros st r st1 Hg. apply metadata_get_pure in Hg as [-> _]. reflexivity. Qed.

Lemma fetch_window_same_metadata :
  preserves same_metadata
    (fetch_window (W:=W) (Status:=Status) (ContentStore:=ContentStore) screen_name).
Proof.
  unfold fetch_window.
  apply preserves_bind; [apply _|apply metadata_get_same_metadata|intros x].
  apply preserves_bind; [apply _|apply int_same_metadata|intros c].
  apply preserves_bind; [apply _|apply check_since_id_same_metadata|intros b].
  apply fetch_tweets_same_metadata.
Qed.

Lemma fetch_window_extends :
  preserves extends
    (fetch_window (W:=W) (Status:=Status) (ContentStore:=ContentStore) screen_name).
Proof.
  unfold fetch_window.
  apply preserves_bind; [apply _|apply metadata_get_extends|intros x].
  apply preserves_bind; [apply _|apply int_extends|intros c].
  apply preserves_bind; [apply _|apply check_since_id_extends|intros b].
  apply fetch_tweets_extends.
Qed.

End Blocks.

(** ** [max] with a key *)

Section MaxBy.
Context {A : Type} (key : A → Z).

Lemma fold_max_step_in (l : list A) (x : A) :
  fold_left (Py.max_step key) l x = x ∨ fold_left (Py.max_step key) l x ∈ l.
Proof.
  revert x. induction l as [|y l IH]; intros x; simpl; [left; reflexivity|].
  destruct (IH (Py.max_step key x y)) as [Heq|Hin].
  - rewrite Heq. unfold Py.max_step. destruct (key x <? key y).
    + right. left.
    + left. reflexivity.
  - right. right. exact Hin.
Qed.

Lemma max_by_in (l : list A) (x : A) : Py.max_by key l = Some x → x ∈ l.
Proof.
  destruct l as [|y l]; simpl; [discriminate|]. intros [= <-].
  destruct (fold_max_step_in l y) as [->|Hin]; [left|right; exact Hin].
Qed.

Lemma max_by_is_Some (l : list A) : l ≠ [] → is_Some (Py.max_by key l).
Proof. destruct l; [congruence|]. intros _. simpl. eauto. Qed.

(** The element [fold_left] ends on splits the list: before it every key
    is smaller, after it no key is larger. *)
Lemma fold_max_step_split (l : list A) (x : A) :
  (fold_left (Py.max_step key) l x = x ∧ Forall (λ y, key y ≤ key x) l) ∨
  (∃ pre d post, l = pre ++ d :: post ∧
     fold_left (Py.max_step key) l x = d ∧
     key x < key d ∧
     Forall (λ y, key y < key d) pre ∧
     Forall (λ y, key y ≤ key d) post).
Proof.
  revert x. induction l as [|y l IH]; intros x; simpl.
  - left. split; [reflexivity|constructor].
  - destruct (Z.ltb_spec (key x) (key y)) as [Hlt|Hge].
    + assert (Hs : Py.max_step key x y = y).
      { unfold Py.max_step. apply Z.ltb_lt in Hlt. rewrite Hlt. reflexivity. }
      rewrite Hs. right.
      destruct (IH y) as [[Heq Hall]|(pre & d & post & -> & Heq & Hlt' & Hpre & Hpost)].
      * exists [], y, l. repeat split; auto.
      * exists (y :: pre), d, post.
        split; [reflexivity|]. split; [exact Heq|]. split; [lia|].
        split; [constructor; [lia|exact Hpre]|exact Hpost].
    + assert (Hs : Py.max_step key x y = x).
      { unfold Py.max_step. apply Z.ltb_ge in Hge. rewrite Hge. reflexivity. }
      rewrite Hs.
      destruct (IH x) as [[Heq Hall]|(pre & d & post & -> & Heq & Hlt' & Hpre & Hpost)].
      * left. split; [exact Heq|]. constructor; auto.
      * right. exists (y :: pre), d, post.
        split; [reflexivity|]. split; [exact Heq|]. split; [exact Hlt'|].
        split; [constructor; [lia|exact Hpre]|exact Hpost].
Qed.

Lemma max_by_split (l : list A) (d : A) :
  Py.max_by key l = Some d →
  ∃ pre post, l = pre ++ d :: post ∧
    Forall (λ y, key y < key d) pre ∧
    Forall (λ y, key y ≤ key d) post.
Proof.
  destruct l as [|x l]; simpl; [discriminate|]. intros [= <-].
  destruct (fold_max_step_split l x)
    as [[Heq Hall]|(pre & d & post & -> & Heq & Hlt & Hpre & Hpost)].
  - exists [], l. rewrite Heq. repeat split; auto.
  - exists (x :: pre), post. rewrite Heq.
    split; [reflexivity|]. split; [constructor; [exact Hlt|exact Hpre]|exact Hpost].
Qed.

End MaxBy.

(** ** Extraction, bootstrap, and the whole of [process] *)

Section Process.
Context {W Status TwitterMedia Document ContentStore : Type}.
Context `{Extractor Status TwitterMedia Document}.
Variable screen_name : string.
Implicit Types (st : State W Status ContentStore).

(** *** The extraction loop *)

Lemma extract_documents_cons tweet rest acc st :
  extract_documents (tweet :: rest) acc st =
    match tweet_documents tweet with
    | inr documents =>
        extract_documents rest (acc ++ documents) (record (CallExtractMedia tweet) st)
    | inl e => (inl e, record (CallExtractMedia tweet) st)
    end.
Proof.
  simpl. unfold bind, call_extract_media, lift, tweet_documents.
  destruct (extract_media tweet) as [e|media_list]; [reflexivity|].
  destruct (media_list_to_documents media_list); reflexivity.
Qed.

Lemma extract_documents_same_metadata tweets acc :
  preserves same_metadata
    (extract_documents (W:=W) (ContentStore:=ContentStore) tweets acc).
Proof.
  revert acc. induction tweets as [|t rest IH]; intros acc st r st1.
  - intros Heq. inversion Heq; subst. reflexivity.
  - rewrite extract_documents_cons. destruct (tweet_documents t) as [e|ds].
    + intros Heq. inversion Heq; subst. reflexivity.
    + intros Heq. apply IH in Heq. exact Heq.
Qed.

Lemma extract_documents_extends tweets acc :
  preserves extends
    (extract_documents (W:=W) (ContentStore:=ContentStore) tweets acc).
Proof.
  revert acc. induction tweets as [|t rest IH]; intros acc st r st1.
  - intros Heq. inversion Heq; subst. reflexivity.
  - assert (Hrec : extends st (record (CallExtractMedia t) st)).
    { split; [reflexivity|]. split; [reflexivity|]. simpl. apply prefix_app_r. reflexivity. }
    rewrite extract_documents_cons. destruct (tweet_documents t) as [e|ds].
    + intros Heq. inversion Heq; subst. exact Hrec.
    + intros Heq. apply IH in Heq. etransitivity; eassumption.
Qed.

(** When the loop ends normally every tweet was extracted, in order, and
    every new document is a document of one of the tweets. *)
Lemma extract_documents_inr tweets acc st documents st1 :
  extract_documents tweets acc st = (inr documents, st1) →
  trace st1 = trace st ++ map CallExtractMedia tweets ∧
  ∃ new, documents = acc ++ new ∧
         ∀ d, d ∈ new → ∃ t, t ∈ tweets ∧ document_of t d.
Proof.
  revert acc st. induction tweets as [|t rest IH]; intros acc st.
  - intros Heq. inversion Heq; subst. simpl. rewrite app_nil_r. split; [reflexivity|].
    exists []. rewrite app_nil_r. split; [reflexivity|]. intros d Hd. inversion Hd.
  - rewrite extract_documents_cons. destruct (tweet_documents t) as [e|ds] eqn:Ht; [discriminate|].
    intros Heq. apply IH in Heq as (Htr & new & -> & Hnew). split.
    + rewrite Htr. simpl. rewrite <- app_assoc. reflexivity.
    + exists (ds ++ new). rewrite app_assoc. split; [reflexivity|].
      intros d Hd. apply elem_of_app in Hd as [Hd|Hd].
      * exists t. split; [left|]. exists ds. auto.
      * destruct (Hnew d Hd) as (t' & Ht' & Hdoc). exists t'. split; [right; exact Ht'|exact Hdoc].
Qed.


Lemma process_tweets_same_metadata tweets :
  preserves same_metadata (process_tweets (W:=W) (ContentStore:=ContentStore) tweets).
Proof.
  destruct tweets; [apply preserves_ret; apply _|apply extract_documents_same_metadata].
Qed.

Lemma process_tweets_extends tweets :
  preserves extends (process_tweets (W:=W) (ContentStore:=ContentStore) tweets).
Proof.
  destruct tweets; [apply preserves_ret; apply _|apply extract_documents_extends].
Qed.

Lemma process_tweets_inr tweets st documents st1 :
  process_tweets tweets st = (inr documents, st1) →
  trace st1 = trace st ++ map CallExtractMedia tweets ∧
  ∀ d, d ∈ documents → ∃ t, t ∈ tweets ∧ document_of t d.
Proof.
  destruct tweets as [|t rest].
  - intros Heq. inversion Heq; subst. simpl. rewrite app_nil_r. split; [reflexivity|].
    intros d Hd. inversion Hd.
  - intros Heq. apply extract_documents_inr in Heq as (Htr & new & -> & Hnew).
    split; [exact Htr|exact Hnew].
Qed.

End Process.

Section Bootstrap.
Context {W Status TwitterMedia Document ContentStore : Type}.
Context `{Extractor Status TwitterMedia Document}.
Variable screen_name : string.
Implicit Types (st : State W Status ContentStore).

(** *** The bootstrap *)

Lemma initialize_since_id_stored st s :
  metadata st !! SINCE_ID_KEY = Some s →
  initialize_since_id screen_name st = (inr tt, st).
Proof.
  intros Hs. unfold initialize_since_id.
  erewrite bind_inr by apply metadata_exists_eq.
  rewrite bool_decide_eq_true_2 by (rewrite Hs; eauto). reflexivity.
Qed.

Lemma initialize_since_id_absent st :
  metadata st !! SINCE_ID_KEY = None →
  initialize_since_id screen_name st =
    (init_tweets ← call_GetUserTimeline screen_name None 1;
     match init_tweets with
     | [] => raise (RuntimeError "Cannot obtain the initial tweets in order to get the initial since_id")
     | _ => t ← max_of id init_tweets; metadata_set SINCE_ID_KEY (Py.str_of_int (id t))
     end) st.
Proof.
  intros Hs. unfold initialize_since_id.
  erewrite bind_inr by apply metadata_exists_eq.
  rewrite bool_decide_eq_false_2; [reflexivity|].
  rewrite Hs. intros [x Hx]. discriminate.
Qed.

Lemma initialize_since_id_raised st e st1 :
  metadata st !! SINCE_ID_KEY = None →
  call_GetUserTimeline screen_name None 1 st = (inl e, st1) →
  initialize_since_id screen_name st = (inl e, st1).
Proof.
  intros Hs Hc. rewrite initialize_since_id_absent by exact Hs.
  erewrite bind_inl by exact Hc. reflexivity.
Qed.

Lemma initialize_since_id_empty st st1 :
  metadata st !! SINCE_ID_KEY = None →
  call_GetUserTimeline screen_name None 1 st = (inr [], st1) →
  initialize_since_id screen_name st =
    (inl (RuntimeError "Cannot obtain the initial tweets in order to get the initial since_id"), st1).
Proof.
  intros Hs Hc. rewrite initialize_since_id_absent by exact Hs.
  erewrite bind_inr by exact Hc. reflexivity.
Qed.

Lemma initialize_since_id_item st t0 l st1 :
  metadata st !! SINCE_ID_KEY = None →
  call_GetUserTimeline screen_name None 1 st = (inr (t0 :: l), st1) →
  ∃ t, Py.max_by id (t0 :: l) = Some t ∧
       initialize_since_id screen_name st =
         metadata_set SINCE_ID_KEY (Py.str_of_int (id t)) st1.
Proof.
  intros Hs Hc. rewrite initialize_since_id_absent by exact Hs.
  erewrite bind_inr by exact Hc.
  exists (fold_left (Py.max_step id) l t0). split; reflexivity.
Qed.

Lemma initialize_since_id_extends :
  preserves extends
    (initialize_since_id (W:=W) (ContentStore:=ContentStore) screen_name).
Proof.
  unfold initialize_since_id.
  apply preserves_bind; [apply _| |intros stored].
  { intros st r st1 Heq. inversion Heq; subst. reflexivity. }
  destruct stored; simpl; [apply preserves_ret; apply _|].
  apply preserves_bind; [apply _|apply call_GetUserTimeline_extends|intros l].
  destruct l as [|t0 l]; [apply preserves_raise; apply _|].
  apply preserves_bind; [apply _| |intros t; apply metadata_set_extends].
  intros st r st1 Heq. inversion Heq; subst. reflexivity.
Qed.

(** Whatever the bootstrap does, the metadata store afterwards is the one
    before, or, when no cursor was stored, the one before with the id of
    a fetched tweet as cursor. *)
Lemma initialize_since_id_metadata st r st1 :
  initialize_since_id screen_name st = (r, st1) →
  metadata st1 = metadata st ∨
  (metadata st !! SINCE_ID_KEY = None ∧ r = inr tt ∧
   ∃ t, metadata st1 = <[SINCE_ID_KEY := Py.str_of_int (id t)]> (metadata st)).
Proof.
  destruct (metadata st !! SINCE_ID_KEY) as [s|] eqn:Hs.
  - rewrite (initialize_since_id_stored _ _ Hs). intros Heq. inversion Heq; subst. left. reflexivity.
  - destruct (call_GetUserTimeline screen_name None 1 st) as [[e|[|t0 l]] st0] eqn:Hc.
    + rewrite (initialize_since_id_raised _ _ _ Hs Hc). intros Heq. inversion Heq; subst.
      left. eapply call_GetUserTimeline_same_metadata, Hc.
    + rewrite (initialize_since_id_empty _ _ Hs Hc). intros Heq. inversion Heq; subst.
      left. eapply call_GetUserTimeline_same_metadata, Hc.
    + destruct (initialize_since_id_item _ _ _ _ Hs Hc) as (t & _ & ->).
      intros Heq. inversion Heq; subst. right. split; [reflexivity|]. split; [reflexivity|].
      exists t. simpl.
      rewrite (call_GetUserTimeline_same_metadata _ _ _ _ _ _ Hc). reflexivity.
Qed.

(** *** [process] as a whole *)

Lemma process_probe_returned st l st1 :
  call_GetUserTimeline screen_name None 1 st = (inr l, st1) →
  process screen_name st =
    (initialize_since_id screen_name;;
     tweets ← fetch_window screen_name;
     process_tweets tweets) st1.
Proof.
  intros Hc. unfold process.
  erewrite bind_inr by (eapply availability_probe_returned; exact Hc). reflexivity.
Qed.

Lemma process_probe_raised st e st1 :
  call_GetUserTimeline screen_name None 1 st = (inl e, st1) →
  process screen_name st = (if is_not_authorized e then inr [] else inl e, st1).
Proof.
  intros Hc. unfold process. pose proof (availability_probe_raised _ _ _ _ Hc) as Hp.
  destruct (is_not_authorized e).
  - erewrite bind_inr by exact Hp. reflexivity.
  - erewrite bind_inl by exact Hp. reflexivity.
Qed.

Lemma process_extends :
  preserves extends (process (W:=W) (ContentStore:=ContentStore) screen_name).
Proof.
  unfold process.
  apply preserves_bind; [apply _|apply availability_probe_extends|intros go_on].
  destruct go_on; simpl; [|apply preserves_ret; apply _].
  apply preserves_bind; [apply _|apply initialize_since_id_extends|intros _].
  apply preserves_bind; [apply _|apply fetch_window_extends|intros tweets].
  apply process_tweets_extends.
Qed.

(** After the bootstrap nothing in [process] writes to the metadata store. *)
Lemma after_bootstrap_same_metadata :
  preserves same_metadata
    (tweets ← fetch_window (W:=W) (ContentStore:=ContentStore) screen_name;
     process_tweets tweets).
Proof.
  apply preserves_bind; [apply _|apply fetch_window_same_metadata|intros tweets].
  apply process_tweets_same_metadata.
Qed.

Lemma process_metadata st r st1 :
  process screen_name st = (r, st1) →
  metadata st1 = metadata st ∨
  (metadata st !! SINCE_ID_KEY = None ∧
   ∃ t, metadata st1 = <[SINCE_ID_KEY := Py.str_of_int (id t)]> (metadata st)).
Proof.
  destruct (call_GetUserTimeline screen_name None 1 st) as [[e|l] st0] eqn:Hc.
  - rewrite (process_probe_raised _ _ _ Hc). intros Heq. inversion Heq; subst.
    left. eapply call_GetUserTimeline_same_metadata, Hc.
  - rewrite (process_probe_returned _ _ _ Hc).
    pose proof (call_GetUserTimeline_same_metadata _ _ _ _ _ _ Hc) as Hm0.
    unfold same_metadata in Hm0. rewrite <- Hm0.
    intros Heq. apply bind_inv in Heq as [(e & Hi & _)|([] & st2 & Hi & Hrest)].
    + apply initialize_since_id_metadata in Hi as [Hi|(Hn & Hr & _)]; [left; exact Hi|discriminate].
    + apply after_bootstrap_same_metadata in Hrest. unfold same_metadata in Hrest.
      rewrite Hrest.
      apply initialize_since_id_metadata in Hi as [Hi|(Hn & _ & t & Hi)]; [left; exact Hi|].
      right. split; [exact Hn|]. exists t. exact Hi.
Qed.

(** *** [post_process] *)

Lemma post_process_nil st : post_process [] st = (inr tt, st).
Proof. reflexivity. Qed.

Lemma post_process_cons d0 l st :
  ∃ d, Py.max_by document_to_created_at_in_seconds (d0 :: l) = Some d ∧
       post_process (d0 :: l) st = metadata_set SINCE_ID_KEY (document_to_id d) st.
Proof.
  exists (fold_left (Py.max_step document_to_created_at_in_seconds) l d0).
  split; reflexivity.
Qed.

Lemma post_process_extends documents :
  preserves extends (post_process (W:=W) (ContentStore:=ContentStore) documents).
Proof.
  destruct documents as [|d0 l]; [apply preserves_ret; apply _|].
  intros st r st1. destruct (post_process_cons d0 l st) as (d & _ & ->).
  apply metadata_set_extends.
Qed.

End Bootstrap.

(** ** Which events a block adds to the trace *)

Section Emits.
Context {W Status TwitterMedia Document ContentStore : Type}.
Context `{Extractor Status TwitterMedia Document}.
Variable screen_name : string.
Variable P : Event Status → bool.
Implicit Types (st : State W Status ContentStore).

#[export] Instance emits_refl :
  Reflexive (emits (W:=W) (ContentStore:=ContentStore) P).
Proof. intros st. exists []. rewrite app_nil_r. split; [reflexivity|constructor]. Qed.

#[export] Instance emits_trans :
  Transitive (emits (W:=W) (ContentStore:=ContentStore) P).
Proof.
  intros a b c (e1 & H1 & F1) (e2 & H2 & F2). exists (e1 ++ e2). split.
  - rewrite H2, H1, app_assoc. reflexivity.
  - apply Forall_app. split; assumption.
Qed.

Lemma emits_new_events st st1 :
  emits P st st1 → Forall (λ ev, P ev = true) (new_events st st1).
Proof. intros (evs & Htr & Hall). rewrite (new_events_app _ _ _ Htr). exact Hall. Qed.

Lemma record_emits ev st : P ev = true → emits P st (record ev st).
Proof. intros HP. exists [ev]. split; [reflexivity|]. constructor; [exact HP|constructor]. Qed.

Lemma call_GetUserTimeline_emits name since_id n :
  P (CallGetUserTimeline name since_id n) = true →
  preserves (emits P)
    (call_GetUserTimeline (W:=W) (ContentStore:=ContentStore) name since_id n).
Proof.
  intros HP st r st1 Hc. apply call_GetUserTimeline_inv in Hc
    as [(_ & -> & _)|(api & ur & w & _ & _ & _ & ->)]; [reflexivity|].
  apply (record_emits _ st HP).
Qed.

Lemma call_GetStatus_emits i :
  P (CallGetStatus i) = true →
  preserves (emits P) (call_GetStatus (W:=W) (ContentStore:=ContentStore) i).
Proof.
  intros HP st r st1 Hc. apply call_GetStatus_inv in Hc
    as [(_ & -> & _)|(api & ur & w & _ & _ & _ & ->)]; [reflexivity|].
  apply (record_emits _ st HP).
Qed.

Lemma availability_probe_emits :
  P (CallGetUserTimeline screen_name None 1) = true →
  preserves (emits P)
    (availability_probe (W:=W) (ContentStore:=ContentStore) screen_name).
Proof.
  intros HP st r st1 Hp.
  apply availability_probe_inv in Hp as [(l & Hc & _)|(e & Hc & _)];
    eapply call_GetUserTimeline_emits; eassumption.
Qed.

Lemma initialize_since_id_emits :
  P (CallGetUserTimeline screen_name None 1) = true →
  (∀ v, P (MetadataSet SINCE_ID_KEY v) = true) →
  preserves (emits P)
    (initialize_since_id (W:=W) (ContentStore:=ContentStore) screen_name).
Proof.
  intros HP1 HP2. unfold initialize_since_id.
  apply preserves_bind; [apply _| |intros stored].
  { intros st r st1 Heq. inversion Heq; subst. reflexivity. }
  destruct stored; simpl; [apply preserves_ret; apply _|].
  apply preserves_bind; [apply _|apply call_GetUserTimeline_emits; exact HP1|intros l].
  destruct l as [|t0 l]; [apply preserves_raise; apply _|].
  apply preserves_bind; [apply _| |intros t].
  { intros st r st1 Heq. inversion Heq; subst. reflexivity. }
  intros st r st1 Heq. inversion Heq; subst. apply (record_emits _ st (HP2 _)).
Qed.

Lemma fetch_window_emits :
  (∀ c, P (CallGetStatus c) = true) →
  (∀ since_id, P (CallGetUserTimeline screen_name since_id count) = true) →
  preserves (emits P)
    (fetch_window (W:=W) (ContentStore:=ContentStore) screen_name).
Proof.
  intros HP1 HP2. unfold fetch_window.
  apply preserves_bind; [apply _| |intros x].
  { intros st r st1 Hg. apply metadata_get_pure in Hg as [-> _]. reflexivity. }
  apply preserves_bind; [apply _| |intros c].
  { intros st r st1 Hi. apply int_pure in Hi as ->. reflexivity. }
  apply preserves_bind; [apply _| |intros b].
  - intros st r st1 Hp.
    apply check_since_id_inv in Hp as [(l & Hc & _)|[(e & Hc & _)|(e & Hc & _)]];
      eapply call_GetStatus_emits; eauto.
  - destruct b; apply call_GetUserTimeline_emits; apply HP2.
Qed.

Lemma extract_documents_emits tweets acc :
  (∀ t, P (CallExtractMedia t) = true) →
  preserves (emits P)
    (extract_documents (W:=W) (ContentStore:=ContentStore) tweets acc).
Proof.
  intros HP. revert acc. induction tweets as [|t rest IH]; intros acc st r st1.
  - intros Heq. inversion Heq; subst. reflexivity.
  - rewrite extract_documents_cons. destruct (tweet_documents t) as [e|ds].
    + intros Heq. inversion Heq; subst. apply (record_emits _ st (HP t)).
    + intros Heq. apply IH in Heq. etransitivity; [apply (record_emits _ st (HP t))|exact Heq].
Qed.

Lemma process_tweets_emits tweets :
  (∀ t, P (CallExtractMedia t) = true) →
  preserves (emits P)
    (process_tweets (W:=W) (ContentStore:=ContentStore) tweets).
Proof.
  intros HP. destruct tweets; [apply preserves_ret; apply _|].
  apply extract_documents_emits, HP.
Qed.

End Emits.

(** ** The availability probe and the choice of the fetch window *)

Section ProbeAndWindow.
Context {W Status TwitterMedia Document ContentStore : Type}.
Context `{Extractor Status TwitterMedia Document}.
Variable screen_name : string.
Implicit Types (st : State W Status ContentStore).

(** C3, amended.  When the probe of lines 61-62, the call
    [GetUserTimeline(screen_name, count=1)], raises [e]:
    if [e] is a [TwitterError] whose text holds "not authorized",
    whatever the case of its letters, [process] returns the empty list
    and raises nothing; on any other error, an authorization error whose
    text does not hold these words among them, [process] raises [e]
    itself; either way the metadata store, and the cursor in it, is what
    it was. *)
Theorem probe_error_taxonomy st e st1 :
  call_GetUserTimeline screen_name None 1 st = (inl e, st1) →
  (is_not_authorized e = true → process screen_name st = (inr [], st1)) ∧
  (is_not_authorized e = false → process screen_name st = (inl e, st1)) ∧
  metadata st1 = metadata st ∧
  cursor st1 = cursor st.
Proof.
  intros Hc. pose proof (process_probe_raised _ _ _ _ Hc) as Hp.
  pose proof (call_GetUserTimeline_same_metadata _ _ _ _ _ _ Hc) as Hm.
  unfold same_metadata in Hm.
  split; [intros Ha; rewrite Ha in Hp; exact Hp|].
  split; [intros Ha; rewrite Ha in Hp; exact Hp|].
  split; [exact Hm|]. unfold cursor. rewrite Hm. reflexivity.
Qed.

Lemma extract_documents_trace tweets acc st r st1 :
  extract_documents tweets acc st = (r, st1) →
  ∃ extracted, extracted `prefix_of` tweets ∧
               trace st1 = trace st ++ map CallExtractMedia extracted.
Proof.
  revert acc st. induction tweets as [|t rest IH]; intros acc st.
  - intros Heq. inversion Heq; subst. exists []. simpl. rewrite app_nil_r.
    split; reflexivity.
  - rewrite extract_documents_cons. destruct (tweet_documents t) as [e|ds].
    + intros Heq. inversion Heq; subst. exists [t]. split; [|reflexivity].
      exists rest. reflexivity.
    + intros Heq. apply IH in Heq as (extracted & Hpre & Htr). exists (t :: extracted).
      split; [apply prefix_cons, Hpre|]. rewrite Htr. simpl. rewrite <- app_assoc. reflexivity.
Qed.

Lemma process_tweets_trace tweets st r st1 :
  process_tweets tweets st = (r, st1) →
  ∃ extracted, extracted `prefix_of` tweets ∧
               trace st1 = trace st ++ map CallExtractMedia extracted.
Proof.
  destruct tweets as [|t rest]; [|apply extract_documents_trace].
  intros Heq. inversion Heq; subst. exists []. simpl. rewrite app_nil_r. split; reflexivity.
Qed.

(** C4.  In a run on a worker with the handle [api] whose probe returned
    and which found the cursor [c] stored, the point lookup
    [GetStatus(c)] decides the one windowed fetch the run makes: when the
    lookup returns, the fetch is [GetUserTimeline(screen_name,
    since_id=c, count=200)]; when it raises, the fetch is
    [GetUserTimeline(screen_name, count=200)], with no [since_id].
    [process] goes on with the very answer of that fetch: it raises the
    error the fetch raised, or works on the tweets the fetch returned, in
    a state in which the run has made the probe, the lookup and that
    fetch and nothing else; all it does afterwards is to extract tweets of
    that answer.  So on the fallback no call with [since_id] is made, and
    on a live cursor no call of the unbounded window. *)
Theorem fetch_window_selection st api l w1 s c lookup w2 answer w3 :
  twitter_api st = Some api →
  GetUserTimeline api screen_name None 1 (upstream st) = (Returned l, w1) →
  metadata st !! SINCE_ID_KEY = Some s →
  Py.int_of_str s = Some c →
  GetStatus api c w1 = (lookup, w2) →
  GetUserTimeline api screen_name
    (match lookup with Returned _ => Some c | Raised _ => None end) 200 w2 = (answer, w3) →
  process screen_name st =
    match answer with
    | Returned tweets =>
        process_tweets tweets
          (Build_State (Some api) w3 (metadata st) (content st)
             (trace st ++
                [CallGetUserTimeline screen_name None 1; CallGetStatus c;
                 CallGetUserTimeline screen_name
                   (match lookup with Returned _ => Some c | Raised _ => None end) 200]))
    | Raised te =>
        (inl (TwitterError te),
         Build_State (Some api) w3 (metadata st) (content st)
           (trace st ++
              [CallGetUserTimeline screen_name None 1; CallGetStatus c;
               CallGetUserTimeline screen_name
                 (match lookup with Returned _ => Some c | Raised _ => None end) 200]))
    end ∧
  ∃ extracted,
    new_events st (process screen_name st).2 =
      [CallGetUserTimeline screen_name None 1; CallGetStatus c;
       CallGetUserTimeline screen_name
         (match lookup with Returned _ => Some c | Raised _ => None end) 200]
      ++ map CallExtractMedia extracted ∧
    ∀ tweets, answer = Returned tweets → extracted `prefix_of` tweets.
Proof.
  intros Hapi Hgw1 Hs Hint Hgw2 Hgw3.
  set (since_id := match lookup with Returned _ => Some c | Raised _ => None end) in *.
  set (st1 := set_upstream w1 (record (CallGetUserTimeline screen_name None 1) st)).
  set (st2 := set_upstream w2 (record (CallGetStatus c) st1)).
  set (st3 := Build_State (Some api) w3 (metadata st) (content st)
                (trace st ++ [CallGetUserTimeline screen_name None 1; CallGetStatus c;
                              CallGetUserTimeline screen_name since_id 200])).
  assert (Hprobe : call_GetUserTimeline screen_name None 1 st = (inr l, st1)).
  { unfold call_GetUserTimeline. rewrite Hapi, Hgw1. reflexivity. }
  assert (Hlook : call_GetStatus c st1 = (of_upstream lookup, st2)).
  { unfold call_GetStatus. simpl twitter_api. rewrite Hapi. simpl upstream.
    rewrite Hgw2. reflexivity. }
  assert (Hchk : check_since_id c st1 =
            (inr (match lookup with Returned _ => false | Raised _ => true end), st2)).
  { unfold check_since_id. destruct lookup as [status|te]; simpl in Hlook.
    - erewrite try_except_inr; [reflexivity|]. erewrite bind_inr by exact Hlook. reflexivity.
    - erewrite try_except_inl by (erewrite bind_inl by exact Hlook; reflexivity).
      reflexivity. }
  assert (Hst3 : set_upstream w3 (record (CallGetUserTimeline screen_name since_id 200) st2)
                 = st3).
  { unfold st3, st2, st1, set_upstream, record. simpl. rewrite Hapi, <- !app_assoc.
    reflexivity. }
  assert (Hfetch : fetch_tweets screen_name c
                     (match lookup with Returned _ => false | Raised _ => true end) st2
                   = (of_upstream answer, st3)).
  { rewrite <- Hst3.
    assert (Hcall : call_GetUserTimeline screen_name since_id count st2 =
              (of_upstream answer,
               set_upstream w3 (record (CallGetUserTimeline screen_name since_id 200) st2))).
    { unfold call_GetUserTimeline. simpl twitter_api. rewrite Hapi. simpl upstream.
      change count with 200. rewrite Hgw3. reflexivity. }
    unfold fetch_tweets, since_id in *. destruct lookup; exact Hcall. }
  assert (Hproc : process screen_name st =
            (tweets ← fetch_tweets screen_name c
                        (match lookup with Returned _ => false | Raised _ => true end);
             process_tweets tweets) st2).
  { rewrite (process_probe_returned _ _ _ _ Hprobe).
    assert (Hs1 : metadata st1 !! SINCE_ID_KEY = Some s) by exact Hs.
    erewrite bind_inr by (eapply initialize_since_id_stored; exact Hs1).
    assert (Hwin : fetch_window screen_name st1 =
              fetch_tweets screen_name c
                (match lookup with Returned _ => false | Raised _ => true end) st2).
    { unfold fetch_window. erewrite bind_inr by reflexivity. rewrite Hs1.
      unfold int at 1. rewrite Hint.
      erewrite bind_inr by reflexivity. erewrite bind_inr by exact Hchk. reflexivity. }
    unfold bind at 1. rewrite Hwin. reflexivity. }
  assert (Hresult : process screen_name st =
            match answer with
            | Returned tweets => process_tweets tweets st3
            | Raised te => (inl (TwitterError te), st3)
            end).
  { rewrite Hproc. unfold bind at 1. rewrite Hfetch. destruct answer; reflexivity. }
  split; [exact Hresult|].
  rewrite Hresult. destruct answer as [tweets|te].
  - destruct (process_tweets tweets st3) as [r st4] eqn:Hrun.
    apply process_tweets_trace in Hrun as (extracted & Hpre & Htr).
    exists extracted. split.
    + apply new_events_app. simpl. rewrite Htr. simpl. rewrite <- app_assoc. reflexivity.
    + intros tweets' [= <-]. exact Hpre.
  - exists []. split; [|discriminate]. apply new_events_app. reflexivity.
Qed.

End ProbeAndWindow.

(** ** Bootstrap, fatal runs, empty windows and empty outputs *)

Section CursorLifecycle.
Context {W Status TwitterMedia Document ContentStore : Type}.
Context `{Extractor Status TwitterMedia Document}.
Variable screen_name : string.
Implicit Types (st : State W Status ContentStore).

(** C5, amended.  In a run that passed the probe and found no cursor
    stored, [process] goes on with the bootstrap of lines 74-86, which
    calls [GetUserTimeline(screen_name, count=1)] once.  If that call
    raises, the bootstrap raises the same error; if it returns the empty
    list, the bootstrap raises the [RuntimeError] of line 80 and the
    metadata store is what it was; if it returns tweets, the bootstrap
    does not raise: it stores the decimal numeral of the id of the tweet
    [max] picks (the one tweet when the list has one), and up to then the
    run has made the probe, the bootstrap fetch and the write, in this
    order, so no windowed fetch. *)
Theorem bootstrap_behaviour st l0 st1 r st2 :
  metadata st !! SINCE_ID_KEY = None →
  call_GetUserTimeline screen_name None 1 st = (inr l0, st1) →
  call_GetUserTimeline screen_name None 1 st1 = (r, st2) →
  process screen_name st =
    (initialize_since_id screen_name;;
     tweets ← fetch_window screen_name;
     process_tweets tweets) st1 ∧
  match r with
  | inl e => initialize_since_id screen_name st1 = (inl e, st2)
  | inr [] =>
      initialize_since_id screen_name st1 =
        (inl (RuntimeError "Cannot obtain the initial tweets in order to get the initial since_id"), st2) ∧
      metadata st2 = metadata st
  | inr (t0 :: l) =>
      ∃ t st3,
        Py.max_by id (t0 :: l) = Some t ∧
        (l = [] → t = t0) ∧
        initialize_since_id screen_name st1 = (inr tt, st3) ∧
        metadata st3 = <[SINCE_ID_KEY := Py.str_of_int (id t)]> (metadata st) ∧
        new_events st st3 =
          [CallGetUserTimeline screen_name None 1;
           CallGetUserTimeline screen_name None 1;
           MetadataSet SINCE_ID_KEY (Py.str_of_int (id t))] ∧
        Forall (λ ev, is_window_fetch ev = false) (new_events st st3)
  end.
Proof.
  intros Hnone Hprobe Hfetch.
  pose proof (call_GetUserTimeline_same_metadata _ _ _ _ _ _ Hprobe) as Hm1.
  pose proof (call_GetUserTimeline_same_metadata _ _ _ _ _ _ Hfetch) as Hm2.
  unfold same_metadata in Hm1, Hm2.
  assert (Hnone1 : metadata st1 !! SINCE_ID_KEY = None) by (rewrite Hm1; exact Hnone).
  split; [apply (process_probe_returned _ _ _ _ Hprobe)|].
  destruct r as [e|[|t0 l]].
  - apply (initialize_since_id_raised _ _ _ _ Hnone1 Hfetch).
  - split; [apply (initialize_since_id_empty _ _ _ Hnone1 Hfetch)|congruence].
  - destruct (initialize_since_id_item _ _ _ _ _ Hnone1 Hfetch) as (t & Hmax & Hinit).
    exists t. eexists. split; [exact Hmax|]. split.
    { intros ->. simpl in Hmax. congruence. }
    split; [rewrite Hinit; reflexivity|]. split; [simpl; congruence|].
    assert (Htr : trace (set_metadata (<[SINCE_ID_KEY:=Py.str_of_int (id t)]> (metadata st2))
                    (record (MetadataSet SINCE_ID_KEY (Py.str_of_int (id t))) st2)) =
                  trace st ++ [CallGetUserTimeline screen_name None 1;
                               CallGetUserTimeline screen_name None 1;
                               MetadataSet SINCE_ID_KEY (Py.str_of_int (id t))]).
    { simpl. rewrite (call_GetUserTimeline_trace _ _ _ _ _ _ Hfetch),
        (call_GetUserTimeline_trace _ _ _ _ _ _ Hprobe), <- !app_assoc. reflexivity. }
    rewrite (new_events_app _ _ _ Htr). split; [reflexivity|].
    repeat constructor.
Qed.

(** C6, amended.  When [process] raises, the metadata store is what it
    was at the start of the run if a cursor was stored then.  If none was
    stored, either the store is what it was, the error being that of the
    probe or of the bootstrap of lines 74-86, or the probe and the
    bootstrap fetch both returned and the store has gained, as cursor,
    the decimal numeral of the id of the tweet [max] picks among those
    the bootstrap fetch returned. *)
Theorem fatal_run_cursor st e st1 :
  process screen_name st = (inl e, st1) →
  (is_Some (metadata st !! SINCE_ID_KEY) → metadata st1 = metadata st) ∧
  (metadata st !! SINCE_ID_KEY = None →
   (metadata st1 = metadata st ∧
    (call_GetUserTimeline screen_name None 1 st = (inl e, st1) ∨
     ∃ l sta, call_GetUserTimeline screen_name None 1 st = (inr l, sta) ∧
              initialize_since_id screen_name sta = (inl e, st1))) ∨
   ∃ l sta init_tweets stb t,
     call_GetUserTimeline screen_name None 1 st = (inr l, sta) ∧
     call_GetUserTimeline screen_name None 1 sta = (inr init_tweets, stb) ∧
     Py.max_by id init_tweets = Some t ∧
     metadata st1 = <[SINCE_ID_KEY := Py.str_of_int (id t)]> (metadata st)).
Proof.
  intros Hrun.
  destruct (call_GetUserTimeline screen_name None 1 st) as [[e0|l] sta] eqn:Hc.
  - rewrite (process_probe_raised _ _ _ _ Hc) in Hrun.
    destruct (is_not_authorized e0); [discriminate|]. inversion Hrun; subst.
    pose proof (call_GetUserTimeline_same_metadata _ _ _ _ _ _ Hc) as Hm.
    split; [intros _; exact Hm|]. intros _. left. split; [exact Hm|]. left. reflexivity.
  - rewrite (process_probe_returned _ _ _ _ Hc) in Hrun.
    pose proof (call_GetUserTimeline_same_metadata _ _ _ _ _ _ Hc) as Hma.
    unfold same_metadata in Hma.
    apply bind_inv in Hrun as [(e1 & Hinit & He)|([] & stc & Hinit & Hrest)].
    + inversion He; subst e1.
      assert (Hm : metadata st1 = metadata st).
      { pose proof Hinit as Hi.
        apply initialize_since_id_metadata in Hi as [Hi|(_ & Hr & _)]; [congruence|discriminate]. }
      split; [intros _; exact Hm|]. intros _. left. split; [exact Hm|].
      right. exists l, sta. split; [reflexivity|exact Hinit].
    + apply after_bootstrap_same_metadata in Hrest. unfold same_metadata in Hrest.
      split.
      * intros [s Hs].
        assert (Hsa : metadata sta !! SINCE_ID_KEY = Some s) by (rewrite Hma; exact Hs).
        rewrite (initialize_since_id_stored _ _ _ Hsa) in Hinit. inversion Hinit; subst.
        congruence.
      * intros Hnone. right.
        assert (Hna : metadata sta !! SINCE_ID_KEY = None) by (rewrite Hma; exact Hnone).
        destruct (call_GetUserTimeline screen_name None 1 sta) as [[e1|[|t0 l1]] stb] eqn:Hf.
        -- rewrite (initialize_since_id_raised _ _ _ _ Hna Hf) in Hinit. discriminate.
        -- rewrite (initialize_since_id_empty _ _ _ Hna Hf) in Hinit. discriminate.
        -- destruct (initialize_since_id_item _ _ _ _ _ Hna Hf) as (t & Hmax & Heq).
           rewrite Heq in Hinit. inversion Hinit; subst stc.
           exists l, sta, (t0 :: l1), stb, t.
           split; [reflexivity|]. split; [exact Hf|]. split; [exact Hmax|].
           rewrite Hrest. simpl.
           pose proof (call_GetUserTimeline_same_metadata _ _ _ _ _ _ Hf) as Hmb.
           unfold same_metadata in Hmb. rewrite Hmb, Hma. reflexivity.
Qed.

(** C7, amended.  In a run that passed the probe and the bootstrap step
    and whose window, chosen by lines 89-114, is empty: [process] returns
    the empty list there and then, no tweet is handed to [extract_media],
    the document sink is what it was, the metadata store is what the
    bootstrap step left, which is the store of the start of the run when a
    cursor was stored then, and [post_process] on the empty list changes
    nothing. *)
Theorem empty_window_no_op st l st1 st2 st3 :
  call_GetUserTimeline screen_name None 1 st = (inr l, st1) →
  initialize_since_id screen_name st1 = (inr tt, st2) →
  fetch_window screen_name st2 = (inr [], st3) →
  process screen_name st = (inr [], st3) ∧
  Forall (λ ev, is_extraction ev = false) (new_events st st3) ∧
  content st3 = content st ∧
  metadata st3 = metadata st2 ∧
  (is_Some (metadata st !! SINCE_ID_KEY) → metadata st3 = metadata st) ∧
  post_process [] st3 = (inr tt, st3).
Proof.
  intros Hprobe Hinit Hwin.
  assert (Hproc : process screen_name st = (inr [], st3)).
  { rewrite (process_probe_returned _ _ _ _ Hprobe).
    erewrite bind_inr by exact Hinit. erewrite bind_inr by exact Hwin. reflexivity. }
  split; [exact Hproc|]. split.
  { set (Q := λ ev : Event Status, negb (is_extraction ev)).
    assert (Hem : emits Q st st3).
    { etransitivity; [|etransitivity].
      - eapply (call_GetUserTimeline_emits Q); [reflexivity|exact Hprobe].
      - eapply (initialize_since_id_emits screen_name Q); [reflexivity|reflexivity|exact Hinit].
      - eapply (fetch_window_emits screen_name Q); [reflexivity|reflexivity|exact Hwin]. }
    apply emits_new_events in Hem. eapply Forall_impl; [exact Hem|].
    intros ev. unfold Q. destruct (is_extraction ev); simpl; congruence. }
  split.
  { apply process_extends in Hproc as (_ & Hc & _). exact Hc. }
  pose proof (fetch_window_same_metadata _ _ _ _ Hwin) as Hm3. unfold same_metadata in Hm3.
  split; [exact Hm3|]. split; [|reflexivity].
  intros [s Hs].
  pose proof (call_GetUserTimeline_same_metadata _ _ _ _ _ _ Hprobe) as Hm1.
  unfold same_metadata in Hm1.
  apply initialize_since_id_metadata in Hinit as [Hm2|(Hn & _)]; congruence.
Qed.

(** C8.  [post_process] on the empty list returns at once and leaves the
    whole state, the stored cursor in it, as it was; on a list that is not
    empty it writes the identifier of one of the documents, the one [max]
    picks by creation time, under the cursor key.  So the run writes the
    cursor in [post_process] exactly when its output is not empty, and a
    run whose window had tweets but whose extraction gave no document
    writes nothing there. *)
Theorem empty_output_no_op (documents : list Document) st :
  (documents = [] → post_process documents st = (inr tt, st)) ∧
  (documents ≠ [] →
   ∃ d, d ∈ documents ∧
        Py.max_by document_to_created_at_in_seconds documents = Some d ∧
        post_process documents st =
          (inr tt, set_metadata (<[SINCE_ID_KEY := document_to_id d]> (metadata st))
                     (record (MetadataSet SINCE_ID_KEY (document_to_id d)) st))) ∧
  (new_events st (post_process documents st).2 = [] ↔ documents = []) ∧
  (∀ tweets st0, tweets ≠ [] → process_tweets tweets st0 = (inr documents, st) →
     documents = [] → (post_process documents st).2 = st).
Proof.
  split; [intros ->; reflexivity|]. split; [|split].
  - destruct documents as [|d0 l]; [congruence|]. intros _.
    destruct (post_process_cons d0 l st) as (d & Hmax & Hpost).
    exists d. split; [eapply max_by_in, Hmax|]. split; [exact Hmax|]. rewrite Hpost. reflexivity.
  - destruct documents as [|d0 l].
    + simpl. unfold new_events. rewrite drop_all. split; reflexivity.
    + destruct (post_process_cons d0 l st) as (d & Hmax & Hpost). rewrite Hpost. simpl.
      unfold new_events. simpl. rewrite drop_app_length. split; discriminate.
  - intros tweets st0 _ _ ->. reflexivity.
Qed.


End CursorLifecycle.

(** ** The cursor across runs *)

Section CursorAdvance.
Context {W Status TwitterMedia Document ContentStore : Type}.
Context `{Extractor Status TwitterMedia Document}.
Variable getenv : string → option string.
Variable twitter_api_Api :
  option string → option string → option string → option string →
  upstream_result (Api W Status).
Variable screen_name : string.
Implicit Types (st : State W Status ContentStore).

(** C2, amended.  On a list of documents that is not empty,
    [post_process] stores the identifier of the first document, in the
    order of the list, whose creation time is the largest: every document
    before it is strictly older, none after it is newer.  A tie is thus
    broken by the position in the list.  The value stored depends on the
    list only, not on the state the worker is in. *)
Theorem tie_break_first_listed (documents : list Document) st :
  documents ≠ [] →
  ∃ before d after,
    documents = before ++ d :: after ∧
    Forall (λ x, document_to_created_at_in_seconds x <
                 document_to_created_at_in_seconds d) before ∧
    Forall (λ x, document_to_created_at_in_seconds x ≤
                 document_to_created_at_in_seconds d) after ∧
    post_process documents st =
      (inr tt, set_metadata (<[SINCE_ID_KEY := document_to_id d]> (metadata st))
                 (record (MetadataSet SINCE_ID_KEY (document_to_id d)) st)) ∧
    ∀ st1 : State W Status ContentStore,
      metadata (post_process documents st1).2 !! SINCE_ID_KEY = Some (document_to_id d).
Proof.
  destruct documents as [|d0 l]; [congruence|]. intros _.
  destruct (post_process_cons d0 l st) as (d & Hmax & Hpost).
  destruct (max_by_split _ _ _ Hmax) as (before & after & Hsplit & Hb & Ha).
  exists before, d, after. split; [exact Hsplit|]. split; [exact Hb|]. split; [exact Ha|].
  split; [rewrite Hpost; reflexivity|].
  intros st1. destruct (post_process_cons d0 l st1) as (d' & Hmax' & Hpost').
  rewrite Hpost'. simpl. rewrite lookup_insert_eq. congruence.
Qed.

(** C10, amended.  After [post_process] on a list that is not empty the
    stored cursor is the very string [document_to_id] gave for one of the
    documents.  A later run that finds this string stored and passes the
    probe converts it with [int] before anything else: if [int] rejects
    it, [process] raises the [ValueError] of [int], whose text ends with
    the [repr] of the string, with only the probe made; if [int] gives
    [z], the point lookup is [GetStatus(z)].  So such a run returns only
    if [int] accepts the string. *)
Theorem cursor_format_precondition (documents : list Document) st :
  documents ≠ [] →
  ∃ d, d ∈ documents ∧
    metadata (post_process documents st).2 !! SINCE_ID_KEY = Some (document_to_id d) ∧
    ∀ st2 l st3,
      metadata st2 !! SINCE_ID_KEY = Some (document_to_id d) →
      call_GetUserTimeline screen_name None 1 st2 = (inr l, st3) →
      match Py.int_of_str (document_to_id d) with
      | None =>
          process screen_name st2 =
            (inl (ValueError ("invalid literal for int() with base 10: "
                              +:+ Py.repr_200 (document_to_id d))), st3) ∧
          new_events st2 st3 = [CallGetUserTimeline screen_name None 1]
      | Some z =>
          process screen_name st2 =
            (ignore_since_id ← check_since_id z;
             tweets ← fetch_tweets screen_name z ignore_since_id;
             process_tweets tweets) st3
      end ∧
      (∀ documents1 st4, process screen_name st2 = (inr documents1, st4) →
         is_Some (Py.int_of_str (document_to_id d))).
Proof.
  destruct documents as [|d0 l0]; [congruence|]. intros _.
  destruct (post_process_cons d0 l0 st) as (d & Hmax & Hpost).
  exists d. split; [eapply max_by_in, Hmax|]. split.
  { rewrite Hpost. simpl. apply lookup_insert_eq. }
  intros st2 l st3 Hs Hprobe.
  pose proof (call_GetUserTimeline_same_metadata _ _ _ _ _ _ Hprobe) as Hm.
  unfold same_metadata in Hm.
  assert (Hs3 : metadata st3 !! SINCE_ID_KEY = Some (document_to_id d)) by (rewrite Hm; exact Hs).
  assert (Hproc : process screen_name st2 =
            (since_id ← int (Some (document_to_id d));
             ignore_since_id ← check_since_id since_id;
             tweets ← fetch_tweets screen_name since_id ignore_since_id;
             process_tweets tweets) st3).
  { rewrite (process_probe_returned _ _ _ _ Hprobe).
    erewrite bind_inr by (eapply initialize_since_id_stored; exact Hs3).
    unfold fetch_window, bind, metadata_get. rewrite Hs3.
    destruct (int (Some (document_to_id d)) st3) as [[e|z] st4]; [reflexivity|].
    destruct (check_since_id z st4) as [[e|b] st5]; reflexivity. }
  rewrite Hproc. unfold int. destruct (Py.int_of_str (document_to_id d)) as [z|].
  - split; [reflexivity|]. eauto.
  - split.
    + split; [reflexivity|].
      apply new_events_app, (call_GetUserTimeline_trace _ _ _ _ _ _ Hprobe).
    + intros documents1 st4 Hr. discriminate.
Qed.

(** *** One run *)

Lemma run_inv st documents st1 :
  run getenv twitter_api_Api screen_name st = (inr documents, st1) →
  ∃ api st0,
    make_api getenv twitter_api_Api = Returned api ∧
    process screen_name (set_twitter_api api st) = (inr documents, st0) ∧
    post_process documents st0 = (inr tt, st1).
Proof.
  unfold run. intros Hrun.
  apply bind_inv_inr in Hrun as ([] & sta & Hpre & Hrun).
  unfold pre_work in Hpre.
  destruct (make_api getenv twitter_api_Api) as [api|te]; [|discriminate].
  inversion Hpre; subst.
  apply bind_inv_inr in Hrun as (docs & st0 & Hproc & Hrun).
  apply bind_inv_inr in Hrun as ([] & stb & Hpost & Hret). inversion Hret; subst.
  exists api, st0. auto.
Qed.

Lemma run_trace st r st1 :
  run getenv twitter_api_Api screen_name st = (r, st1) →
  trace st `prefix_of` trace st1.
Proof.
  unfold run. intros Hrun.
  apply bind_inv in Hrun as [(e & Hpre & _)|([] & sta0 & Hpre & Hrun)];
    unfold pre_work in Hpre;
    destruct (make_api getenv twitter_api_Api) as [api|te]; inversion Hpre; subst;
    [reflexivity|].
  change (trace st) with (trace (set_twitter_api api st)).
  revert Hrun. generalize (set_twitter_api api st). intros sta.
  assert (Hpres : preserves extends
            (documents ← process (W:=W) (ContentStore:=ContentStore) screen_name;
             post_process documents;; ret documents)).
  { apply preserves_bind; [apply _|apply process_extends|intros docs].
    apply preserves_bind; [apply _|apply post_process_extends|intros _].
    apply preserves_ret; apply _. }
  intros Hrun. apply Hpres in Hrun as (_ & _ & Hpre'). exact Hpre'.
Qed.

Lemma cursor_le_refl a : cursor_le a a.
Proof. destruct a; simpl; [lia|exact I]. Qed.

Lemma cursor_le_trans a b c : cursor_le a b → cursor_le b c → cursor_le a c.
Proof. destruct a, b, c; simpl; try tauto; lia. Qed.

Lemma new_events_inside (a b c d : State W Status ContentStore) ev :
  trace a `prefix_of` trace b → trace b `prefix_of` trace c →
  trace c `prefix_of` trace d →
  ev ∈ new_events b c → ev ∈ new_events a d.
Proof.
  intros (k1 & H1) (k2 & H2) (k3 & H3) Hin.
  rewrite (new_events_app _ _ _ H2) in Hin.
  assert (Hd : trace d = trace a ++ (k1 ++ k2 ++ k3)).
  { rewrite H3, H2, H1, <- !app_assoc. reflexivity. }
  rewrite (new_events_app _ _ _ Hd).
  apply elem_of_app. right. apply elem_of_app. left. exact Hin.
Qed.

Lemma fetch_window_inr st tweets st1 :
  fetch_window screen_name st = (inr tweets, st1) →
  ∃ s c b st2,
    metadata st !! SINCE_ID_KEY = Some s ∧ Py.int_of_str s = Some c ∧
    check_since_id c st = (inr b, st2) ∧
    fetch_tweets screen_name c b st2 = (inr tweets, st1).
Proof.
  unfold fetch_window. intros Hw.
  apply bind_inv_inr in Hw as (x & sta & Hget & Hw).
  apply metadata_get_pure in Hget as [-> Hx]. inversion Hx; subst.
  apply bind_inv_inr in Hw as (c & stb & Hint & Hw).
  pose proof (int_pure _ _ _ _ Hint) as ->.
  apply bind_inv_inr in Hw as (b & stc & Hchk & Hw).
  unfold int in Hint. destruct (metadata st !! SINCE_ID_KEY) as [s|] eqn:Hs; [|discriminate].
  destruct (Py.int_of_str s) as [z|] eqn:Hz; [|discriminate].
  inversion Hint; subst. exists s, c, b, stc. auto.
Qed.

Lemma process_inr st documents st1 :
  process screen_name st = (inr documents, st1) →
  (documents = [] ∧ metadata st1 = metadata st) ∨
  (∃ sta stb tweets,
     extends st sta ∧
     (metadata sta = metadata st ∨ metadata st !! SINCE_ID_KEY = None) ∧
     fetch_window screen_name sta = (inr tweets, stb) ∧
     process_tweets tweets stb = (inr documents, st1)).
Proof.
  destruct (call_GetUserTimeline screen_name None 1 st) as [[e|l] st0] eqn:Hc.
  - rewrite (process_probe_raised _ _ _ _ Hc).
    destruct (is_not_authorized e); intros Heq; inversion Heq; subst.
    left. split; [reflexivity|]. eapply call_GetUserTimeline_same_metadata, Hc.
  - rewrite (process_probe_returned _ _ _ _ Hc). intros Hrun. right.
    pose proof (call_GetUserTimeline_same_metadata _ _ _ _ _ _ Hc) as Hm0.
    pose proof (call_GetUserTimeline_extends _ _ _ _ _ _ Hc) as He0.
    unfold same_metadata in Hm0.
    apply bind_inv_inr in Hrun as ([] & sta & Hinit & Hrun).
    apply bind_inv_inr in Hrun as (tweets & stb & Hwin & Hrun).
    exists sta, stb, tweets. split.
    { etransitivity; [exact He0|]. eapply initialize_since_id_extends, Hinit. }
    split; [|split; assumption].
    apply initialize_since_id_metadata in Hinit as [Hm|(Hn & _)].
    + left. congruence.
    + right. congruence.
Qed.

(** A successful run that does not take the stale-cursor fallback does
    not decrease the cursor. *)
Lemma run_cursor_le st documents st1 :
  (∀ api, make_api getenv twitter_api_Api = Returned api → since_window_newer api) →
  identifier_is_tweet_id →
  run getenv twitter_api_Api screen_name st = (inr documents, st1) →
  CallGetUserTimeline screen_name None count ∉ new_events st st1 →
  cursor_le (cursor st) (cursor st1).
Proof.
  intros Hgw Hid Hrun Hlive.
  apply run_inv in Hrun as (api0 & st' & Hmake & Hproc & Hpost).
  specialize (Hgw api0 Hmake).
  set (st0 := set_twitter_api api0 st) in *.
  pose proof (post_process_extends _ _ _ _ Hpost) as (_ & _ & Hpre_post).
  apply process_inr in Hproc as [(-> & Hm)|(sta & stb & tweets & Hext & Hboot & Hwin & Hex)].
  { inversion Hpost; subst. unfold cursor. rewrite Hm. apply cursor_le_refl. }
  pose proof (fetch_window_same_metadata _ _ _ _ Hwin) as Hmb.
  pose proof (process_tweets_same_metadata _ _ _ _ Hex) as Hm'.
  pose proof (process_tweets_extends _ _ _ _ Hex) as (_ & _ & Hpre_ex).
  unfold same_metadata in Hmb, Hm'.
  apply fetch_window_inr in Hwin as (s & c & b & stc & Hs & Hc & Hchk & Hfetch).
  pose proof (check_since_id_extends _ _ _ _ Hchk) as (Hapi_c & _ & Hpre_chk).
  destruct Hext as (Hapi_a & _ & Hpre_a).
  assert (Hstart : cursor_le (cursor st) (Some c)).
  { destruct Hboot as [Hsame|Hnone].
    - unfold cursor. change (metadata st) with (metadata st0). rewrite <- Hsame, Hs. simpl.
      rewrite Hc. simpl. lia.
    - unfold cursor. change (metadata st) with (metadata st0). rewrite Hnone. exact I. }
  destruct documents as [|d0 l0].
  { inversion Hpost; subst. unfold cursor at 2. rewrite Hm', Hmb, Hs. simpl. rewrite Hc.
    exact Hstart. }
  destruct (post_process_cons d0 l0 st') as (d & Hmax & Hpost').
  rewrite Hpost' in Hpost. inversion Hpost; subst st1. clear Hpost.
  apply max_by_in in Hmax.
  apply process_tweets_inr in Hex as (_ & Hdocs).
  destruct (Hdocs d Hmax) as (t & Ht & Hdoc).
  unfold cursor at 2. simpl. rewrite lookup_insert_eq. simpl. rewrite (Hid t d Hdoc).
  eapply cursor_le_trans; [exact Hstart|]. simpl.
  destruct b.
  - exfalso. apply Hlive. simpl in Hfetch.
    pose proof (call_GetUserTimeline_trace _ _ _ _ _ _ Hfetch) as Htr.
    apply (new_events_inside st stc stb _).
    + change (trace st) with (trace st0). etransitivity; eassumption.
    + eexists. exact Htr.
    + etransitivity; eassumption.
    + rewrite (new_events_app _ _ _ Htr). left.
  - simpl in Hfetch. apply call_GetUserTimeline_inr in Hfetch as (api & w & Hapi & Hcall & _).
    rewrite Hapi_c, Hapi_a in Hapi. simpl in Hapi. inversion Hapi; subst api.
    pose proof (Hgw _ _ _ _ _ _ Hcall) as Hall. rewrite Forall_forall in Hall.
    apply Hall in Ht. lia.
Qed.

Lemma successful_runs_trace st st1 :
  successful_runs getenv twitter_api_Api screen_name st st1 →
  trace st `prefix_of` trace st1.
Proof.
  induction 1 as [st|st documents st1 st2 Hrun _ IH]; [reflexivity|].
  etransitivity; [eapply run_trace, Hrun|exact IH].
Qed.

(** C1, amended.  Over any sequence of successful runs, each [pre_work],
    [process], [post_process], the cursor does not decrease, provided
    that no run takes the stale-cursor fallback (no call
    [GetUserTimeline(screen_name, count=200)] without [since_id] is made),
    that the gateway answers a call with [since_id=c] with tweets newer
    than [c] only (this is asked of the handle [pre_work] makes), and
    that the identifier of a document is the decimal numeral of the id of
    the tweet it comes from. *)
Theorem cursor_monotone_while_live st st1 :
  (∀ api, make_api getenv twitter_api_Api = Returned api → since_window_newer api) →
  identifier_is_tweet_id →
  successful_runs getenv twitter_api_Api screen_name st st1 →
  CallGetUserTimeline screen_name None count ∉ new_events st st1 →
  cursor_le (cursor st) (cursor st1).
Proof.
  intros Hgw Hid Hruns. induction Hruns as [st|st documents st1 st2 Hrun Hruns IH].
  - intros _. apply cursor_le_refl.
  - intros Hlive.
    pose proof (run_trace _ _ _ Hrun) as Hp1.
    pose proof (successful_runs_trace _ _ Hruns) as Hp2.
    eapply cursor_le_trans.
    + eapply run_cursor_le; [exact Hgw|exact Hid|exact Hrun|].
      intros Hin. apply Hlive.
      apply (new_events_inside st st st1 st2); [reflexivity|exact Hp1|exact Hp2|exact Hin].
    + apply IH. intros Hin. apply Hlive.
      apply (new_events_inside st st1 st2 st2); [exact Hp1|exact Hp2|reflexivity|exact Hin].
Qed.

End CursorAdvance.

(** ** The worker's name and the test for an authorization error *)

Section Names.

Lemma prefix_spec sub s : String.prefix sub s = true ↔ ∃ q, s = sub +:+ q.
Proof.
  revert s. induction sub as [|a sub IH]; intros s.
  - split; [intros _; exists s; reflexivity|intros _; destruct s; reflexivity].
  - destruct s as [|b s]; simpl.
    + split; [discriminate|intros [q Hq]; discriminate].
    + destruct (ascii_dec a b) as [->|Hne].
      * rewrite IH. split; intros [q Hq]; exists q; [rewrite Hq; reflexivity|].
        injection Hq as Hq. exact Hq.
      * split; [discriminate|]. intros [q Hq]. injection Hq as Hab _. congruence.
Qed.

Lemma contains_unfold sub s :
  Py.contains sub s =
    if String.prefix sub s then true
    else match s with
         | EmptyString => false
         | String _ r => Py.contains sub r
         end.
Proof. destruct s; reflexivity. Qed.

Lemma contains_spec sub s :
  Py.contains sub s = true ↔ ∃ p q, s = p +:+ sub +:+ q.
Proof.
  split.
  - induction s as [|c r IH]; rewrite contains_unfold;
      destruct (String.prefix sub _) eqn:Hp.
    + intros _. apply prefix_spec in Hp as [q Hq]. exists "", q. exact Hq.
    + discriminate.
    + intros _. apply prefix_spec in Hp as [q Hq]. exists "", q. exact Hq.
    + intros Hc. destruct (IH Hc) as (p & q & ->). exists (String c p), q. reflexivity.
  - intros (p & q & ->). induction p as [|c p IH].
    + rewrite contains_unfold.
      rewrite (proj2 (prefix_spec sub ("" +:+ sub +:+ q))); [reflexivity|].
      exists q. reflexivity.
    + rewrite contains_unfold. destruct (String.prefix sub _); [reflexivity|].
      simpl. exact IH.
Qed.

Lemma lower_app a b : Py.lower (a +:+ b) = Py.lower a +:+ Py.lower b.
Proof. induction a as [|c a IH]; simpl; [reflexivity|rewrite IH; reflexivity]. Qed.

Lemma lower_split s a b :
  Py.lower s = a +:+ b →
  ∃ s1 s2, s = s1 +:+ s2 ∧ Py.lower s1 = a ∧ Py.lower s2 = b.
Proof.
  revert s. induction a as [|c a IH]; intros s Hs.
  - exists "", s. auto.
  - destruct s as [|d s]; [discriminate|]. simpl in Hs. injection Hs as Hc Hs.
    destruct (IH s Hs) as (s1 & s2 & -> & H1 & H2).
    exists (String d s1), s2. simpl. rewrite Hc, H1. auto.
Qed.

(** X11.  The test of line 67 holds of an error text exactly when the
    text has, anywhere in it, a piece that reads "not authorized" once its
    letters are put in lower case. *)
Theorem not_authorized_iff te :
  not_authorized te = true ↔
  ∃ p m q, te = p +:+ m +:+ q ∧ Py.lower m = "not authorized".
Proof.
  unfold not_authorized. rewrite contains_spec. split.
  - intros (p' & q' & Hl).
    apply lower_split in Hl as (p & r & -> & _ & Hr).
    apply lower_split in Hr as (m & q & -> & Hm & _).
    exists p, m, q. auto.
  - intros (p & m & q & -> & Hm).
    exists (Py.lower p), (Py.lower q). rewrite !lower_app, Hm. reflexivity.
Qed.

(** X2.  [get_id], lines 31-32: two workers have the same id exactly when
    they have the same screen name. *)
Theorem get_id_injective a b : get_id a = get_id b ↔ a = b.
Proof.
  split; [|intros ->; reflexivity].
  unfold get_id. intros Heq. inversion Heq as [Hab]. exact Hab.
Qed.

End Names.

(** ** More on [process]: the handle, the bootstrap, errors of the
    window, the output of the loop *)

Section Further.
Context {W Status TwitterMedia Document ContentStore : Type}.
Context `{Extractor Status TwitterMedia Document}.
Variable screen_name : string.
Implicit Types (st : State W Status ContentStore).

Lemma after_probe_extends :
  preserves extends
    (initialize_since_id (W:=W) (ContentStore:=ContentStore) screen_name;;
     tweets ← fetch_window screen_name;
     process_tweets tweets).
Proof.
  apply preserves_bind; [apply _|apply initialize_since_id_extends|intros _].
  apply preserves_bind; [apply _|apply fetch_window_extends|intros tweets].
  apply process_tweets_extends.
Qed.

Lemma process_probe_first st :
  is_Some (twitter_api st) →
  ∃ evs, new_events st (process screen_name st).2 =
           CallGetUserTimeline screen_name None 1 :: evs.
Proof.
  intros [api Hapi].
  destruct (call_GetUserTimeline screen_name None 1 st) as [r0 st0] eqn:Hc.
  pose proof Hc as Hinv. apply call_GetUserTimeline_inv in Hinv
    as [(Hnone & _)|(api' & ur & w & _ & _ & Hr & Hst)]; [congruence|].
  assert (Htr0 : trace st0 = trace st ++ [CallGetUserTimeline screen_name None 1])
    by (rewrite Hst; reflexivity).
  destruct r0 as [e|l].
  - rewrite (process_probe_raised _ _ _ _ Hc). exists []. simpl.
    apply new_events_app. exact Htr0.
  - rewrite (process_probe_returned _ _ _ _ Hc).
    destruct ((initialize_since_id screen_name;;
               tweets ← fetch_window screen_name; process_tweets tweets) st0)
      as [r1 st1] eqn:Hrest.
    apply after_probe_extends in Hrest as (_ & _ & evs & Hevs).
    exists evs. simpl. apply new_events_app. rewrite Hevs, Htr0, <- app_assoc. reflexivity.
Qed.

(** X1.  [self.twitter_api] is [None] until [pre_work] has run (line 29):
    [process] on such a worker raises the [AttributeError] of line 62,
    which the [except] clause of line 63 does not catch, and leaves the
    whole state as it was.  On a worker with a handle the first thing
    [process] does is the probe. *)
Theorem process_needs_pre_work st :
  (twitter_api st = None →
   process screen_name st =
     (inl (AttributeError "'NoneType' object has no attribute 'GetUserTimeline'"), st)) ∧
  (is_Some (twitter_api st) →
   ∃ evs, new_events st (process screen_name st).2 =
            CallGetUserTimeline screen_name None 1 :: evs).
Proof.
  split; [|apply process_probe_first].
  intros Hnone.
  assert (Hc : call_GetUserTimeline screen_name None 1 st =
            (inl (AttributeError "'NoneType' object has no attribute 'GetUserTimeline'"), st)).
  { unfold call_GetUserTimeline. rewrite Hnone. reflexivity. }
  rewrite (process_probe_raised _ _ _ _ Hc). reflexivity.
Qed.

(** X13.  [pre_work], lines 34-40, calls the constructor of the handle
    on the four environment variables.  When the constructor gives a
    handle, [pre_work] returns with that handle set, whatever handle the
    worker had, and with the remote service, the metadata store, the
    document sink and the trace as they were; doing it again changes
    nothing; and [process] right after it starts with the probe, made on
    that handle.  When the constructor raises [TwitterError], [pre_work]
    raises it and leaves the whole state as it was, so a worker that had
    no handle still has none and [process] would raise the
    [AttributeError] of line 62. *)
Theorem pre_work_then_process
  (getenv : string → option string)
  (twitter_api_Api :
     option string → option string → option string → option string →
     upstream_result (Api W Status))
  st :
  match twitter_api_Api (getenv "TWITTER_CONSUMER_KEY") (getenv "TWITTER_CONSUMER_SECRET")
          (getenv "TWITTER_ACCESS_TOKEN_KEY") (getenv "TWITTER_ACCESS_TOKEN_SECRET") with
  | Returned api =>
      pre_work getenv twitter_api_Api st =
        (inr tt, Build_State (Some api) (upstream st) (metadata st) (content st) (trace st)) ∧
      pre_work getenv twitter_api_Api (pre_work getenv twitter_api_Api st).2 =
        pre_work getenv twitter_api_Api st ∧
      (call_GetUserTimeline screen_name None 1 (pre_work getenv twitter_api_Api st).2).1 =
        of_upstream (GetUserTimeline api screen_name None 1 (upstream st)).1 ∧
      (∃ evs, new_events st (process screen_name (pre_work getenv twitter_api_Api st).2).2 =
                CallGetUserTimeline screen_name None 1 :: evs)
  | Raised te =>
      pre_work getenv twitter_api_Api st = (inl (TwitterError te), st) ∧
      (twitter_api st = None →
       process screen_name (pre_work getenv twitter_api_Api st).2 =
         (inl (AttributeError "'NoneType' object has no attribute 'GetUserTimeline'"), st))
  end.
Proof.
  unfold pre_work, make_api.
  destruct (twitter_api_Api _ _ _ _) as [api|te].
  - split; [reflexivity|]. split; [reflexivity|]. split.
    + unfold call_GetUserTimeline. simpl.
      destruct (GetUserTimeline api screen_name None 1 (upstream st)) as [ur w]. reflexivity.
    + change (new_events st) with (new_events (set_twitter_api api st)).
      apply process_probe_first. simpl. eauto.
  - split; [reflexivity|]. simpl. intros Hnone.
    assert (Hc : call_GetUserTimeline screen_name None 1 st =
              (inl (AttributeError "'NoneType' object has no attribute 'GetUserTimeline'"), st)).
    { unfold call_GetUserTimeline. rewrite Hnone. reflexivity. }
    rewrite (process_probe_raised _ _ _ _ Hc). reflexivity.
Qed.

(** X3.  When the bootstrap of lines 74-86 finds no cursor and returns,
    the cursor it has stored is the id of one of the tweets the fetch of
    line 76 returned, no tweet of that fetch has a larger id, and [int]
    reads the stored string back as that id. *)
Theorem bootstrap_cursor_is_newest st st1 :
  metadata st !! SINCE_ID_KEY = None →
  initialize_since_id screen_name st = (inr tt, st1) →
  ∃ init_tweets st0 t,
    call_GetUserTimeline screen_name None 1 st = (inr init_tweets, st0) ∧
    t ∈ init_tweets ∧
    (∀ t1, t1 ∈ init_tweets → id t1 ≤ id t) ∧
    metadata st1 = <[SINCE_ID_KEY := Py.str_of_int (id t)]> (metadata st) ∧
    cursor st1 = Some (id t).
Proof.
  intros Hnone Hinit.
  destruct (call_GetUserTimeline screen_name None 1 st) as [[e|[|t0 l]] st0] eqn:Hc.
  - rewrite (initialize_since_id_raised _ _ _ _ Hnone Hc) in Hinit. discriminate.
  - rewrite (initialize_since_id_empty _ _ _ Hnone Hc) in Hinit. discriminate.
  - destruct (initialize_since_id_item _ _ _ _ _ Hnone Hc) as (t & Hmax & Heq).
    rewrite Heq in Hinit. inversion Hinit; subst st1. clear Hinit.
    pose proof (call_GetUserTimeline_same_metadata _ _ _ _ _ _ Hc) as Hm.
    unfold same_metadata in Hm.
    exists (t0 :: l), st0, t. split; [reflexivity|].
    split; [eapply max_by_in, Hmax|]. split; [|split].
    + destruct (max_by_split _ _ _ Hmax) as (before & after & Hsplit & Hb & Ha).
      rewrite Hsplit. intros t1 Ht1. rewrite Forall_forall in Hb, Ha.
      apply elem_of_app in Ht1 as [Ht1|Ht1]; [apply Hb in Ht1; lia|].
      apply elem_of_cons in Ht1 as [->|Ht1]; [lia|apply Ha, Ht1].
    + simpl. rewrite Hm. reflexivity.
    + unfold cursor. simpl. rewrite lookup_insert_eq. simpl. apply int_of_str_of_int.
Qed.

Lemma bind_assoc {St A B C} (m : M (St:=St) A) (k : A → M B) (f : B → M C) (s0 : St) :
  bind (bind m k) f s0 = bind m (λ x, bind (k x) f) s0.
Proof. unfold bind. destruct (m s0) as [[e|a] s1]; reflexivity. Qed.

Lemma call_GetUserTimeline_error name since_id n st e st1 :
  call_GetUserTimeline name since_id n st = (inl e, st1) →
  (∃ msg, e = AttributeError msg) ∨ (∃ te, e = TwitterError te).
Proof.
  intros Hc. apply call_GetUserTimeline_inv in Hc
    as [(_ & _ & msg & Hr)|(api & ur & w & _ & _ & Hr & _)].
  - left. exists msg. congruence.
  - right. destruct ur as [l|te]; simpl in Hr; [discriminate|]. exists te. congruence.
Qed.

Lemma call_GetStatus_error i st e st1 :
  call_GetStatus i st = (inl e, st1) →
  (∃ msg, e = AttributeError msg) ∨ (∃ te, e = TwitterError te).
Proof.
  intros Hc. apply call_GetStatus_inv in Hc
    as [(_ & _ & msg & Hr)|(api & ur & w & _ & _ & Hr & _)].
  - left. exists msg. congruence.
  - right. destruct ur as [l|te]; simpl in Hr; [discriminate|]. exists te. congruence.
Qed.

(** X4.  Whenever the bootstrap of lines 74-86 returns, a cursor is
    stored, whether it was there before or has just been written; so the
    [get] of line 89 finds it, and lines 89-114 never raise the
    [TypeError] that [int] of a missing value would be. *)
Theorem bootstrap_leaves_a_cursor st st1 :
  initialize_since_id screen_name st = (inr tt, st1) →
  is_Some (metadata st1 !! SINCE_ID_KEY) ∧
  ∀ r st2 msg, fetch_window screen_name st1 = (r, st2) → r ≠ inl (TypeError msg).
Proof.
  intros Hinit.
  assert (Hstored : is_Some (metadata st1 !! SINCE_ID_KEY)).
  { destruct (metadata st !! SINCE_ID_KEY) as [s|] eqn:Hs.
    - rewrite (initialize_since_id_stored _ _ _ Hs) in Hinit.
      inversion Hinit; subst. rewrite Hs. eauto.
    - destruct (call_GetUserTimeline screen_name None 1 st) as [[e|[|t0 l]] st0] eqn:Hc.
      + rewrite (initialize_since_id_raised _ _ _ _ Hs Hc) in Hinit. discriminate.
      + rewrite (initialize_since_id_empty _ _ _ Hs Hc) in Hinit. discriminate.
      + destruct (initialize_since_id_item _ _ _ _ _ Hs Hc) as (t & _ & Heq).
        rewrite Heq in Hinit. inversion Hinit; subst. simpl.
        rewrite lookup_insert_eq. eauto. }
  split; [exact Hstored|]. destruct Hstored as [s Hs].
  intros r st2 msg Hwin ->. unfold fetch_window in Hwin.
  apply bind_inv in Hwin as [(e & Hget & He)|(x & sta & Hget & Hwin)].
  { inversion Hget. }
  apply metadata_get_pure in Hget as [-> Hx]. inversion Hx; subst x. rewrite Hs in Hwin.
  apply bind_inv in Hwin as [(e & Hint & He)|(c & stb & Hint & Hwin)].
  { unfold int in Hint. destruct (Py.int_of_str s); inversion Hint; subst. discriminate. }
  apply bind_inv in Hwin as [(e & Hchk & He)|(b & stc & Hchk & Hwin)].
  { apply check_since_id_inv in Hchk as [(? & _ & Hr)|[(? & _ & Hr)|(e' & Hc & Hr & _)]];
      try discriminate.
    inversion Hr; subst. inversion He; subst.
    apply call_GetStatus_error in Hc as [(? & ?)|(? & ?)]; discriminate. }
  destruct b; simpl in Hwin;
    apply call_GetUserTimeline_error in Hwin as [(? & ?)|(? & ?)]; discriminate.
Qed.

(** X5.  In a run that passed the probe, found no cursor and got tweets
    from the bootstrap fetch, the string stored at line 85 is read back at
    line 89 as the id it was made of: the point lookup of line 93 is made
    on the id of the tweet the bootstrap chose, and [process] goes on from
    there. *)
Theorem bootstrap_then_lookup st l0 st1 t0 l st2 :
  metadata st !! SINCE_ID_KEY = None →
  call_GetUserTimeline screen_name None 1 st = (inr l0, st1) →
  call_GetUserTimeline screen_name None 1 st1 = (inr (t0 :: l), st2) →
  ∃ t st3,
    Py.max_by id (t0 :: l) = Some t ∧
    metadata st3 !! SINCE_ID_KEY = Some (Py.str_of_int (id t)) ∧
    trace st3 = trace st ++ [CallGetUserTimeline screen_name None 1;
                             CallGetUserTimeline screen_name None 1;
                             MetadataSet SINCE_ID_KEY (Py.str_of_int (id t))] ∧
    process screen_name st =
      (ignore_since_id ← check_since_id (id t);
       tweets ← fetch_tweets screen_name (id t) ignore_since_id;
       process_tweets tweets) st3.
Proof.
  intros Hnone Hprobe Hfetch.
  pose proof (call_GetUserTimeline_same_metadata _ _ _ _ _ _ Hprobe) as Hm1.
  unfold same_metadata in Hm1.
  assert (Hnone1 : metadata st1 !! SINCE_ID_KEY = None) by (rewrite Hm1; exact Hnone).
  destruct (initialize_since_id_item _ _ _ _ _ Hnone1 Hfetch) as (t & Hmax & Hinit).
  exists t. eexists. split; [exact Hmax|]. split; [|split].
  3:{ rewrite (process_probe_returned _ _ _ _ Hprobe).
      erewrite bind_inr by (rewrite Hinit; reflexivity).
      match goal with |- bind _ _ ?st3 = _ =>
        assert (Hwin : fetch_window screen_name st3 =
                  (ignore_since_id ← check_since_id (id t);
                   fetch_tweets screen_name (id t) ignore_since_id) st3)
      end.
      { unfold fetch_window. erewrite bind_inr by reflexivity.
        simpl metadata. rewrite lookup_insert_eq.
        unfold int at 1. rewrite int_of_str_of_int.
        erewrite bind_inr by reflexivity. reflexivity. }
      rewrite <- bind_assoc. unfold bind at 1 3. rewrite Hwin. reflexivity. }
  - simpl. apply lookup_insert_eq.
  - simpl. rewrite (call_GetUserTimeline_trace _ _ _ _ _ _ Hfetch),
      (call_GetUserTimeline_trace _ _ _ _ _ _ Hprobe), <- !app_assoc. reflexivity.
Qed.

(** X6.  The windowed fetch of lines 105-114 has no [except] clause: when
    it raises, with a cursor that was found and converted and a point
    lookup that was dealt with, [process] raises the same error, no tweet
    is handed to [extract_media], and the metadata store is what the
    bootstrap step left. *)
Theorem window_error_is_fatal st l st1 st2 s c b st3 e st4 :
  call_GetUserTimeline screen_name None 1 st = (inr l, st1) →
  initialize_since_id screen_name st1 = (inr tt, st2) →
  metadata st2 !! SINCE_ID_KEY = Some s →
  Py.int_of_str s = Some c →
  check_since_id c st2 = (inr b, st3) →
  fetch_tweets screen_name c b st3 = (inl e, st4) →
  process screen_name st = (inl e, st4) ∧
  Forall (λ ev, is_extraction ev = false) (new_events st st4) ∧
  metadata st4 = metadata st2.
Proof.
  intros Hprobe Hinit Hs Hc Hchk Hfetch.
  assert (Hwin : fetch_window screen_name st2 = (inl e, st4)).
  { unfold fetch_window. erewrite bind_inr by reflexivity. rewrite Hs.
    unfold int at 1. rewrite Hc. erewrite bind_inr by reflexivity.
    erewrite bind_inr by exact Hchk. exact Hfetch. }
  split; [|split].
  - rewrite (process_probe_returned _ _ _ _ Hprobe).
    erewrite bind_inr by exact Hinit. erewrite bind_inl by exact Hwin. reflexivity.
  - set (Q := λ ev : Event Status, negb (is_extraction ev)).
    assert (Hem : emits Q st st4).
    { etransitivity; [|etransitivity].
      - eapply (call_GetUserTimeline_emits Q); [reflexivity|exact Hprobe].
      - eapply (initialize_since_id_emits screen_name Q); [reflexivity|reflexivity|exact Hinit].
      - eapply (fetch_window_emits screen_name Q); [reflexivity|reflexivity|exact Hwin]. }
    apply emits_new_events in Hem. eapply Forall_impl; [exact Hem|].
    intros ev. unfold Q. destruct (is_extraction ev); simpl; congruence.
  - eapply fetch_window_same_metadata, Hwin.
Qed.

Lemma extract_documents_all tweets dss acc st :
  Forall2 (λ t documents, tweet_documents t = inr documents) tweets dss →
  ∃ st1,
    extract_documents tweets acc st = (inr (acc ++ concat dss), st1) ∧
    trace st1 = trace st ++ map CallExtractMedia tweets ∧
    metadata st1 = metadata st.
Proof.
  intros Hall. revert acc st.
  induction Hall as [|t ds tweets dss Ht _ IH]; intros acc st.
  - exists st. simpl. rewrite !app_nil_r. auto.
  - rewrite extract_documents_cons, Ht.
    destruct (IH (acc ++ ds) (record (CallExtractMedia t) st)) as (st1 & Hrun & Htr & Hm).
    exists st1. split; [|split].
    + rewrite Hrun. simpl. rewrite app_assoc. reflexivity.
    + rewrite Htr. simpl. rewrite <- app_assoc. reflexivity.
    + rewrite Hm. reflexivity.
Qed.

(** X7.  When extraction raises on none of the fetched tweets, the loop
    of lines 120-127 returns the documents of the first tweet, then those
    of the second, and so on, in the order of the fetch; [extract_media]
    has been called once on each tweet, in that order, and the metadata
    store is what it was. *)
Theorem extraction_output tweets dss st :
  Forall2 (λ t documents, tweet_documents t = inr documents) tweets dss →
  ∃ st1,
    process_tweets tweets st = (inr (concat dss), st1) ∧
    trace st1 = trace st ++ map CallExtractMedia tweets ∧
    metadata st1 = metadata st.
Proof.
  intros Hall. destruct tweets as [|t rest].
  - inversion Hall; subst. exists st. simpl. rewrite app_nil_r. auto.
  - exact (extract_documents_all (t :: rest) dss [] st Hall).
Qed.

End Further.

(** ** What the worker does to its collaborators *)

Section Effects.
Context {W Status TwitterMedia Document ContentStore : Type}.
Context `{Extractor Status TwitterMedia Document}.
Variable screen_name : string.
Implicit Types (st : State W Status ContentStore).

(** *** The events of a run *)

Lemma process_emits (P : Event Status → bool) :
  P (CallGetUserTimeline screen_name None 1) = true →
  (∀ v, P (MetadataSet SINCE_ID_KEY v) = true) →
  (∀ c, P (CallGetStatus c) = true) →
  (∀ since_id, P (CallGetUserTimeline screen_name since_id count) = true) →
  (∀ t, P (CallExtractMedia t) = true) →
  preserves (emits P) (process (W:=W) (ContentStore:=ContentStore) screen_name).
Proof.
  intros H1 H2 H3 H4 H5. unfold process.
  apply preserves_bind; [apply _|apply availability_probe_emits; exact H1|intros go_on].
  destruct go_on; simpl; [|apply preserves_ret; apply _].
  apply preserves_bind; [apply _|apply initialize_since_id_emits; assumption|intros _].
  apply preserves_bind; [apply _|apply fetch_window_emits; assumption|intros tweets].
  apply process_tweets_emits; assumption.
Qed.

Lemma post_process_emits (P : Event Status → bool) documents :
  (∀ v, P (MetadataSet SINCE_ID_KEY v) = true) →
  preserves (emits P) (post_process (W:=W) (ContentStore:=ContentStore) documents).
Proof.
  intros H2. destruct documents as [|d0 l]; [apply preserves_ret; apply _|].
  intros st r st1. destruct (post_process_cons d0 l st) as (d & _ & ->).
  intros Heq. inversion Heq; subst. apply (record_emits P _ st (H2 _)).
Qed.

(** X8.  Whatever [process] and [post_process] end with, every call of
    [GetUserTimeline] they have made is for [self.screen_name], with
    [count=1] and no [since_id] or with [count=200], and every write to
    the metadata store is to the key "since_id". *)
Theorem worker_stays_in_protocol st :
  Forall (λ ev, in_protocol screen_name ev = true)
    (new_events st (process screen_name st).2) ∧
  ∀ documents : list Document,
    Forall (λ ev, in_protocol screen_name ev = true)
      (new_events st (post_process documents st).2).
Proof.
  split.
  - destruct (process screen_name st) as [r st1] eqn:Hrun.
    apply (emits_new_events (in_protocol screen_name)).
    revert Hrun. apply process_emits.
    + simpl. rewrite String.eqb_refl. reflexivity.
    + intros v. reflexivity.
    + intros c. reflexivity.
    + intros [c|]; simpl; rewrite String.eqb_refl; reflexivity.
    + intros t. reflexivity.
  - intros documents. destruct (post_process documents st) as [r st1] eqn:Hrun.
    apply (emits_new_events (in_protocol screen_name)).
    revert Hrun. apply post_process_emits. intros v. reflexivity.
Qed.

(** *** Counting the calls of the gateway *)

Lemma gateway_calls_app (e1 e2 : list (Event Status)) :
  gateway_calls (e1 ++ e2) = (gateway_calls e1 + gateway_calls e2)%nat.
Proof. unfold gateway_calls. rewrite List.filter_app, length_app. reflexivity. Qed.

Lemma at_most_calls_refl n st : at_most_calls n st st.
Proof. exists []. rewrite app_nil_r. split; [reflexivity|unfold gateway_calls; simpl; lia]. Qed.

Lemma at_most_calls_mono (n m : nat) st st1 :
  (n ≤ m)%nat → at_most_calls n st st1 → at_most_calls m st st1.
Proof. intros Hnm (evs & Htr & Hle). exists evs. split; [exact Htr|lia]. Qed.

Lemma at_most_calls_trans (n m : nat) st st1 st2 :
  at_most_calls n st st1 → at_most_calls m st1 st2 → at_most_calls (n + m) st st2.
Proof.
  intros (e1 & H1 & L1) (e2 & H2 & L2). exists (e1 ++ e2). split.
  - rewrite H2, H1, app_assoc. reflexivity.
  - rewrite gateway_calls_app. lia.
Qed.

Lemma bind_at_most_calls (n k : nat) {A B}
  (m : M (St:=State W Status ContentStore) A) (f : A → M B) :
  preserves (at_most_calls (W:=W) (Status:=Status) (ContentStore:=ContentStore) n) m →
  (∀ a, preserves (at_most_calls (W:=W) (Status:=Status) (ContentStore:=ContentStore) k) (f a)) →
  preserves (at_most_calls (W:=W) (Status:=Status) (ContentStore:=ContentStore) (n + k)) (bind m f).
Proof.
  intros Hm Hf st r st2 Heq.
  apply bind_inv in Heq as [(e & Hs & _)|(a & st1 & Hs & Hks)].
  - eapply at_most_calls_mono; [|eapply Hm, Hs]. lia.
  - eapply at_most_calls_trans; [eapply Hm, Hs|eapply Hf, Hks].
Qed.

Lemma emits_at_most_calls (P : Event Status → bool) st st1 :
  (∀ ev, P ev = true → is_gateway_call ev = false) →
  emits P st st1 → at_most_calls 0 st st1.
Proof.
  intros HP (evs & Htr & Hall). exists evs. split; [exact Htr|]. clear Htr.
  induction Hall as [|ev evs Hev _ IH]; [unfold gateway_calls; simpl; lia|].
  unfold gateway_calls in *. simpl. rewrite (HP ev Hev). exact IH.
Qed.

Lemma call_GetUserTimeline_one_call name since_id n :
  preserves (at_most_calls (W:=W) (Status:=Status) (ContentStore:=ContentStore) 1)
    (call_GetUserTimeline (W:=W) (Status:=Status) (ContentStore:=ContentStore)
       name since_id n).
Proof.
  intros st r st1 Hc. apply call_GetUserTimeline_inv in Hc
    as [(_ & -> & _)|(api & ur & w & _ & _ & _ & ->)]; [apply at_most_calls_refl|].
  exists [CallGetUserTimeline name since_id n]. split; [reflexivity|unfold gateway_calls; simpl; lia].
Qed.

Lemma call_GetStatus_one_call i :
  preserves (at_most_calls (W:=W) (Status:=Status) (ContentStore:=ContentStore) 1)
    (call_GetStatus (W:=W) (Status:=Status) (ContentStore:=ContentStore) i).
Proof.
  intros st r st1 Hc. apply call_GetStatus_inv in Hc
    as [(_ & -> & _)|(api & ur & w & _ & _ & _ & ->)]; [apply at_most_calls_refl|].
  exists [CallGetStatus i]. split; [reflexivity|unfold gateway_calls; simpl; lia].
Qed.

Lemma initialize_since_id_one_call :
  preserves (at_most_calls (W:=W) (Status:=Status) (ContentStore:=ContentStore) 1)
    (initialize_since_id (W:=W) (ContentStore:=ContentStore) screen_name).
Proof.
  unfold initialize_since_id.
  apply (bind_at_most_calls 0 1).
  { intros st r st1 Heq. inversion Heq; subst. apply at_most_calls_refl. }
  intros stored. destruct stored; simpl.
  { intros st r st1 Heq. inversion Heq; subst. apply at_most_calls_refl. }
  apply (bind_at_most_calls 1 0); [apply call_GetUserTimeline_one_call|].
  intros [|t0 l].
  { intros st r st1 Heq. inversion Heq; subst. apply at_most_calls_refl. }
  apply (bind_at_most_calls 0 0).
  { intros st r st1 Heq. inversion Heq; subst. apply at_most_calls_refl. }
  intros t st r st1 Heq. inversion Heq; subst.
  exists [MetadataSet SINCE_ID_KEY (Py.str_of_int (id t))]. split; [reflexivity|unfold gateway_calls; simpl; lia].
Qed.

Lemma fetch_window_two_calls :
  preserves (at_most_calls (W:=W) (Status:=Status) (ContentStore:=ContentStore) 2)
    (fetch_window (W:=W) (ContentStore:=ContentStore) screen_name).
Proof.
  unfold fetch_window.
  apply (bind_at_most_calls 0 2).
  { intros st r st1 Hg. apply metadata_get_pure in Hg as [-> _]. apply at_most_calls_refl. }
  intros x. apply (bind_at_most_calls 0 2).
  { intros st r st1 Hi. apply int_pure in Hi as ->. apply at_most_calls_refl. }
  intros c. apply (bind_at_most_calls 1 1).
  - intros st r st1 Hp.
    apply check_since_id_inv in Hp as [(l & Hc & _)|[(e & Hc & _)|(e & Hc & _)]];
      eapply call_GetStatus_one_call, Hc.
  - intros b. destruct b; apply call_GetUserTimeline_one_call.
Qed.

Lemma process_tweets_no_call tweets :
  preserves (at_most_calls (W:=W) (Status:=Status) (ContentStore:=ContentStore) 0)
    (process_tweets (W:=W) (ContentStore:=ContentStore) tweets).
Proof.
  intros st r st1 Heq. apply (emits_at_most_calls is_extraction).
  - intros [| | |] Hev; simpl in *; congruence.
  - revert Heq. apply process_tweets_emits. reflexivity.
Qed.

(** X9.  One [process] makes at most four calls of the gateway (the probe,
    the bootstrap fetch, the point lookup, the windowed fetch), at most
    three when a cursor is stored at the start; [post_process] makes
    none. *)
Theorem gateway_call_budget st :
  (gateway_calls (new_events st (process screen_name st).2) ≤ 4)%nat ∧
  (is_Some (metadata st !! SINCE_ID_KEY) →
   (gateway_calls (new_events st (process screen_name st).2) ≤ 3)%nat) ∧
  (∀ documents : list Document,
     gateway_calls (new_events st (post_process documents st).2) = 0%nat).
Proof.
  assert (Hprobe : preserves (at_most_calls (W:=W) (Status:=Status) (ContentStore:=ContentStore) 1)
            (availability_probe (W:=W) (ContentStore:=ContentStore) screen_name)).
  { intros s0 r s1 Hp.
    apply availability_probe_inv in Hp as [(l & Hc & _)|(e & Hc & _)];
      eapply call_GetUserTimeline_one_call, Hc. }
  assert (Hrest : ∀ n, preserves (at_most_calls (W:=W) (Status:=Status) (ContentStore:=ContentStore) n)
            (initialize_since_id (W:=W) (ContentStore:=ContentStore) screen_name) →
          preserves (at_most_calls (W:=W) (Status:=Status) (ContentStore:=ContentStore) (1 + (n + (2 + 0))))
            (process (W:=W) (ContentStore:=ContentStore) screen_name)).
  { intros n Hinit. unfold process.
    apply (bind_at_most_calls 1 (n + (2 + 0))); [exact Hprobe|].
    intros go_on. destruct go_on; simpl.
    - apply (bind_at_most_calls n (2 + 0)); [exact Hinit|]. intros _.
      apply (bind_at_most_calls 2 0); [apply fetch_window_two_calls|].
      intros tweets. apply process_tweets_no_call.
    - intros s0 r s1 Heq. inversion Heq; subst. apply at_most_calls_refl. }
  destruct (process screen_name st) as [r st1] eqn:Hproc. simpl.
  split; [|split].
  - destruct (Hrest 1%nat initialize_since_id_one_call _ _ _ Hproc) as (evs & Htr & Hle).
    rewrite (new_events_app _ _ _ Htr). simpl in Hle. lia.
  - intros [s Hs].
    destruct (call_GetUserTimeline screen_name None 1 st) as [[e|l] st0] eqn:Hc.
    + rewrite (process_probe_raised _ _ _ _ Hc) in Hproc. inversion Hproc; subst.
      destruct (call_GetUserTimeline_one_call _ _ _ _ _ _ Hc) as (evs & Htr & Hle).
      rewrite (new_events_app _ _ _ Htr). lia.
    + rewrite (process_probe_returned _ _ _ _ Hc) in Hproc.
      pose proof (call_GetUserTimeline_same_metadata _ _ _ _ _ _ Hc) as Hm.
      unfold same_metadata in Hm.
      assert (Hs0 : metadata st0 !! SINCE_ID_KEY = Some s) by (rewrite Hm; exact Hs).
      erewrite bind_inr in Hproc by (eapply initialize_since_id_stored; exact Hs0).
      assert (Hafter : at_most_calls (2 + 0) st0 st1).
      { revert Hproc. apply (bind_at_most_calls 2 0); [apply fetch_window_two_calls|].
        intros tweets. apply process_tweets_no_call. }
      destruct (at_most_calls_trans _ _ _ _ _
                  (call_GetUserTimeline_one_call _ _ _ _ _ _ Hc) Hafter)
        as (evs & Htr & Hle).
      rewrite (new_events_app _ _ _ Htr). simpl in Hle. lia.
  - intros documents. destruct (post_process documents st) as [r2 st2] eqn:Hpost. simpl.
    assert (Hem : emits (λ ev, negb (is_gateway_call ev)) st st2).
    { revert Hpost. apply post_process_emits. reflexivity. }
    destruct (emits_at_most_calls _ _ _
                (λ ev Hev, proj1 (negb_true_iff _) Hev) Hem) as (evs & Htr & Hle).
    rewrite (new_events_app _ _ _ Htr). lia.
Qed.

(** *** What the worker leaves alone *)

(** X10.  Whatever [process] ends with, and whatever [post_process] does
    on whatever documents, the document sink is what it was, every key of
    the metadata store other than "since_id" holds what it held, and a
    cursor that was stored is still stored: the worker overwrites its
    cursor but never removes it. *)
Theorem worker_frame st :
  (content (process screen_name st).2 = content st ∧
   (∀ key, key ≠ SINCE_ID_KEY →
      metadata (process screen_name st).2 !! key = metadata st !! key) ∧
   (is_Some (metadata st !! SINCE_ID_KEY) →
    metadata (process screen_name st).2 = metadata st)) ∧
  ∀ documents : list Document,
    content (post_process documents st).2 = content st ∧
    (∀ key, key ≠ SINCE_ID_KEY →
       metadata (post_process documents st).2 !! key = metadata st !! key) ∧
    (is_Some (metadata st !! SINCE_ID_KEY) →
     is_Some (metadata (post_process documents st).2 !! SINCE_ID_KEY)).
Proof.
  split.
  - destruct (process screen_name st) as [r st1] eqn:Hproc. simpl.
    pose proof (process_extends _ _ _ _ Hproc) as (_ & Hcontent & _).
    pose proof (process_metadata _ _ _ _ Hproc) as Hmeta.
    split; [exact Hcontent|]. split.
    + intros key Hkey. destruct Hmeta as [->|(_ & t & ->)]; [reflexivity|].
      apply lookup_insert_ne. congruence.
    + intros [s Hs]. destruct Hmeta as [Hm|(Hnone & _)]; [exact Hm|congruence].
  - intros [|d0 l]; [simpl; auto|].
    destruct (post_process_cons d0 l st) as (d & _ & ->). simpl.
    split; [reflexivity|]. split.
    + intros key Hkey. apply lookup_insert_ne. congruence.
    + intros _. rewrite lookup_insert_eq. eauto.
Qed.

(** X12.  A stored cursor that [int] rejects is never repaired by the
    worker.  On such a state [process] leaves the metadata store as it is;
    if the probe returns, [process] raises the [ValueError] of line 89,
    whose text ends with the [repr] of the cursor, after the probe alone;
    and the only way [process] can return is with the empty list, on
    which [post_process] does nothing.  So every later run meets the same
    cursor. *)
Theorem malformed_cursor_persists st s :
  metadata st !! SINCE_ID_KEY = Some s →
  Py.int_of_str s = None →
  metadata (process screen_name st).2 = metadata st ∧
  (∀ l st1,
     call_GetUserTimeline screen_name None 1 st = (inr l, st1) →
     process screen_name st =
       (inl (ValueError ("invalid literal for int() with base 10: " +:+ Py.repr_200 s)), st1)) ∧
  (∀ documents,
     (process screen_name st).1 = inr documents →
     documents = [] ∧
     post_process documents (process screen_name st).2 =
       (inr tt, (process screen_name st).2)).
Proof.
  intros Hs Hbad.
  destruct (call_GetUserTimeline screen_name None 1 st) as [[e|l] st1] eqn:Hc.
  - pose proof (call_GetUserTimeline_same_metadata _ _ _ _ _ _ Hc) as Hm.
    unfold same_metadata in Hm.
    rewrite (process_probe_raised _ _ _ _ Hc). simpl.
    split; [exact Hm|]. split; [intros ? ? [=]|].
    intros documents. destruct (is_not_authorized e); intros [= <-]. auto.
  - pose proof (call_GetUserTimeline_same_metadata _ _ _ _ _ _ Hc) as Hm.
    unfold same_metadata in Hm.
    assert (Hs1 : metadata st1 !! SINCE_ID_KEY = Some s) by (rewrite Hm; exact Hs).
    assert (Hproc : process screen_name st =
              (inl (ValueError ("invalid literal for int() with base 10: " +:+ Py.repr_200 s)), st1)).
    { rewrite (process_probe_returned _ _ _ _ Hc).
      erewrite bind_inr by (eapply initialize_since_id_stored; exact Hs1).
      assert (Hwin : fetch_window screen_name st1 =
                (inl (ValueError ("invalid literal for int() with base 10: " +:+ Py.repr_200 s)), st1)).
      { unfold fetch_window. erewrite bind_inr by reflexivity. rewrite Hs1.
        unfold int. rewrite Hbad. reflexivity. }
      erewrite bind_inl by exact Hwin. reflexivity. }
    rewrite Hproc. simpl. split; [exact Hm|]. split.
    + intros l' st1' [= _ <-]. reflexivity.
    + intros documents [=].
Qed.

End Effects.

(** ** Concrete runs *)

Section Runs.
Import Demo.

Lemma probe_error_taxonomy_witness :
  call_GetUserTimeline "acct1" None 1 locked =
    (inl (TwitterError unauthorized), set_upstream [] (record (CallGetUserTimeline "acct1" None 1) locked)) ∧
  process (H:=by_tweet_id) "acct1" locked =
    (inr [], set_upstream [] (record (CallGetUserTimeline "acct1" None 1) locked)) ∧
  cursor (set_upstream [] (record (CallGetUserTimeline "acct1" None 1) locked)) = cursor locked.
Proof.
  pose proof (probe_error_taxonomy (H:=by_tweet_id) "acct1" locked
    (TwitterError unauthorized)
    (set_upstream [] (record (CallGetUserTimeline "acct1" None 1) locked))
    eq_refl) as (Hskip & _ & _ & Hcur).
  split; [reflexivity|]. split; [apply Hskip; reflexivity|exact Hcur].
Defined.

(** The API refuses the credentials with its error 220: the probe raises
    an authorization error, and [process] raises it instead of returning
    the empty list. *)
Lemma authorization_error_without_the_phrase :
  GetUserTimeline scripted "acct1" None 1 (upstream refused) =
    (raising credentials_refused, []) ∧
  is_authorization_error credentials_refused = true ∧
  (process (H:=by_tweet_id) "acct1" refused).1 =
    inl (TwitterError (error_text credentials_refused)) ∧
  (process (H:=by_tweet_id) "acct1" refused).1 ≠ inr [].
Proof. repeat split; [reflexivity..|discriminate]. Qed.

Lemma fetch_window_selection_witness :
  process (H:=by_tweet_id) "acct1" live =
    process_tweets (H:=by_tweet_id) [t502; t501]
      (Build_State (Some scripted) [] (metadata live) (content live)
         (trace live ++
            [CallGetUserTimeline "acct1" None 1; CallGetStatus 500;
             CallGetUserTimeline "acct1" (Some 500) 200])).
Proof.
  exact (proj1 (fetch_window_selection (H:=by_tweet_id) "acct1" live scripted
                  [t502] [Lookup (Returned t500); Timeline (Returned [t502; t501])]
                  "500" 500 (Returned t500) [Timeline (Returned [t502; t501])]
                  (Returned [t502; t501]) []
                  eq_refl eq_refl eq_refl eq_refl eq_refl eq_refl)).
Defined.

(** *** The two assumptions of C1 hold of the fixed timeline and of the
    extractor that names a document after its tweet *)

Lemma timeline_since_window_newer api :
  make_api no_env (λ _ _ _ _, Returned timeline) = Returned api →
  since_window_newer (H:=by_tweet_id) api.
Proof.
  intros [= <-] name c n w l w1 Hcall. simpl in Hcall. inversion Hcall; subst.
  apply Forall_take, Forall_forall. intros t Ht.
  apply list_elem_of_filter in Ht as [Hnew _]. simpl in Hnew.
  apply Z.ltb_lt in Hnew. exact Hnew.
Qed.

Lemma by_tweet_id_identifier : identifier_is_tweet_id (H:=by_tweet_id).
Proof.
  intros t d (documents & Hdocs & Hd).
  unfold tweet_documents in Hdocs. simpl in Hdocs. unfold media_of in Hdocs.
  destruct (malformed t); [discriminate|]. inversion Hdocs; subst.
  apply list_elem_of_In, in_map_iff in Hd as (m & <- & Hm).
  apply in_map_iff in Hm as (u & <- & _). simpl.
  apply int_of_str_of_int.
Qed.

(** *** C1 *)

(** The cursor 500 was deleted upstream and the newest tweet left is 100:
    the run falls back to the unbounded window and stores 100. *)
Lemma cursor_decreases_on_fallback :
  successful_runs (H:=by_tweet_id) no_env (λ _ _ _ _, Returned timeline) "acct1" deleted
    (run (H:=by_tweet_id) no_env (λ _ _ _ _, Returned timeline) "acct1" deleted).2 ∧
  cursor deleted = Some 500 ∧
  cursor (run (H:=by_tweet_id) no_env (λ _ _ _ _, Returned timeline) "acct1" deleted).2 = Some 100 ∧
  ¬ cursor_le (cursor deleted)
      (cursor (run (H:=by_tweet_id) no_env (λ _ _ _ _, Returned timeline) "acct1" deleted).2).
Proof.
  split; [|split; [|split]].
  - eapply (runs_cons _ _ _ _ [Build_Doc "100" 10 "a.jpg"]); [reflexivity|apply runs_nil].
  - reflexivity.
  - reflexivity.
  - vm_compute. intros Hle. apply Hle. reflexivity.
Qed.

Lemma cursor_monotone_while_live_witness :
  cursor_le (cursor caught_up)
    (cursor (run (H:=by_tweet_id) no_env (λ _ _ _ _, Returned timeline) "acct1" caught_up).2).
Proof.
  apply (cursor_monotone_while_live (H:=by_tweet_id) no_env (λ _ _ _ _, Returned timeline) "acct1").
  - exact timeline_since_window_newer.
  - exact by_tweet_id_identifier.
  - eapply (runs_cons _ _ _ _
      [Build_Doc "502" 30 "f.jpg"; Build_Doc "502" 30 "g.jpg"; Build_Doc "501" 10 "e.jpg"]);
      [reflexivity|apply runs_nil].
  - assert (Hev : new_events caught_up
        (run (H:=by_tweet_id) no_env (λ _ _ _ _, Returned timeline) "acct1" caught_up).2 =
        [CallGetUserTimeline "acct1" None 1; CallGetStatus 500;
         CallGetUserTimeline "acct1" (Some 500) 200;
         CallExtractMedia t502; CallExtractMedia t501;
         MetadataSet "since_id" "502"]) by reflexivity.
    rewrite Hev. intros Hin.
    repeat (apply elem_of_cons in Hin as [Hin|Hin]; [discriminate|]).
    inversion Hin.
Defined.

(** *** C2 *)

(** Two tweets of the same second, 601 listed before 602: the cursor is
    taken from the document of 601. *)
Lemma tie_broken_by_list_order :
  (run (H:=by_tweet_id) no_env (λ _ _ _ _, Returned scripted) "acct1" same_second).1 =
    inr [Build_Doc "601" 50 "h.jpg"; Build_Doc "602" 50 "i.jpg"] ∧
  document_of (H:=by_tweet_id) t601 (Build_Doc "601" 50 "h.jpg") ∧
  document_of (H:=by_tweet_id) t602 (Build_Doc "602" 50 "i.jpg") ∧
  document_to_created_at_in_seconds (Extractor:=by_tweet_id) (Build_Doc "601" 50 "h.jpg") =
    document_to_created_at_in_seconds (Extractor:=by_tweet_id) (Build_Doc "602" 50 "i.jpg") ∧
  id (Extractor:=by_tweet_id) t601 < id (Extractor:=by_tweet_id) t602 ∧
  metadata (run (H:=by_tweet_id) no_env (λ _ _ _ _, Returned scripted) "acct1" same_second).2
    !! SINCE_ID_KEY = Some "601" ∧
  metadata (run (H:=by_tweet_id) no_env (λ _ _ _ _, Returned scripted) "acct1" same_second).2
    !! SINCE_ID_KEY ≠
    Some (document_to_id (Extractor:=by_tweet_id) (Build_Doc "602" 50 "i.jpg")).
Proof.
  split; [reflexivity|]. split.
  { exists [Build_Doc "601" 50 "h.jpg"]. split; [reflexivity|left]. }
  split.
  { exists [Build_Doc "602" 50 "i.jpg"]. split; [reflexivity|left]. }
  split; [reflexivity|]. split; [reflexivity|]. split; [reflexivity|].
  vm_compute. discriminate.
Qed.

Lemma tie_break_first_listed_witness :
  ∃ before d after,
    [Build_Doc "601" 50 "h.jpg"; Build_Doc "602" 50 "i.jpg"] = before ++ d :: after ∧
    Forall (λ x, doc_created x < doc_created d) before ∧
    Forall (λ x, doc_created x ≤ doc_created d) after ∧
    metadata (post_process (H:=by_tweet_id)
                [Build_Doc "601" 50 "h.jpg"; Build_Doc "602" 50 "i.jpg"] locked).2
      !! SINCE_ID_KEY = Some (doc_id d).
Proof.
  destruct (tie_break_first_listed (H:=by_tweet_id)
              [Build_Doc "601" 50 "h.jpg"; Build_Doc "602" 50 "i.jpg"] locked)
    as (before & d & after & Hsplit & Hb & Ha & _ & Hany); [discriminate|].
  exists before, d, after. split; [exact Hsplit|]. split; [exact Hb|]. split; [exact Ha|].
  apply Hany.
Defined.

(** *** C5 *)

(** No cursor is stored and the account may not be read: [process]
    returns the empty list, raises nothing and stores no cursor. *)
Lemma no_bootstrap_when_unauthorized :
  metadata locked_fresh !! SINCE_ID_KEY = None ∧
  (process (H:=by_tweet_id) "acct1" locked_fresh).1 = inr [] ∧
  metadata (process (H:=by_tweet_id) "acct1" locked_fresh).2 !! SINCE_ID_KEY = None ∧
  trace (process (H:=by_tweet_id) "acct1" locked_fresh).2 =
    [CallGetUserTimeline "acct1" None 1].
Proof. repeat split; reflexivity. Qed.

Lemma bootstrap_behaviour_witness :
  ∃ t st3,
    Py.max_by (id (Extractor:=by_tweet_id)) [t100] = Some t ∧
    initialize_since_id (H:=by_tweet_id) "acct1"
      (call_GetUserTimeline "acct1" None 1 fresh).2 = (inr tt, st3) ∧
    metadata st3 =
      <[SINCE_ID_KEY := Py.str_of_int (id (Extractor:=by_tweet_id) t)]> (metadata fresh).
Proof.
  destruct (bootstrap_behaviour (H:=by_tweet_id) "acct1" fresh [t100]
              (call_GetUserTimeline "acct1" None 1 fresh).2
              (inr [t100])
              (call_GetUserTimeline "acct1" None 1
                 (call_GetUserTimeline "acct1" None 1 fresh).2).2
              eq_refl eq_refl eq_refl)
    as (_ & t & st3 & Hmax & _ & Hinit & Hm & _).
  exists t, st3. split; [exact Hmax|]. split; [exact Hinit|exact Hm].
Defined.

(** *** C6 *)

(** No cursor is stored, the bootstrap stores 100, and the windowed fetch
    raises: the run fails and the cursor 100 stays. *)
Lemma bootstrap_cursor_survives_fatal_run :
  (process (H:=by_tweet_id) "acct1" fresh_then_limited).1 = inl (TwitterError rate_limit) ∧
  metadata fresh_then_limited !! SINCE_ID_KEY = None ∧
  metadata (process (H:=by_tweet_id) "acct1" fresh_then_limited).2 !! SINCE_ID_KEY =
    Some "100" ∧
  metadata (process (H:=by_tweet_id) "acct1" fresh_then_limited).2 !! SINCE_ID_KEY ≠
    metadata fresh_then_limited !! SINCE_ID_KEY.
Proof.
  split; [reflexivity|]. split; [reflexivity|]. split; [reflexivity|].
  vm_compute. discriminate.
Qed.

Lemma fatal_run_cursor_witness :
  metadata (process (H:=by_tweet_id) "acct1" live_then_limited).2 =
    metadata live_then_limited ∧
  ∃ t, Py.max_by tweet_id [t100] = Some t ∧
       metadata (process (H:=by_tweet_id) "acct1" fresh_then_limited).2 =
         <[SINCE_ID_KEY := Py.str_of_int (tweet_id t)]> (metadata fresh_then_limited).
Proof.
  split.
  - refine (proj1 (fatal_run_cursor (H:=by_tweet_id) "acct1" live_then_limited
                     (TwitterError rate_limit) _ _) _).
    + reflexivity.
    + exists "500". reflexivity.
  - destruct (proj2 (fatal_run_cursor (H:=by_tweet_id) "acct1" fresh_then_limited
                       (TwitterError rate_limit)
                       (process (H:=by_tweet_id) "acct1" fresh_then_limited).2 eq_refl)
                eq_refl)
      as [[_ [Hprobe|(l & sta & Hp & Hinit)]]
         |(l & sta & init_tweets & stb & t & Hprobe & Hfetch & Hmax & Hm)].
    + discriminate Hprobe.
    + exfalso. assert (Hc : (initialize_since_id (H:=by_tweet_id) "acct1"
                               (call_GetUserTimeline "acct1" None 1 fresh_then_limited).2).1
                            = inr tt) by reflexivity.
      assert (Hsta : sta = (call_GetUserTimeline "acct1" None 1 fresh_then_limited).2).
      { inversion Hp. reflexivity. }
      rewrite <- Hsta, Hinit in Hc. discriminate Hc.
    + assert (Hsta : sta = (call_GetUserTimeline "acct1" None 1 fresh_then_limited).2).
      { inversion Hprobe. reflexivity. }
      subst sta.
      assert (Hinit : init_tweets = [t100]) by (inversion Hfetch; reflexivity).
      subst init_tweets. exists t. split; [exact Hmax|exact Hm].
Defined.

(** *** C7 *)

(** No cursor is stored, the bootstrap stores 100 and the window after
    100 is empty: the run returns the empty list and the cursor has
    changed from none to 100. *)
Lemma bootstrap_run_with_empty_window :
  fetch_window "acct1"
    (initialize_since_id (H:=by_tweet_id) "acct1"
       (call_GetUserTimeline "acct1" None 1 fresh).2).2 =
    (inr [], (process (H:=by_tweet_id) "acct1" fresh).2) ∧
  (process (H:=by_tweet_id) "acct1" fresh).1 = inr [] ∧
  (post_process (H:=by_tweet_id) [] (process (H:=by_tweet_id) "acct1" fresh).2).2 =
    (process (H:=by_tweet_id) "acct1" fresh).2 ∧
  metadata fresh !! SINCE_ID_KEY = None ∧
  metadata (process (H:=by_tweet_id) "acct1" fresh).2 !! SINCE_ID_KEY = Some "100" ∧
  metadata (process (H:=by_tweet_id) "acct1" fresh).2 ≠ metadata fresh.
Proof.
  split; [reflexivity|]. split; [reflexivity|]. split; [reflexivity|].
  split; [reflexivity|]. split; [reflexivity|].
  intros Heq. apply (f_equal (λ m : gmap string string, m !! SINCE_ID_KEY)) in Heq.
  vm_compute in Heq. discriminate.
Qed.

Lemma empty_window_no_op_witness :
  process (H:=by_tweet_id) "acct1" live_nothing_new =
    (inr [], (fetch_window "acct1" (call_GetUserTimeline "acct1" None 1 live_nothing_new).2).2) ∧
  metadata (fetch_window "acct1" (call_GetUserTimeline "acct1" None 1 live_nothing_new).2).2 =
    metadata live_nothing_new.
Proof.
  destruct (empty_window_no_op (H:=by_tweet_id) "acct1" live_nothing_new [t500]
              (call_GetUserTimeline "acct1" None 1 live_nothing_new).2
              (call_GetUserTimeline "acct1" None 1 live_nothing_new).2
              (fetch_window "acct1" (call_GetUserTimeline "acct1" None 1 live_nothing_new).2).2
              eq_refl eq_refl eq_refl)
    as (Hproc & _ & _ & _ & Hm & _).
  split; [exact Hproc|]. apply Hm. exists "500". reflexivity.
Defined.

(** *** C9 *)



(** *** C10 *)

(** The identifier of a document is the address of its media.  The first
    run stores "d.jpg" as cursor; the second run finds the account locked
    and returns the empty list without ever converting the cursor. *)
Lemma locked_run_never_parses_cursor :
  (run (H:=by_url) no_env (λ _ _ _ _, Returned scripted) "acct1" live_then_locked).1 =
    inr [Build_Doc "103" 40 "d.jpg"] ∧
  metadata (run (H:=by_url) no_env (λ _ _ _ _, Returned scripted) "acct1" live_then_locked).2
    !! SINCE_ID_KEY =
    Some (document_to_id (Extractor:=by_url) (Build_Doc "103" 40 "d.jpg")) ∧
  Py.int_of_str (document_to_id (Extractor:=by_url) (Build_Doc "103" 40 "d.jpg")) = None ∧
  (run (H:=by_url) no_env (λ _ _ _ _, Returned scripted) "acct1"
     (run (H:=by_url) no_env (λ _ _ _ _, Returned scripted) "acct1" live_then_locked).2).1 = inr [].
Proof. repeat split; reflexivity. Qed.

Lemma cursor_format_precondition_witness :
  metadata (post_process (H:=by_url) [Build_Doc "103" 40 "d.jpg"] locked).2
    !! SINCE_ID_KEY = Some "d.jpg" ∧
  (process (H:=by_url) "acct1" after_url_cursor).1 =
    inl (ValueError "invalid literal for int() with base 10: 'd.jpg'").
Proof.
  destruct (cursor_format_precondition (H:=by_url) "acct1"
              [Build_Doc "103" 40 "d.jpg"] locked)
    as (d & Hd & Hm & Hlater); [discriminate|].
  apply list_elem_of_singleton in Hd. subst d. split; [exact Hm|].
  destruct (Hlater after_url_cursor [t103]
              (call_GetUserTimeline "acct1" None 1 after_url_cursor).2 eq_refl eq_refl)
    as [[Hproc _] _].
  rewrite Hproc. reflexivity.
Defined.

End Runs.

(** ** Concrete runs for the further properties *)

Section FurtherRuns.
Import Demo.

Lemma bootstrap_cursor_is_newest_witness :
  ∃ init_tweets st0 t,
    call_GetUserTimeline "acct1" None 1 (call_GetUserTimeline "acct1" None 1 fresh).2 =
      (inr init_tweets, st0) ∧
    t ∈ init_tweets ∧
    (∀ t1, t1 ∈ init_tweets → tweet_id t1 ≤ tweet_id t) ∧
    cursor (initialize_since_id (H:=by_tweet_id) "acct1"
              (call_GetUserTimeline "acct1" None 1 fresh).2).2 = Some (tweet_id t).
Proof.
  destruct (bootstrap_cursor_is_newest (H:=by_tweet_id) "acct1"
              (call_GetUserTimeline "acct1" None 1 fresh).2
              (initialize_since_id (H:=by_tweet_id) "acct1"
                 (call_GetUserTimeline "acct1" None 1 fresh).2).2
              eq_refl eq_refl)
    as (init_tweets & st0 & t & Hc & Ht & Hmax & _ & Hcur).
  exists init_tweets, st0, t. split; [exact Hc|]. split; [exact Ht|].
  split; [exact Hmax|exact Hcur].
Defined.

Lemma bootstrap_leaves_a_cursor_witness :
  is_Some (metadata (initialize_since_id (H:=by_tweet_id) "acct1"
                       (call_GetUserTimeline "acct1" None 1 fresh).2).2
           !! SINCE_ID_KEY).
Proof.
  exact (proj1 (bootstrap_leaves_a_cursor (H:=by_tweet_id) "acct1"
                  (call_GetUserTimeline "acct1" None 1 fresh).2
                  (initialize_since_id (H:=by_tweet_id) "acct1"
                     (call_GetUserTimeline "acct1" None 1 fresh).2).2
                  eq_refl)).
Defined.

Lemma bootstrap_then_lookup_witness :
  ∃ t st3,
    Py.max_by tweet_id [t100] = Some t ∧
    process (H:=by_tweet_id) "acct1" fresh =
      (ignore_since_id ← check_since_id (tweet_id t);
       tweets ← fetch_tweets "acct1" (tweet_id t) ignore_since_id;
       process_tweets (H:=by_tweet_id) tweets) st3.
Proof.
  destruct (bootstrap_then_lookup (H:=by_tweet_id) "acct1" fresh [t100]
              (call_GetUserTimeline "acct1" None 1 fresh).2 t100 []
              (call_GetUserTimeline "acct1" None 1
                 (call_GetUserTimeline "acct1" None 1 fresh).2).2
              eq_refl eq_refl eq_refl)
    as (t & st3 & Hmax & _ & _ & Hproc).
  exists t, st3. split; [exact Hmax|exact Hproc].
Defined.

Lemma window_error_is_fatal_witness :
  (process (H:=by_tweet_id) "acct1" live_then_limited).1 = inl (TwitterError rate_limit).
Proof.
  rewrite (proj1 (window_error_is_fatal (H:=by_tweet_id) "acct1" live_then_limited
             [t502] (call_GetUserTimeline "acct1" None 1 live_then_limited).2
             (call_GetUserTimeline "acct1" None 1 live_then_limited).2
             "500" 500 false
             (call_GetStatus 500 (call_GetUserTimeline "acct1" None 1 live_then_limited).2).2
             (TwitterError rate_limit)
             (call_GetUserTimeline "acct1" (Some 500) 200
                (call_GetStatus 500
                   (call_GetUserTimeline "acct1" None 1 live_then_limited).2).2).2
             eq_refl eq_refl eq_refl eq_refl eq_refl eq_refl)).
  reflexivity.
Defined.

Lemma extraction_output_witness :
  ∃ st1,
    process_tweets (H:=by_tweet_id) [t101; t103] locked =
      (inr (concat [[]; [Build_Doc "103" 40 "d.jpg"]]), st1) ∧
    trace st1 = trace locked ++ map CallExtractMedia [t101; t103] ∧
    metadata st1 = metadata locked.
Proof.
  apply (extraction_output (H:=by_tweet_id) [t101; t103]
           [[]; [Build_Doc "103" 40 "d.jpg"]] locked).
  repeat constructor.
Defined.

Lemma malformed_cursor_persists_witness :
  metadata (process (H:=by_url) "acct1" after_url_cursor).2 = metadata after_url_cursor ∧
  (process (H:=by_url) "acct1" after_url_cursor).1 =
    inl (ValueError "invalid literal for int() with base 10: 'd.jpg'").
Proof.
  destruct (malformed_cursor_persists (H:=by_url) "acct1" after_url_cursor "d.jpg"
              eq_refl eq_refl) as (Hm & Hraise & _).
  split; [exact Hm|].
  rewrite (Hraise [t103] (call_GetUserTimeline "acct1" None 1 after_url_cursor).2 eq_refl).
  reflexivity.
Defined.

End FurtherRuns.
